(** * AMA task data seeder: durability and failover core

    A shallow embedding of the services under
    [src/modules/common/services] (circuit breaker, state manager, metrics
    session tracker, SQLite manager, write handler, recovery manager) and
    the properties of the specification checked against them.

    Conventions of the embedding:
    - every service is a record of its private fields; a method is a
      function from the record to the updated record (and a result);
    - [Date.now()], [Math.random()] and the outcome of every remote or
      database call are inputs of the function that performs the call;
    - a rejected promise / thrown exception is the [Throw] outcome;
    - logger calls have no effect on the state and are left out. *)

From Stdlib Require Import ZArith List String Ascii Bool Lia.
From Stdlib Require Import Permutation Sorted DecimalString QArith_base.
Import ListNotations.
Open Scope string_scope.
Open Scope list_scope.
Open Scope Z_scope.

(** ** Enumerations *)

(** Modelled from the spec: [enums/circuit-breaker-state.enum.ts] is not
    among the sources; the three members are the ones the services compare
    against (CLOSED, OPEN, HALF_OPEN). *)
Inductive CircuitBreakerState : Type := CLOSED | OPEN | HALF_OPEN.

(** Modelled from the spec: [enums/state.enum.ts] is not among the sources;
    the producer mode is RedisMode or SqliteMode. *)
Inductive SeederState : Type := REDIS_MODE | SQLITE_MODE.

(** Modelled from the spec: [enums/recovery-status.enum.ts] is not among the
    sources; a persisted record is Pending, Recovering or Sent. *)
Inductive RecoveryStatus : Type := PENDING | RECOVERING | SENT.

Definition RecoveryStatus_eqb (a b : RecoveryStatus) : bool :=
  match a, b with
  | PENDING, PENDING | RECOVERING, RECOVERING | SENT, SENT => true
  | _, _ => false
  end.

Definition SeederState_eqb (a b : SeederState) : bool :=
  match a, b with
  | REDIS_MODE, REDIS_MODE | SQLITE_MODE, SQLITE_MODE => true
  | _, _ => false
  end.

Definition CircuitBreakerState_eqb (a b : CircuitBreakerState) : bool :=
  match a, b with
  | CLOSED, CLOSED | OPEN, OPEN | HALF_OPEN, HALF_OPEN => true
  | _, _ => false
  end.

(** ** JavaScript values used by the services *)

(** [`${n}`] for an integer-valued number. *)
Definition show_Z (n : Z) : string := NilZero.string_of_int (Z.to_int n).

(** [s.includes(pat)]. *)
Fixpoint includes (pat s : string) : bool :=
  String.prefix pat s ||
  match s with
  | EmptyString => false
  | String _ s' => includes pat s'
  end.

(** [s.toLowerCase()] on the ASCII letters; the patterns the services look
    for are ASCII. *)
Definition lower_ascii (c : ascii) : ascii :=
  let n := nat_of_ascii c in
  if (Nat.leb 65 n && Nat.leb n 90)%bool then ascii_of_nat (n + 32) else c.

Fixpoint toLowerCase (s : string) : string :=
  match s with
  | EmptyString => EmptyString
  | String c s' => String (lower_ascii c) (toLowerCase s')
  end.

(** The error object wrapped inside another one ([cause], [lastError],
    [originalError]): only [code] and [message] are read. *)
Record NestedError : Type := mkNested {
  n_code : option string;
  n_message : option string
}.

(** The value a rejected [queue.add] or a failing SQLite statement throws. *)
Record JsError : Type := mkError {
  message : option string;
  code : option string;
  stack : option string;
  cause : option NestedError;
  lastError : option NestedError;
  originalError : option NestedError
}.

(** [new Error(msg)]. *)
Definition Error (msg : string) : JsError :=
  mkError (Some msg) None None None None None.

(** [x || ''] for an optional string. *)
Definition orEmpty (x : option string) : string :=
  match x with Some s => s | None => "" end.

(** [a || b] for two optional objects. *)
Definition orElse {A : Type} (a b : option A) : option A :=
  match a with Some _ => a | None => b end.

(** A promise that has settled: fulfilled with a value or rejected. *)
Inductive Outcome (A : Type) : Type :=
| Ok (a : A)
| Throw (e : JsError).
Arguments Ok {A} a.
Arguments Throw {A} e.

(** Modelled from the spec: [car-seeder.interface.ts] is not among the
    sources; the fields are the ones [generateRandomCar] fills and the
    SQLite manager reads. [price] is a JavaScript number (a real in the
    table); the services only copy it. *)
Module Car.

Record t : Type := mk {
  normalizedMake : string;
  normalizedModel : string;
  year : Z;
  price : Q;
  location : string
}.

End Car.

(** ** circuit-breaker.service.ts *)

Module CircuitBreaker.

(** The private fields of [CircuitBreakerService]. [cooldownTimer] holds
    the delay of the pending [setTimeout], or [None] for [null]. *)
Record t : Type := mk {
  state : CircuitBreakerState;
  failureCount : Z;
  failureThreshold : Z;
  cooldownMs : Z;
  cooldownTimer : option Z
}.

(** [parseInt(process.env.X || 'd', 10) || d]: [env] is the parsed
    variable, [None] when it is unset or not a number. *)
Definition envOr (env : option Z) (d : Z) : Z :=
  match env with
  | Some v => if v =? 0 then d else v
  | None => d
  end.

Definition new (envThreshold envCooldown : option Z) : t :=
  mk CLOSED 0 (envOr envThreshold 5) (envOr envCooldown 2000) None.

Definition getState (cb : t) : CircuitBreakerState := state cb.
Definition getFailureCount (cb : t) : Z := failureCount cb.
Definition isClosed (cb : t) : bool := CircuitBreakerState_eqb (state cb) CLOSED.
Definition isOpen (cb : t) : bool := CircuitBreakerState_eqb (state cb) OPEN.
Definition isHalfOpen (cb : t) : bool :=
  CircuitBreakerState_eqb (state cb) HALF_OPEN.

Definition with_state (s : CircuitBreakerState) (cb : t) : t :=
  mk s (failureCount cb) (failureThreshold cb) (cooldownMs cb) (cooldownTimer cb).
Definition with_failureCount (n : Z) (cb : t) : t :=
  mk (state cb) n (failureThreshold cb) (cooldownMs cb) (cooldownTimer cb).
Definition with_cooldownTimer (tm : option Z) (cb : t) : t :=
  mk (state cb) (failureCount cb) (failureThreshold cb) (cooldownMs cb) tm.

Definition clearCooldownTimer (cb : t) : t := with_cooldownTimer None cb.

Definition startCooldown (cb : t) : t :=
  let cb := clearCooldownTimer cb in
  with_cooldownTimer (Some (cooldownMs cb)) cb.

Definition open (cb : t) : t := startCooldown (with_state OPEN cb).

Definition recordSuccess (cb : t) : t :=
  match state cb with
  | HALF_OPEN =>
      clearCooldownTimer (with_failureCount 0 (with_state CLOSED cb))
  | CLOSED => with_failureCount 0 cb
  | OPEN => cb
  end.

Definition recordFailure (cb : t) : t :=
  let cb := with_failureCount (failureCount cb + 1) cb in
  match state cb with
  | CLOSED =>
      if failureThreshold cb <=? failureCount cb then open cb else cb
  | HALF_OPEN => open cb
  | OPEN => cb
  end.

(** The callback armed by [startCooldown]; it runs only while the timer
    is pending. *)
Definition cooldownExpired (cb : t) : t :=
  match cooldownTimer cb with
  | Some _ => with_cooldownTimer None (with_state HALF_OPEN cb)
  | None => cb
  end.

Definition reset (cb : t) : t :=
  clearCooldownTimer (with_failureCount 0 (with_state CLOSED cb)).

Definition transitionToHalfOpen (cb : t) : t :=
  with_failureCount 0 (with_state HALF_OPEN (clearCooldownTimer cb)).

(** The calls the write handler makes on the breaker, and the timer. *)
Inductive event : Type := Success | Failure | CooldownExpired.

Definition step (cb : t) (e : event) : t :=
  match e with
  | Success => recordSuccess cb
  | Failure => recordFailure cb
  | CooldownExpired => cooldownExpired cb
  end.

Definition run (cb : t) (es : list event) : t := fold_left step es cb.

(** The breaker after each event of [es], oldest first. *)
Fixpoint trace (cb : t) (es : list event) : list t :=
  match es with
  | [] => []
  | e :: es' => step cb e :: trace (step cb e) es'
  end.

(** The states the breaker goes through, the initial one first. *)
Definition states (cb : t) (es : list event) : list CircuitBreakerState :=
  map state (cb :: trace cb es).

(** Every call that changes the breaker, and the expiry of its timer. *)
Inductive op : Type :=
| RecordSuccess
| RecordFailure
| TimerFired
| Reset
| TransitionToHalfOpen.

Definition apply (cb : t) (o : op) : t :=
  match o with
  | RecordSuccess => recordSuccess cb
  | RecordFailure => recordFailure cb
  | TimerFired => cooldownExpired cb
  | Reset => reset cb
  | TransitionToHalfOpen => transitionToHalfOpen cb
  end.

Definition exec (cb : t) (os : list op) : t := fold_left apply os cb.

(** What holds of a breaker built with threshold [thr] and cooldown [cd],
    however it was driven. *)
Definition well_formed (thr cd : Z) (cb : t) : Prop :=
  failureThreshold cb = thr /\ cooldownMs cb = cd /\
  0 <= failureCount cb /\
  match state cb with
  | OPEN => cooldownTimer cb = Some cd
  | HALF_OPEN => cooldownTimer cb = None
  | CLOSED =>
      cooldownTimer cb = None /\
      (failureCount cb = 0 \/ failureCount cb < thr)
  end.

End CircuitBreaker.

(** ** state-manager.service.ts *)

Module StateManager.

Record t : Type := mk { currentState : SeederState }.

Definition new : t := mk REDIS_MODE.
Definition getState (sm : t) : SeederState := currentState sm.
Definition setState (s : SeederState) (sm : t) : t := mk s.
Definition isRedisMode (sm : t) : bool :=
  SeederState_eqb (currentState sm) REDIS_MODE.
Definition isSqliteMode (sm : t) : bool :=
  SeederState_eqb (currentState sm) SQLITE_MODE.

End StateManager.

(** ** metrics.service.ts *)

Module FailoverSession.

Record t : Type := mk {
  sessionId : string;
  masterFailureDetectedAt : option Z;
  sentinelPromotionDetectedAt : option Z;
  stateTransitionToSqliteAt : option Z;
  stateTransitionToRedisAt : option Z;
  recoveryStartedAt : option Z;
  recoveryCompletedAt : option Z;
  sqliteFallbackCount : Z;
  isActive : bool
}.

Definition with_masterFailureDetectedAt (v : option Z) (s : t) : t :=
  mk (sessionId s) v (sentinelPromotionDetectedAt s)
     (stateTransitionToSqliteAt s) (stateTransitionToRedisAt s)
     (recoveryStartedAt s) (recoveryCompletedAt s) (sqliteFallbackCount s)
     (isActive s).
Definition with_sentinelPromotionDetectedAt (v : option Z) (s : t) : t :=
  mk (sessionId s) (masterFailureDetectedAt s) v
     (stateTransitionToSqliteAt s) (stateTransitionToRedisAt s)
     (recoveryStartedAt s) (recoveryCompletedAt s) (sqliteFallbackCount s)
     (isActive s).
Definition with_stateTransitionToSqliteAt (v : option Z) (s : t) : t :=
  mk (sessionId s) (masterFailureDetectedAt s)
     (sentinelPromotionDetectedAt s) v (stateTransitionToRedisAt s)
     (recoveryStartedAt s) (recoveryCompletedAt s) (sqliteFallbackCount s)
     (isActive s).
Definition with_stateTransitionToRedisAt (v : option Z) (s : t) : t :=
  mk (sessionId s) (masterFailureDetectedAt s)
     (sentinelPromotionDetectedAt s) (stateTransitionToSqliteAt s) v
     (recoveryStartedAt s) (recoveryCompletedAt s) (sqliteFallbackCount s)
     (isActive s).
Definition with_recoveryStartedAt (v : option Z) (s : t) : t :=
  mk (sessionId s) (masterFailureDetectedAt s)
     (sentinelPromotionDetectedAt s) (stateTransitionToSqliteAt s)
     (stateTransitionToRedisAt s) v (recoveryCompletedAt s)
     (sqliteFallbackCount s) (isActive s).
Definition with_recoveryCompletedAt (v : option Z) (s : t) : t :=
  mk (sessionId s) (masterFailureDetectedAt s)
     (sentinelPromotionDetectedAt s) (stateTransitionToSqliteAt s)
     (stateTransitionToRedisAt s) (recoveryStartedAt s) v
     (sqliteFallbackCount s) (isActive s).
Definition with_sqliteFallbackCount (v : Z) (s : t) : t :=
  mk (sessionId s) (masterFailureDetectedAt s)
     (sentinelPromotionDetectedAt s) (stateTransitionToSqliteAt s)
     (stateTransitionToRedisAt s) (recoveryStartedAt s)
     (recoveryCompletedAt s) v (isActive s).

End FailoverSession.

Module Metrics.

Inductive EventType : Type :=
| MASTER_FAILURE_DETECTED
| SENTINEL_PROMOTION
| STATE_TRANSITION_TO_SQLITE
| STATE_TRANSITION_TO_REDIS
| RECOVERY_STARTED
| RECOVERY_COMPLETED.

Record Durations : Type := mkDurations {
  masterFailureToStateTransition : option Z;
  sentinelPromotionToStateTransition : option Z;
  sqliteToRedis : option Z
}.

(** The [details] object of an event; a field that the event does not
    carry is [None]. The formatted durations are derived from the
    numeric ones and are left out. *)
Record Details : Type := mkDetails {
  d_sessionId : option string;
  d_previousState : option SeederState;
  d_newState : option SeederState;
  d_errorMessage : option string;
  d_sqliteFallbackCount : option Z;
  d_durationMs : option Z;
  d_durations : option Durations;
  d_entriesRecovered : option Z;
  d_entriesFailed : option Z;
  d_message : string
}.

(** An event as handed to [logEvent]; [eventId] and [timestamp], which
    [logEvent] adds from the clock and the random generator, are left
    out. *)
Record FailoverEvent : Type := mkEvent {
  eventType : EventType;
  details : Details
}.

(** [logStream] is the content written to the log file since the stream
    was opened ([None] for [null]); [console] is what went to the
    logger. *)
Record t : Type := mk {
  logStream : option (list FailoverEvent);
  currentSession : option FailoverSession.t;
  sqliteFallbackCount : Z;
  totalFailoverSessions : Z;
  console : list FailoverEvent
}.

Definition new : t := mk None None 0 0 [].

Definition logEvent (ev : FailoverEvent) (m : t) : t :=
  mk (option_map (fun l => l ++ [ev]) (logStream m))
     (currentSession m) (sqliteFallbackCount m) (totalFailoverSessions m)
     (console m ++ [ev]).

Definition onModuleInit (m : t) : t :=
  logEvent
    (mkEvent STATE_TRANSITION_TO_REDIS
       (mkDetails None None (Some REDIS_MODE) None None None None None None
          "Service started"))
    (mk (Some []) (currentSession m) (sqliteFallbackCount m)
        (totalFailoverSessions m) (console m)).

(** [!this.currentSession || !this.currentSession.isActive] is false
    exactly when this returns a session. *)
Definition activeSession (m : t) : option FailoverSession.t :=
  match currentSession m with
  | Some s => if FailoverSession.isActive s then Some s else None
  | None => None
  end.

(** [x ? now - x : undefined]: a [null] or zero timestamp is falsy. *)
Definition since (x : option Z) (now : Z) : option Z :=
  match x with
  | Some v => if v =? 0 then None else Some (now - v)
  | None => None
  end.

Definition newSessionId (n now : Z) : string :=
  ("failover-" ++ show_Z n ++ "-" ++ show_Z now)%string.

Definition recordMasterFailure (errorMessage : option string) (now : Z)
    (m : t) : t :=
  let '(s, fallback, total) :=
    match activeSession m with
    | None =>
        let total := totalFailoverSessions m + 1 in
        (FailoverSession.mk (newSessionId total now) (Some now) None None
           None None None 0 true, 0, total)
    | Some s =>
        (FailoverSession.with_masterFailureDetectedAt (Some now) s,
         sqliteFallbackCount m, totalFailoverSessions m)
    end in
  logEvent
    (mkEvent MASTER_FAILURE_DETECTED
       (mkDetails (Some (FailoverSession.sessionId s)) None None
          errorMessage None None None None None
          "Master Redis failure detected"))
    (mk (logStream m) (Some s) fallback total (console m)).

(** [now0] is the clock read when a late session is created, [now] the
    read that follows. *)
Definition recordSentinelPromotion (now0 now : Z) (m : t) : t :=
  let '(s, total) :=
    match activeSession m with
    | None =>
        let total := totalFailoverSessions m + 1 in
        (FailoverSession.mk (newSessionId total now0) None (Some now0) None
           None None None (sqliteFallbackCount m) true, total)
    | Some s => (s, totalFailoverSessions m)
    end in
  let s := FailoverSession.with_sentinelPromotionDetectedAt (Some now) s in
  let duration := since (FailoverSession.masterFailureDetectedAt s) now in
  logEvent
    (mkEvent SENTINEL_PROMOTION
       (mkDetails (Some (FailoverSession.sessionId s)) None None None None
          duration None None None "Sentinel promoted replica to master"))
    (mk (logStream m) (Some s) (sqliteFallbackCount m) total (console m)).

Definition recordStateTransitionToSqlite (previousState : SeederState)
    (now : Z) (m : t) : t :=
  let '(s, fallback, total) :=
    match activeSession m with
    | None =>
        let total := totalFailoverSessions m + 1 in
        (FailoverSession.mk (newSessionId total now) (Some now) None
           (Some now) None None None 0 true, 0, total)
    | Some s =>
        (FailoverSession.with_stateTransitionToSqliteAt (Some now) s,
         sqliteFallbackCount m, totalFailoverSessions m)
    end in
  let duration := since (FailoverSession.masterFailureDetectedAt s) now in
  logEvent
    (mkEvent STATE_TRANSITION_TO_SQLITE
       (mkDetails (Some (FailoverSession.sessionId s)) (Some previousState)
          (Some SQLITE_MODE) None None duration None None None
          "State transitioned to SQLite mode"))
    (mk (logStream m) (Some s) fallback total (console m)).

(** The session is set inactive and [currentSession] becomes [null]; the
    service's own [sqliteFallbackCount] is not assigned. *)
Definition recordStateTransitionToRedis (previousState : SeederState)
    (now0 now : Z) (m : t) : t :=
  let '(s, total) :=
    match activeSession m with
    | None =>
        let total := totalFailoverSessions m + 1 in
        (FailoverSession.mk (newSessionId total now0) None None None
           (Some now0) None None (sqliteFallbackCount m) true, total)
    | Some s => (s, totalFailoverSessions m)
    end in
  let s := FailoverSession.with_stateTransitionToRedisAt (Some now) s in
  let durations :=
    mkDurations
      (since (FailoverSession.masterFailureDetectedAt s) now)
      (since (FailoverSession.sentinelPromotionDetectedAt s) now)
      (since (FailoverSession.stateTransitionToSqliteAt s) now) in
  let m :=
    logEvent
      (mkEvent STATE_TRANSITION_TO_REDIS
         (mkDetails (Some (FailoverSession.sessionId s))
            (Some previousState) (Some REDIS_MODE) None
            (Some (FailoverSession.sqliteFallbackCount s)) None
            (Some durations) None None
            "State transitioned back to Redis mode"))
      (mk (logStream m) (Some s) (sqliteFallbackCount m) total (console m))
  in
  mk (logStream m) None (sqliteFallbackCount m) (totalFailoverSessions m)
     (console m).

Definition incrementSqliteFallbackCount (m : t) : t :=
  let n := sqliteFallbackCount m + 1 in
  mk (logStream m)
     (option_map (FailoverSession.with_sqliteFallbackCount n)
        (currentSession m))
     n (totalFailoverSessions m) (console m).

Definition getSqliteFallbackCount (m : t) : Z := sqliteFallbackCount m.

Definition recordRecoveryStarted (now : Z) (m : t) : t :=
  match activeSession m with
  | None => m
  | Some s =>
      let s := FailoverSession.with_recoveryStartedAt (Some now) s in
      logEvent
        (mkEvent RECOVERY_STARTED
           (mkDetails (Some (FailoverSession.sessionId s)) None None None
              (Some (FailoverSession.sqliteFallbackCount s)) None None None
              None "Recovery process started"))
        (mk (logStream m) (Some s) (sqliteFallbackCount m)
            (totalFailoverSessions m) (console m))
  end.

Definition recordRecoveryCompleted (entriesRecovered : Z)
    (entriesFailed : option Z) (now : Z) (m : t) : t :=
  match activeSession m with
  | None => m
  | Some s =>
      let s := FailoverSession.with_recoveryCompletedAt (Some now) s in
      let duration := since (FailoverSession.recoveryStartedAt s) now in
      let msg :=
        match entriesFailed with
        | Some f =>
            if 0 <? f
            then ("Recovery process completed: " ++ show_Z entriesRecovered
                  ++ " recovered, " ++ show_Z f ++ " failed")%string
            else ("Recovery process completed: " ++ show_Z entriesRecovered
                  ++ " recovered")%string
        | None =>
            ("Recovery process completed: " ++ show_Z entriesRecovered
             ++ " recovered")%string
        end in
      logEvent
        (mkEvent RECOVERY_COMPLETED
           (mkDetails (Some (FailoverSession.sessionId s)) None None None
              None duration None (Some entriesRecovered) entriesFailed msg))
        (mk (logStream m) (Some s) (sqliteFallbackCount m)
            (totalFailoverSessions m) (console m))
  end.

(** The calls the other services make on the tracker. *)
Inductive call : Type :=
| MasterFailure (errorMessage : option string) (now : Z)
| SentinelPromotion (now0 now : Z)
| ToSqlite (previousState : SeederState) (now : Z)
| ToRedis (previousState : SeederState) (now0 now : Z)
| IncrementFallback
| RecoveryStarted (now : Z)
| RecoveryCompleted (entriesRecovered : Z) (entriesFailed : option Z)
    (now : Z).

Definition step (m : t) (c : call) : t :=
  match c with
  | MasterFailure e now => recordMasterFailure e now m
  | SentinelPromotion now0 now => recordSentinelPromotion now0 now m
  | ToSqlite p now => recordStateTransitionToSqlite p now m
  | ToRedis p now0 now => recordStateTransitionToRedis p now0 now m
  | IncrementFallback => incrementSqliteFallbackCount m
  | RecoveryStarted now => recordRecoveryStarted now m
  | RecoveryCompleted r f now => recordRecoveryCompleted r f now m
  end.

Definition run (m : t) (cs : list call) : t := fold_left step cs m.

(** While a session object is held, its fallback count is the
    service's. *)
Definition consistent (m : t) : Prop :=
  match currentSession m with
  | Some s => FailoverSession.sqliteFallbackCount s = sqliteFallbackCount m
  | None => True
  end.

End Metrics.

(** ** sqlite-manager.service.ts *)

(** A row of [pending_cars]; a nullable column is an [option]. *)
Module PendingCar.

Record t : Type := mk {
  id : string;
  normalized_make : string;
  normalized_model : string;
  year : Z;
  price : Q;
  location : string;
  created_at : Z;
  status : RecoveryStatus;
  retry_count : Z;
  recovery_instance : option string;
  recovery_started_at : option Z;
  redis_job_id : option string
}.

End PendingCar.

Module SqliteManager.
Import PendingCar.

(** The table [pending_cars], its rows in rowid (insertion) order. *)
Definition Table : Type := list PendingCar.t.

(** *** The SQL the service issues *)

Definition hasStatus (s : RecoveryStatus) (r : PendingCar.t) : bool :=
  RecoveryStatus_eqb (status r) s.

Definition hasId (i : string) (r : PendingCar.t) : bool :=
  String.eqb (id r) i.

Definition inb (x : string) (l : list string) : bool :=
  existsb (String.eqb x) l.

(** [UPDATE pending_cars SET set WHERE cond]. *)
Definition update_where (cond : PendingCar.t -> bool)
    (set : PendingCar.t -> PendingCar.t) (tbl : Table) : Table :=
  map (fun r => if cond r then set r else r) tbl.

(** [RETURNING *] of that update: the updated rows with their new
    values. SQLite leaves their order open; table order is taken here. *)
Definition returning (cond : PendingCar.t -> bool)
    (set : PendingCar.t -> PendingCar.t) (tbl : Table) : list PendingCar.t :=
  map set (filter cond tbl).

(** [this.changes] of that update. *)
Definition changes (cond : PendingCar.t -> bool) (tbl : Table) : Z :=
  Z.of_nat (List.length (filter cond tbl)).

(** [ORDER BY created_at ASC]; rows with equal [created_at] keep their
    table order. *)
Fixpoint insert_row (r : PendingCar.t) (l : Table) : Table :=
  match l with
  | [] => [r]
  | x :: l' =>
      if created_at r <=? created_at x then r :: l else x :: insert_row r l'
  end.

Fixpoint order_by_created_at (l : Table) : Table :=
  match l with
  | [] => []
  | r :: l' => insert_row r (order_by_created_at l')
  end.

(** [LIMIT n]: a negative [n] is no limit in SQLite. *)
Definition sql_limit {A : Type} (n : Z) (l : list A) : list A :=
  if n <? 0 then l else firstn (Z.to_nat n) l.

(** The CTE [selected_cars]. *)
Definition selected_rows (limit : Z) (tbl : Table) : list PendingCar.t :=
  sql_limit limit (order_by_created_at (filter (hasStatus PENDING) tbl)).

Definition selected_cars (limit : Z) (tbl : Table) : list string :=
  map id (selected_rows limit tbl).

Definition set_recovering (instanceId : string) (now : Z)
    (r : PendingCar.t) : PendingCar.t :=
  mk (id r) (normalized_make r) (normalized_model r) (year r) (price r)
     (location r) (created_at r) RECOVERING (retry_count r)
     (Some instanceId) (Some now) (redis_job_id r).

Definition set_sent (jobId : option string) (r : PendingCar.t)
    : PendingCar.t :=
  mk (id r) (normalized_make r) (normalized_model r) (year r) (price r)
     (location r) (created_at r) SENT (retry_count r)
     (recovery_instance r) (recovery_started_at r) jobId.

Definition set_pending_retry (r : PendingCar.t) : PendingCar.t :=
  mk (id r) (normalized_make r) (normalized_model r) (year r) (price r)
     (location r) (created_at r) PENDING (retry_count r + 1)
     (recovery_instance r) (recovery_started_at r) (redis_job_id r).

Definition set_pending_released (r : PendingCar.t) : PendingCar.t :=
  mk (id r) (normalized_make r) (normalized_model r) (year r) (price r)
     (location r) (created_at r) PENDING (retry_count r) None None
     (redis_job_id r).

(** [WHERE id IN (SELECT id FROM selected_cars) AND status = 'pending']. *)
Definition claim_where (limit : Z) (tbl : Table) (r : PendingCar.t) : bool :=
  inb (id r) (selected_cars limit tbl) && hasStatus PENDING r.

(** [WHERE id IN (...carIds) AND status = 'pending']. *)
Definition recovering_where (carIds : list string) (r : PendingCar.t)
    : bool :=
  inb (id r) carIds && hasStatus PENDING r.

(** [WHERE status = 'recovering' AND recovery_started_at < cutoffTime]; a
    NULL [recovery_started_at] compares as not less. *)
Definition stale_where (cutoffTime : Z) (r : PendingCar.t) : bool :=
  hasStatus RECOVERING r &&
  match recovery_started_at r with
  | Some t => t <? cutoffTime
  | None => false
  end.

(** [INSERT INTO pending_cars]: [id] is the primary key. *)
Definition insert (r : PendingCar.t) (tbl : Table) : option Table :=
  if inb (id r) (map id tbl) then None else Some (tbl ++ [r]).

Fixpoint insert_all (rs : list PendingCar.t) (tbl : Table) : option Table :=
  match rs with
  | [] => Some tbl
  | r :: rs' =>
      match insert r tbl with
      | Some tbl' => insert_all rs' tbl'
      | None => None
      end
  end.

(** The statements a method issues one after the other outside a
    transaction. A fault [(k, e)] makes the statement of index [k] fail
    with [e]: the earlier ones stay applied. *)
Definition Fault : Type := option (nat * JsError).

Definition apply_all (stmts : list (Table -> Table)) (tbl : Table) : Table :=
  fold_left (fun t s => s t) stmts tbl.

Definition run_statements (stmts : list (Table -> Table)) (fault : Fault)
    (tbl : Table) : Outcome unit * Table :=
  match fault with
  | Some (k, e) =>
      if (k <? List.length stmts)%nat
      then (Throw e, apply_all (firstn k stmts) tbl)
      else (Ok tt, apply_all stmts tbl)
  | None => (Ok tt, apply_all stmts tbl)
  end.

(** *** The service *)

(** [db] is [None] until [initialize] has opened the database;
    [flushTimer] tells whether a flush is scheduled. *)
Record t : Type := mkService {
  db : option Table;
  writeBuffer : list Car.t;
  flushTimer : bool;
  isShuttingDown : bool;
  instanceId : string
}.

Definition batchSize : nat := 50.
Definition flushIntervalMs : Z := 1000.

Definition with_db (tbl : Table) (s : t) : t :=
  mkService (Some tbl) (writeBuffer s) (flushTimer s) (isShuttingDown s)
    (instanceId s).

(** What one [flushBuffer] reads from its environment: the clock, the
    random suffix of each id, and whether the flush fails. [failure] is
    the error it rejects with. The statements of the transaction are
    awaited one by one on the connection the claims use too: with
    [torn = Some k] a ROLLBACK that an overlapping call issues on that
    connection ends the transaction after [k] inserts, the later inserts
    are committed one by one, COMMIT fails, and the ROLLBACK of the flush,
    which fails too, is only logged. With [torn = None] the failing
    transaction is rolled back. [torn] is read by a flush that fails
    only. *)
Record FlushEnv : Type := mkFlushEnv {
  baseTime : Z;
  random : nat -> string;
  failure : option JsError;
  torn : option nat
}.

Definition constraintError : JsError :=
  mkError (Some "SQLITE_CONSTRAINT: UNIQUE constraint failed: pending_cars.id")
    (Some "SQLITE_CONSTRAINT") None None None None.

Definition newId (instanceId : string) (baseTime : Z) (i : nat)
    (rand : string) : string :=
  (instanceId ++ "-" ++ show_Z baseTime ++ "-" ++ show_Z (Z.of_nat i) ++ "-"
   ++ rand)%string.

Definition newRow (instanceId : string) (env : FlushEnv) (i : nat) (car : Car.t)
    : PendingCar.t :=
  mk (newId instanceId (baseTime env) i (random env i))
     (Car.normalizedMake car) (Car.normalizedModel car) (Car.year car)
     (Car.price car) (Car.location car) (baseTime env + Z.of_nat i) PENDING 0
     None None None.

Fixpoint newRows (instanceId : string) (env : FlushEnv) (i : nat)
    (cars : list Car.t) : list PendingCar.t :=
  match cars with
  | [] => []
  | car :: cars' =>
      newRow instanceId env i car :: newRows instanceId env (S i) cars'
  end.

(** Inserts outside a transaction: every row that goes in stays, and the
    first that fails on the primary key stops the loop. The flag tells
    whether all went in. *)
Fixpoint insert_each (rs : list PendingCar.t) (tbl : Table) : Table * bool :=
  match rs with
  | [] => (tbl, true)
  | r :: rs' =>
      match insert r tbl with
      | Some tbl' => insert_each rs' tbl'
      | None => (tbl, false)
      end
  end.

Definition flushBuffer (env : FlushEnv) (s : t) : Outcome unit * t :=
  match writeBuffer s with
  | [] => (Ok tt, s)
  | carsToWrite =>
      match db s with
      | None =>
          (Throw (Error "Database not initialized"),
           mkService None [] false (isShuttingDown s) (instanceId s))
      | Some tbl =>
          let rolledBack :=
            mkService (Some tbl) carsToWrite false (isShuttingDown s)
              (instanceId s) in
          let rows := newRows (instanceId s) env 0 carsToWrite in
          match failure env with
          | Some e =>
              match torn env with
              | None => (Throw e, rolledBack)
              | Some k =>
                  let '(tbl', all) := insert_each (skipn k rows) tbl in
                  (Throw (if all then e else constraintError),
                   mkService (Some tbl') carsToWrite false (isShuttingDown s)
                     (instanceId s))
              end
          | None =>
              match insert_all rows tbl with
              | Some tbl' =>
                  (Ok tt,
                   mkService (Some tbl') [] false (isShuttingDown s)
                     (instanceId s))
              | None => (Throw constraintError, rolledBack)
              end
          end
      end
  end.

Definition saveCar (env : FlushEnv) (car : Car.t) (s : t) : Outcome unit * t :=
  if isShuttingDown s then (Ok tt, s)
  else
    let s := mkService (db s) (writeBuffer s ++ [car]) (flushTimer s)
               (isShuttingDown s) (instanceId s) in
    if (batchSize <=? List.length (writeBuffer s))%nat
    then flushBuffer env s
    else
      (Ok tt,
       mkService (db s) (writeBuffer s) true (isShuttingDown s)
         (instanceId s)).

(** The callback of the flush timer: a failing flush is logged only. *)
Definition flushTimerExpired (env : FlushEnv) (s : t) : t :=
  if flushTimer s then snd (flushBuffer env s) else s.

Definition flushPendingWrites (env : FlushEnv) (s : t) : Outcome unit * t :=
  let s := mkService (db s) (writeBuffer s) false (isShuttingDown s)
             (instanceId s) in
  match writeBuffer s with
  | [] => (Ok tt, s)
  | _ => flushBuffer env s
  end.

(** [failure] is the error of a failing statement of the transaction
    (BEGIN IMMEDIATE, the update, COMMIT), which is then rolled back. *)
Definition getAndMarkPendingCars (limit : Z) (instanceId : string) (now : Z)
    (failure : option JsError) (s : t) : Outcome (list PendingCar.t) * t :=
  match db s with
  | None => (Throw (Error "Database not initialized"), s)
  | Some tbl =>
      match failure with
      | Some e => (Throw e, s)
      | None =>
          (Ok (returning (claim_where limit tbl)
                 (set_recovering instanceId now) tbl),
           with_db (update_where (claim_where limit tbl)
                      (set_recovering instanceId now) tbl) s)
      end
  end.

Definition markCarsAsRecovering (carIds : list string) (instanceId : string)
    (now : Z) (failure : option JsError) (s : t) : Outcome Z * t :=
  match db s, carIds with
  | None, _ | _, [] => (Ok 0, s)
  | Some tbl, _ =>
      match failure with
      | Some e => (Throw e, s)
      | None =>
          (Ok (changes (recovering_where carIds) tbl),
           with_db (update_where (recovering_where carIds)
                      (set_recovering instanceId now) tbl) s)
      end
  end.

(** [redisJobIds[i] || null]: a missing or empty job id is stored as
    NULL. *)
Definition jobIdOrNull (j : option string) : option string :=
  match j with
  | Some "" => None
  | Some s => Some s
  | None => None
  end.

Fixpoint sentStatements (carIds redisJobIds : list string)
    : list (Table -> Table) :=
  match carIds with
  | [] => []
  | carId :: carIds' =>
      update_where (hasId carId) (set_sent (jobIdOrNull (hd_error redisJobIds)))
      :: sentStatements carIds' (tl redisJobIds)
  end.

Definition markCarsAsSent (carIds redisJobIds : list string) (fault : Fault)
    (s : t) : Outcome unit * t :=
  match db s, carIds with
  | None, _ | _, [] => (Ok tt, s)
  | Some tbl, _ =>
      let '(r, tbl') :=
        run_statements (sentStatements carIds redisJobIds) fault tbl in
      (r, with_db tbl' s)
  end.

Definition pendingStatements (carIds : list string) : list (Table -> Table) :=
  map (fun carId => update_where (hasId carId) set_pending_retry) carIds.

Definition markCarsAsPending (carIds : list string) (fault : Fault) (s : t)
    : Outcome unit * t :=
  match db s, carIds with
  | None, _ | _, [] => (Ok tt, s)
  | Some tbl, _ =>
      let '(r, tbl') := run_statements (pendingStatements carIds) fault tbl in
      (r, with_db tbl' s)
  end.

Definition getPendingCount (s : t) : Z :=
  match db s with
  | None => 0
  | Some tbl => Z.of_nat (List.length (filter (hasStatus PENDING) tbl))
  end.


Definition cleanupStaleRecoveries (maxAgeMs : Z) (now : Z)
    (failure : option JsError) (s : t) : Outcome Z * t :=
  match db s with
  | None => (Ok 0, s)
  | Some tbl =>
      let cutoffTime := now - maxAgeMs in
      match failure with
      | Some e => (Throw e, s)
      | None =>
          (Ok (changes (stale_where cutoffTime) tbl),
           with_db (update_where (stale_where cutoffTime)
                      set_pending_released tbl) s)
      end
  end.

(** *** Predicates on tables *)

(** The primary key: no two rows share an [id]. *)
Definition unique_ids (tbl : Table) : Prop := NoDup (map id tbl).

Definition created_le (a b : PendingCar.t) : Prop :=
  created_at a <= created_at b.


(** What the per-id updates of [markCarsAsPending] do to one row. *)
Definition release (carIds : list string) (r : PendingCar.t) : PendingCar.t :=
  fold_left (fun r carId => if hasId carId r then set_pending_retry r else r)
    carIds r.

(** What the per-id updates of [markCarsAsSent] do to one row. *)
Fixpoint deliver (carIds redisJobIds : list string) (r : PendingCar.t)
    : PendingCar.t :=
  match carIds with
  | [] => r
  | carId :: carIds' =>
      deliver carIds' (tl redisJobIds)
        (if hasId carId r
         then set_sent (jobIdOrNull (hd_error redisJobIds)) r
         else r)
  end.

(** The three status changes of the record lifecycle. *)
Inductive claim_move : RecoveryStatus -> RecoveryStatus -> Prop :=
| Claim : claim_move PENDING RECOVERING.

Inductive send_move : RecoveryStatus -> RecoveryStatus -> Prop :=
| Send : send_move RECOVERING SENT.

Inductive release_move : RecoveryStatus -> RecoveryStatus -> Prop :=
| Release : release_move RECOVERING PENDING.

(** [tbl'] holds the rows of [tbl], each with the status it had or
    moved along [R]. *)
Definition moves (R : RecoveryStatus -> RecoveryStatus -> Prop)
    (tbl tbl' : Table) : Prop :=
  Forall2
    (fun r r' =>
       id r' = id r /\ (status r' = status r \/ R (status r) (status r')))
    tbl tbl'.

(** Any of the three status changes. *)
Definition lifecycle (a b : RecoveryStatus) : Prop :=
  claim_move a b \/ send_move a b \/ release_move a b.

(** A sequence of tables in which each one follows from the one before by
    lifecycle moves. *)
Inductive path : Table -> Table -> Prop :=
| path_refl (tbl : Table) : path tbl tbl
| path_step (tbl tbl' tbl'' : Table) :
    moves lifecycle tbl tbl' -> path tbl' tbl'' -> path tbl tbl''.

(** The status guard a caller has to supply for the unguarded updates:
    every row named by [carIds] is RECOVERING. *)
Definition all_recovering (carIds : list string) (tbl : Table) : Prop :=
  forall r, In r tbl -> In (id r) carIds -> status r = RECOVERING.

(** *** Further queries *)

(** [WHERE recovery_instance = ? AND status = 'recovering']. *)
Definition instance_where (instanceId : string) (r : PendingCar.t) : bool :=
  match recovery_instance r with
  | Some i => String.eqb i instanceId
  | None => false
  end && hasStatus RECOVERING r.

Definition getCarsByInstance (instanceId : string) (failure : option JsError)
    (s : t) : Outcome (list PendingCar.t) :=
  match db s with
  | None => Throw (Error "Database not initialized")
  | Some tbl =>
      match failure with
      | Some e => Throw e
      | None => Ok (order_by_created_at (filter (instance_where instanceId) tbl))
      end
  end.

(** The [id] column of the table, if the database is open. *)
Definition ids_of (s : t) : option (list string) := option_map (map id) (db s).

(** [s'] differs from [s] at most in columns other than [id] of the rows
    of the table: no row was added, removed or given another id, and the
    buffer, the timer and the shutdown flag are the same. *)
Definition only_rows (s s' : t) : Prop :=
  ids_of s' = ids_of s /\
  writeBuffer s' = writeBuffer s /\
  flushTimer s' = flushTimer s /\
  isShuttingDown s' = isShuttingDown s /\
  instanceId s' = instanceId s.

End SqliteManager.

(** ** The remote queue *)

Module Remote.

Inductive JobData : Type :=
| CarData (car : Car.t)
| HealthCheck.

(** A call that goes out to the remote store. *)
Inductive Op : Type :=
| Add (name : string) (data : JobData)
| Ping.

Record Job : Type := mkJob {
  name : string;
  data : JobData;
  jobId : option string
}.

(** [attempts] lists every call made, oldest first, whatever its result;
    [jobs] lists the jobs the queue accepted. *)
Record t : Type := mk {
  attempts : list Op;
  jobs : list Job
}.

(** How one [queue.add] settles: the id of the job (it may be
    undefined), or the error it rejects with. *)
Definition AddOutcome : Type := Outcome (option string).

Definition add (name : string) (data : JobData) (o : AddOutcome) (r : t) : t :=
  mk (attempts r ++ [Add name data])
     (match o with
      | Ok j => jobs r ++ [mkJob name data j]
      | Throw _ => jobs r
      end).

Definition ping (r : t) : t := mk (attempts r ++ [Ping]) (jobs r).

End Remote.

(** The services a write or a drain touches. *)
Record World : Type := mkWorld {
  stateManager : StateManager.t;
  circuitBreaker : CircuitBreaker.t;
  sqliteManager : SqliteManager.t;
  metrics : Metrics.t;
  remote : Remote.t
}.

Definition with_stateManager (x : StateManager.t) (w : World) : World :=
  mkWorld x (circuitBreaker w) (sqliteManager w) (metrics w) (remote w).
Definition with_circuitBreaker (x : CircuitBreaker.t) (w : World) : World :=
  mkWorld (stateManager w) x (sqliteManager w) (metrics w) (remote w).
Definition with_sqliteManager (x : SqliteManager.t) (w : World) : World :=
  mkWorld (stateManager w) (circuitBreaker w) x (metrics w) (remote w).
Definition with_metrics (x : Metrics.t) (w : World) : World :=
  mkWorld (stateManager w) (circuitBreaker w) (sqliteManager w) x (remote w).
Definition with_remote (x : Remote.t) (w : World) : World :=
  mkWorld (stateManager w) (circuitBreaker w) (sqliteManager w) (metrics w) x.

(** ** write-handler.service.ts *)

Module WriteHandler.

(** [queue] tells whether [setQueue] has run. *)
Record t : Type := mk { queue : bool }.

(** What one [writeCar] reads from its environment: how [queue.add]
    settles, the environment of each [saveCar] attempt, and the clock
    reads of the metrics calls. *)
Record Env : Type := mkEnv {
  add : Remote.AddOutcome;
  flushes : nat -> SqliteManager.FlushEnv;
  tMasterFailure : Z;
  tToSqlite : Z;
  tToRedis0 : Z;
  tToRedis : Z
}.

Definition connectionErrorCodes : list string :=
  ["ECONNREFUSED"; "ETIMEDOUT"; "ENOTFOUND"; "ECONNRESET"; "EPIPE"].

Definition connectionErrorMessages : list string :=
  ["connection lost"; "connection closed"; "redis connection failed";
   "connect econnrefused"; "connect etimedout"; "stream isn't writeable";
   "stream is not writeable"; "enableofflinequeue"; "offline queue";
   "writeable"; "getaddrinfo"; "enotfound"].

Definition matchesMessage (m : string) : bool :=
  existsb (fun msg => includes msg m) connectionErrorMessages.

Definition isRedisConnectionError (error : option JsError) : bool :=
  match error with
  | None => false
  | Some error =>
      let errorMessage := toLowerCase (orEmpty (message error)) in
      let errorCode := orEmpty (code error) in
      if SqliteManager.inb errorCode connectionErrorCodes then true
      else
        let nestedError :=
          orElse (cause error) (orElse (lastError error) (originalError error))
        in
        if match nestedError with
           | Some n =>
               SqliteManager.inb (orEmpty (n_code n)) connectionErrorCodes
           | None => false
           end
        then true
        else if matchesMessage errorMessage then true
        else if match nestedError with
                | Some n => matchesMessage (toLowerCase (orEmpty (n_message n)))
                | None => false
                end
        then true
        else
          let errorStack := toLowerCase (orEmpty (stack error)) in
          includes "getaddrinfo" errorStack
          || includes "enotfound" errorStack
          || includes "econnrefused" errorStack
          || includes "etimedout" errorStack
  end.

Definition maxRetries : nat := 2.

(** The retry loop of [writeToSqlite] with [n] attempts left, the next
    one being attempt number [attempt]. *)
Fixpoint writeToSqliteFrom (n attempt : nat)
    (flushes : nat -> SqliteManager.FlushEnv) (car : Car.t)
    (lastError : JsError) (s : SqliteManager.t)
    : Outcome unit * SqliteManager.t :=
  match n with
  | O => (Throw lastError, s)
  | S n' =>
      match SqliteManager.saveCar (flushes attempt) car s with
      | (Ok _, s') => (Ok tt, s')
      | (Throw e, s') => writeToSqliteFrom n' (S attempt) flushes car e s'
      end
  end.

Definition writeToSqlite (env : Env) (car : Car.t) (w : World)
    : Outcome unit * World :=
  let '(r, s) :=
    writeToSqliteFrom (S maxRetries) 0 (flushes env) car (Error "")
      (sqliteManager w) in
  (r, with_sqliteManager s w).

Definition writeToRedis (self : t) (env : Env) (car : Car.t) (w : World)
    : Outcome unit * World :=
  if negb (queue self) then (Throw (Error "Queue not initialized"), w)
  else if CircuitBreaker.isOpen (circuitBreaker w) then
    writeToSqlite env car
      (with_stateManager
         (StateManager.setState SQLITE_MODE (stateManager w)) w)
  else
    let w := with_remote
               (Remote.add "car" (Remote.CarData car) (add env) (remote w)) w in
    match add env with
    | Ok _ =>
        let w := with_circuitBreaker
                   (CircuitBreaker.recordSuccess (circuitBreaker w)) w in
        if StateManager.isSqliteMode (stateManager w) then
          let previousState := StateManager.getState (stateManager w) in
          let w := with_stateManager
                     (StateManager.setState REDIS_MODE (stateManager w)) w in
          (Ok tt,
           with_metrics
             (Metrics.recordStateTransitionToRedis previousState
                (tToRedis0 env) (tToRedis env) (metrics w)) w)
        else (Ok tt, w)
    | Throw error =>
        if isRedisConnectionError (Some error) then
          let w := with_circuitBreaker
                     (CircuitBreaker.recordFailure (circuitBreaker w)) w in
          let w :=
            if CircuitBreaker.isOpen (circuitBreaker w) then
              let currentStateBefore :=
                StateManager.getState (stateManager w) in
              let w :=
                if SeederState_eqb currentStateBefore REDIS_MODE
                then with_metrics
                       (Metrics.recordMasterFailure (message error)
                          (tMasterFailure env) (metrics w)) w
                else w in
              let w := with_stateManager
                         (StateManager.setState SQLITE_MODE (stateManager w))
                         w in
              with_metrics
                (Metrics.recordStateTransitionToSqlite currentStateBefore
                   (tToSqlite env) (metrics w)) w
            else w in
          let w := with_metrics
                     (Metrics.incrementSqliteFallbackCount (metrics w)) w in
          writeToSqlite env car w
        else (Throw error, w)
    end.

Definition writeCar (self : t) (env : Env) (car : Car.t) (w : World)
    : Outcome unit * World :=
  let currentState := StateManager.getState (stateManager w) in
  let circuitState := CircuitBreaker.getState (circuitBreaker w) in
  if CircuitBreakerState_eqb circuitState HALF_OPEN then
    writeToRedis self env car w
  else if SeederState_eqb currentState REDIS_MODE then
    writeToRedis self env car w
  else writeToSqlite env car w.

End WriteHandler.

Arguments WriteHandler.isRedisConnectionError : simpl never.

(** ** recovery-manager.service.ts *)

Module RecoveryManager.
Import SqliteManager.

(** [queue] and [redisClient] tell whether [setQueue] and
    [setRedisClient] have run. *)
Record t : Type := mk {
  queue : bool;
  redisClient : bool;
  isRecovering : bool;
  lastRecoveryAttempt : Z;
  chunkSize : Z;
  cooldownMs : Z;
  instanceId : string
}.

Definition new (envChunkSize envCooldown : option Z) (instanceId : string) : t :=
  mk false false false 0 (CircuitBreaker.envOr envChunkSize 50)
     (CircuitBreaker.envOr envCooldown 10000) instanceId.

(** How the ping raced against its 2000 ms deadline settles. *)
Inductive PingResult : Type :=
| Pong
| PingRejected (e : JsError)
| PingTimeout.

Definition pingDeadlineMs : Z := 2000.
Definition testWriteDeadlineMs : Z := 3000.

(** What one [isRedisAvailable] reads from its environment. [probe] is
    how the sentinel job raced against its 3000 ms deadline settles; a
    timeout is a rejection. *)
Record AvailEnv : Type := mkAvailEnv {
  ping : PingResult;
  probe : Remote.AddOutcome
}.

Definition testRedisWrite (probe : Remote.AddOutcome) (self : t) (w : World)
    : bool * World :=
  if negb (queue self) then (false, w)
  else
    (match probe with Ok _ => true | Throw _ => false end,
     with_remote
       (Remote.add "health-check-test" Remote.HealthCheck probe (remote w)) w).

(** The result of the ping is only logged: the code after the [try]
    runs whatever it was. *)
Definition isRedisAvailable (env : AvailEnv) (self : t) (w : World)
    : bool * World :=
  if negb (redisClient self) then (false, w)
  else if CircuitBreaker.isOpen (circuitBreaker w) then (false, w)
  else
    let w := with_remote (Remote.ping (remote w)) w in
    if queue self then testRedisWrite (probe env) self w
    else (false, w).

(** What one iteration of the drain loop reads from its environment. *)
Record BatchEnv : Type := mkBatchEnv {
  claimNow : Z;
  claimFailure : option JsError;
  avail : AvailEnv;
  adds : nat -> Remote.AddOutcome;
  sentFault : Fault;
  pendingFault : Fault;
  revertFault : Fault
}.

Definition carData (car : PendingCar.t) : Car.t :=
  Car.mk (PendingCar.normalized_make car) (PendingCar.normalized_model car)
    (PendingCar.year car) (PendingCar.price car) (PendingCar.location car).

(** The [for] loop over the claimed rows: the successful entries
    [(carId, jobId)], the failed ids, and the remote queue after it. *)
Fixpoint enqueueAll (i : nat) (adds : nat -> Remote.AddOutcome)
    (cars : list PendingCar.t) (r : Remote.t)
    : list (string * string) * list string * Remote.t :=
  match cars with
  | [] => ([], [], r)
  | car :: cars' =>
      let o := adds i in
      let r := Remote.add "car" (Remote.CarData (carData car)) o r in
      let '(ok, ko, r') := enqueueAll (S i) adds cars' r in
      match o with
      | Ok j => ((PendingCar.id car, orEmpty j) :: ok, ko, r')
      | Throw _ => (ok, PendingCar.id car :: ko, r')
      end
  end.

Record Totals : Type := mkTotals { recovered : Z; failed : Z }.

(** How an iteration of the [while] loop ends. *)
Inductive Next : Type := Continue | Break.

Definition lengthZ {A : Type} (l : list A) : Z := Z.of_nat (List.length l).

(** The [catch] of the batch: every claimed id is marked pending. *)
Definition revertBatch (env : BatchEnv) (carsToRecover : list PendingCar.t)
    (tot : Totals) (w : World) : Outcome (Next * Totals) * World :=
  let carIds := map PendingCar.id carsToRecover in
  match markCarsAsPending carIds (revertFault env) (sqliteManager w) with
  | (Throw e, s) => (Throw e, with_sqliteManager s w)
  | (Ok _, s) =>
      (Ok (Break, mkTotals (recovered tot) (failed tot + lengthZ carIds)),
       with_sqliteManager s w)
  end.

(** One iteration of the [while (hasMore)] loop. *)
Definition drainBatch (env : BatchEnv) (self : t) (tot : Totals) (w : World)
    : Outcome (Next * Totals) * World :=
  match getAndMarkPendingCars (chunkSize self) (instanceId self)
          (claimNow env) (claimFailure env) (sqliteManager w) with
  | (Throw e, s) => (Throw e, with_sqliteManager s w)
  | (Ok [], s) => (Ok (Break, tot), with_sqliteManager s w)
  | (Ok carsToRecover, s) =>
      let w := with_sqliteManager s w in
      let '(isAvailable, w) := isRedisAvailable (avail env) self w in
      if negb isAvailable then
        let carIds := map PendingCar.id carsToRecover in
        match markCarsAsPending carIds (revertFault env) (sqliteManager w)
        with
        | (Throw e, s) => (Throw e, with_sqliteManager s w)
        | (Ok _, s) =>
            (Ok (Break,
                 mkTotals (recovered tot) (failed tot + lengthZ carIds)),
             with_sqliteManager s w)
        end
      else
        let '(successfulEntries, failedCarIds, r) :=
          enqueueAll 0 (adds env) carsToRecover (remote w) in
        let w := with_remote r w in
        match markCarsAsSent (map fst successfulEntries)
                (map snd successfulEntries) (sentFault env) (sqliteManager w)
        with
        | (Throw _, s) =>
            revertBatch env carsToRecover tot (with_sqliteManager s w)
        | (Ok _, s) =>
            let w := with_sqliteManager s w in
            let tot := mkTotals (recovered tot + lengthZ successfulEntries)
                         (failed tot) in
            match markCarsAsPending failedCarIds (pendingFault env)
                    (sqliteManager w) with
            | (Throw _, s) =>
                revertBatch env carsToRecover tot (with_sqliteManager s w)
            | (Ok _, s) =>
                (Ok (Continue,
                     mkTotals (recovered tot)
                       (failed tot + lengthZ failedCarIds)),
                 with_sqliteManager s w)
            end
        end
  end.

(** The [while (hasMore)] loop, one [BatchEnv] per iteration; [None] when
    the loop would go on after the last of them. *)
Fixpoint drainLoop (envs : list BatchEnv) (self : t) (tot : Totals)
    (w : World) : option (Outcome Totals * World) :=
  match envs with
  | [] => None
  | env :: envs' =>
      match drainBatch env self tot w with
      | (Throw e, w') => Some (Throw e, w')
      | (Ok (Break, tot'), w') => Some (Ok tot', w')
      | (Ok (Continue, tot'), w') => drainLoop envs' self tot' w'
      end
  end.

Record DrainEnv : Type := mkDrainEnv {
  cleanupNow : Z;
  cleanupFailure : option JsError;
  batches : list BatchEnv
}.

Definition recoverPendingEntries (env : DrainEnv) (self : t) (w : World)
    : option (Outcome Totals * World) :=
  if negb (queue self) then Some (Throw (Error "Queue not initialized"), w)
  else
    match cleanupStaleRecoveries (5 * 60 * 1000) (cleanupNow env)
            (cleanupFailure env) (sqliteManager w) with
    | (Throw e, s) => Some (Throw e, with_sqliteManager s w)
    | (Ok _, s) =>
        drainLoop (batches env) self (mkTotals 0 0) (with_sqliteManager s w)
    end.

Record TriggerEnv : Type := mkTriggerEnv {
  now : Z;
  available : AvailEnv;
  tStarted : Z;
  drain : DrainEnv;
  tCompleted : Z
}.

Definition with_recovering (b : bool) (last : Z) (self : t) : t :=
  mk (queue self) (redisClient self) b last (chunkSize self)
     (cooldownMs self) (instanceId self).

Definition triggerRecovery (env : TriggerEnv) (self : t) (w : World)
    : option (t * World) :=
  if isRecovering self then Some (self, w)
  else if now env - lastRecoveryAttempt self <? cooldownMs self then
    Some (self, w)
  else
    let self := with_recovering false (now env) self in
    let '(isAvailable, w) := isRedisAvailable (available env) self w in
    if negb isAvailable then Some (self, w)
    else
      let w := with_metrics
                 (Metrics.recordRecoveryStarted (tStarted env) (metrics w)) w
      in
      match recoverPendingEntries (drain env)
              (with_recovering true (now env) self) w with
      | None => None
      | Some (Ok result, w) =>
          Some (self,
                with_metrics
                  (Metrics.recordRecoveryCompleted (recovered result)
                     (if 0 <? failed result then Some (failed result)
                      else None)
                     (tCompleted env) (metrics w)) w)
      | Some (Throw _, w) =>
          Some (self,
                with_metrics
                  (Metrics.recordRecoveryCompleted 0 None (tCompleted env)
                     (metrics w)) w)
      end.

(** A batch in which no database statement fails. *)
Definition fault_free (env : BatchEnv) : Prop :=
  claimFailure env = None /\ sentFault env = None /\
  pendingFault env = None /\ revertFault env = None.

End RecoveryManager.

(** ** car-seeder.service.ts *)

Module CarSeeder.

(** [generationInterval] tells whether the interval timer is set. *)
Record t : Type := mk {
  isShuttingDown : bool;
  generationInterval : bool
}.

(** The callback of the generation interval. The car that
    [generateRandomCar] draws is an input; an error of [writeCar] is
    logged and the next tick goes on. *)
Definition tick (self : t) (handler : WriteHandler.t) (env : WriteHandler.Env)
    (car : Car.t) (w : World) : World :=
  if isShuttingDown self then w
  else snd (WriteHandler.writeCar handler env car w).

(** The ticks of one run, oldest first. *)
Definition ticks (self : t) (handler : WriteHandler.t)
    (inputs : list (WriteHandler.Env * Car.t)) (w : World) : World :=
  fold_left (fun w i => tick self handler (fst i) (snd i) w) inputs w.

End CarSeeder.

(** ** bullmq.service.ts *)

Module Bullmq.

(** What one iteration of [pingWithRetry] finds: the client not ready, or
    the ping answered or rejected. *)
Inductive Attempt : Type :=
| NotReady
| Answered (result : string)
| Rejected (e : JsError).

(** [error.message?.includes('writeable') ||
    error.message?.includes('offline')]. *)
Definition retryable (e : JsError) : bool :=
  match message e with
  | Some m => includes "writeable" m || includes "offline" m
  | None => false
  end.

Record PingRun : Type := mkPingRun {
  outcome : Outcome string;
  pings : nat;
  waitedMs : Z
}.

(** The [for] loop with [n] iterations left, the next one being
    [attempt]. *)
Fixpoint pingLoop (n attempt maxRetries : nat) (env : nat -> Attempt)
    (lastError : option JsError) (pings : nat) (waitedMs : Z) : PingRun :=
  match n with
  | O =>
      mkPingRun
        (Throw (match lastError with
                | Some e => e
                | None => Error "Ping failed after retries"
                end))
        pings waitedMs
  | S n' =>
      match env attempt with
      | NotReady =>
          pingLoop n' (S attempt) maxRetries env lastError pings
            (waitedMs + 200 * Z.of_nat attempt)
      | Answered result => mkPingRun (Ok result) (S pings) waitedMs
      | Rejected e =>
          if (retryable e && (attempt <? maxRetries)%nat)%bool
          then pingLoop n' (S attempt) maxRetries env (Some e) (S pings)
                 (waitedMs + 200 * Z.of_nat attempt)
          else mkPingRun (Throw e) (S pings) waitedMs
      end
  end.

Definition pingWithRetry (maxRetries : nat) (env : nat -> Attempt) : PingRun :=
  pingLoop maxRetries 1 maxRetries env None 0 0.

End Bullmq.

(** An attempt after which the loop goes on. *)
Definition goes_on (maxRetries : nat) (env : nat -> Bullmq.Attempt) (i : nat)
    : Prop :=
  env i = Bullmq.NotReady \/
  exists e, env i = Bullmq.Rejected e /\ Bullmq.retryable e = true /\
            (i < maxRetries)%nat.

(** ** recovery-manager.service.ts: health check and reconnection *)

(** [s.split(sep)] for a one-character separator. *)
Fixpoint split_on (sep : ascii) (s : string) : list string :=
  match s with
  | EmptyString => [EmptyString]
  | String c s' =>
      if Ascii.eqb c sep then EmptyString :: split_on sep s'
      else
        match split_on sep s' with
        | [] => [String c EmptyString]
        | p :: ps => String c p :: ps
        end
  end.

(** [parts.join(sep)]. *)
Fixpoint join_with (sep : ascii) (parts : list string) : string :=
  match parts with
  | [] => EmptyString
  | [p] => p
  | p :: ps => (p ++ String sep (join_with sep ps))%string
  end.

Fixpoint has_char (c : ascii) (s : string) : bool :=
  match s with
  | EmptyString => false
  | String c' s' => Ascii.eqb c' c || has_char c s'
  end.

Module Reconnection.
Import RecoveryManager.

(** The fields of [RecoveryManagerService] that guard the forced
    reconnection. *)
Record t : Type := mk {
  isHandlingReconnection : bool;
  lastReconnectionTime : Z;
  sentinelMasterName : string
}.

Definition RECONNECTION_COOLDOWN_MS : Z := 2000.

(** The clock reads of [recordSentinelPromotion]. *)
Record PromotionEnv : Type := mkPromotionEnv {
  tPromotion0 : Z;
  tPromotion : Z
}.

(** The block shared by the detection paths, up to the call of
    [triggerRecovery]: [recordSentinelPromotion] and
    [transitionToHalfOpen]. *)
Definition promote (env : PromotionEnv) (w : World) : World :=
  let w := with_metrics
             (Metrics.recordSentinelPromotion (tPromotion0 env) (tPromotion env)
                (metrics w)) w in
  with_circuitBreaker
    (CircuitBreaker.transitionToHalfOpen (circuitBreaker w)) w.

Record ForceEnv : Type := mkForceEnv {
  connects : bool;
  writeTest : Remote.AddOutcome;
  promotion : PromotionEnv
}.

(** [connects] tells whether [disconnect] and [connect] settle without
    an error; an error is caught and logged. The call of
    [triggerRecovery] is not awaited: the result is the world the method
    returns in and whether a recovery was started, which then runs on
    its own as [RecoveryManager.triggerRecovery] does. *)
Definition forceReconnection (env : ForceEnv) (self : RecoveryManager.t)
    (w : World) : World * bool :=
  if negb (redisClient self) then (w, false)
  else if negb (connects env) then (w, false)
  else
    let '(ok, w) := testRedisWrite (writeTest env) self w in
    if ok then
      if StateManager.isSqliteMode (stateManager w)
      then (promote (promotion env) w, true)
      else (w, false)
    else (w, false).

Definition handleSentinelSwitchMasterEvent (message : string) (now : Z)
    (env : ForceEnv) (latch : t) (self : RecoveryManager.t) (w : World)
    : t * World * bool :=
  let parts := split_on " " message in
  if ((List.length parts <? 5)%nat
      || negb (String.eqb (hd EmptyString parts) (sentinelMasterName latch)))%bool
  then (latch, w, false)
  else if isHandlingReconnection latch then (latch, w, false)
  else if now - lastReconnectionTime latch <? RECONNECTION_COOLDOWN_MS
  then (latch, w, false)
  else
    let '(w', started) := forceReconnection env self w in
    (mk false now (sentinelMasterName latch), w', started).

(** The listener of the client's [ready] event; its call of
    [triggerRecovery] is not awaited either. *)
Definition onReady (availability : AvailEnv) (env : PromotionEnv) (latch : t)
    (self : RecoveryManager.t) (w : World) : World * bool :=
  if isHandlingReconnection latch then (w, false)
  else
    let '(isAvailable, w) := isRedisAvailable availability self w in
    if (isAvailable && StateManager.isSqliteMode (stateManager w))%bool
    then (promote env w, true)
    else (w, false).

Record CheckEnv : Type := mkCheckEnv {
  writable : Remote.AddOutcome;
  tCheck0 : Z;
  tCheck : Z;
  recovery : TriggerEnv
}.

(** The first block of [checkAndRecover]: the write test made in
    SQLITE_MODE on an OPEN breaker. *)
Definition healthProbe (env : CheckEnv) (self : RecoveryManager.t)
    (w : World) : World :=
  if (StateManager.isSqliteMode (stateManager w)
      && CircuitBreaker.isOpen (circuitBreaker w))%bool
  then
    let '(isRedisWritable, w) := testRedisWrite (writable env) self w in
    if isRedisWritable then
      with_circuitBreaker
        (CircuitBreaker.transitionToHalfOpen (circuitBreaker w))
        (with_metrics
           (Metrics.recordSentinelPromotion (tCheck0 env) (tCheck env)
              (metrics w)) w)
    else w
  else w.

(** The health check awaits the recovery it triggers. *)
Definition checkAndRecover (env : CheckEnv) (self : RecoveryManager.t)
    (w : World) : option (RecoveryManager.t * World) :=
  let w := healthProbe env self w in
  if 0 <? SqliteManager.getPendingCount (sqliteManager w)
  then triggerRecovery (recovery env) self w
  else Some (self, w).

End Reconnection.

(** ** startup.service.ts *)

Module Startup.

(** The recovery manager after [setQueue] and [setRedisClient]. *)
Definition configured (self : RecoveryManager.t) : RecoveryManager.t :=
  RecoveryManager.mk true true (RecoveryManager.isRecovering self)
    (RecoveryManager.lastRecoveryAttempt self) (RecoveryManager.chunkSize self)
    (RecoveryManager.cooldownMs self) (RecoveryManager.instanceId self).

(** [onModuleInit] from the point where the database is open and the
    queue is connected: the services get the queue, the state is set to
    REDIS_MODE, and a recovery is triggered if rows are pending. The
    recovery is not awaited; it is composed here, and [None] is a
    recovery that does not end. *)
Definition onModuleInit (env : RecoveryManager.TriggerEnv)
    (self : RecoveryManager.t) (w : World)
    : option (WriteHandler.t * RecoveryManager.t * World) :=
  let handler := WriteHandler.mk true in
  let self := configured self in
  let w := with_stateManager
             (StateManager.setState REDIS_MODE (stateManager w)) w in
  if 0 <? SqliteManager.getPendingCount (sqliteManager w) then
    match RecoveryManager.triggerRecovery env self w with
    | Some (self', w') => Some (handler, self', w')
    | None => None
    end
  else Some (handler, self, w).

End Startup.

(** ** Frames *)

(** The remote queue [r'] holds the calls and the jobs of [r] and
    possibly more. *)
Definition grows (r r' : Remote.t) : Prop :=
  (exists more, Remote.attempts r' = Remote.attempts r ++ more) /\
  (exists more, Remote.jobs r' = Remote.jobs r ++ more).

(** [w'] differs from [w] at most in the remote queue, which has grown,
    and in columns other than [id] of the rows of the table. *)
Definition untouched (w w' : World) : Prop :=
  stateManager w' = stateManager w /\
  circuitBreaker w' = circuitBreaker w /\
  metrics w' = metrics w /\
  SqliteManager.only_rows (sqliteManager w) (sqliteManager w') /\
  grows (remote w) (remote w').

(** ** Reading the outcome of a drain *)

(** The cars of the jobs the queue has accepted, oldest first; the jobs
    of the health check carry none. *)
Definition carJobs (r : Remote.t) : list Car.t :=
  flat_map
    (fun j =>
       match Remote.data j with
       | Remote.CarData car => [car]
       | Remote.HealthCheck => []
       end)
    (Remote.jobs r).

(** [r'] is the row [r] after some batches of a drain in which nothing
    failed: a row that was PENDING is PENDING or SENT, any other row is
    as it was. *)
Definition drained (r r' : PendingCar.t) : Prop :=
  PendingCar.id r' = PendingCar.id r /\
  RecoveryManager.carData r' = RecoveryManager.carData r /\
  (PendingCar.status r = PENDING ->
   PendingCar.status r' = PENDING \/ PendingCar.status r' = SENT) /\
  (PendingCar.status r <> PENDING -> r' = r).

(** A batch in which the store is reachable and accepts every job, and
    no database statement fails. *)
Definition accepting (env : RecoveryManager.BatchEnv) : Prop :=
  RecoveryManager.fault_free env /\
  (exists j, RecoveryManager.probe (RecoveryManager.avail env) = Ok j) /\
  (forall i, exists j, RecoveryManager.adds env i = Ok j).

(** A batch in which the store is reachable and the health check is
    accepted, but every job of a car is rejected; no database statement
    fails. *)
Definition rejecting (env : RecoveryManager.BatchEnv) : Prop :=
  RecoveryManager.fault_free env /\
  (exists j, RecoveryManager.probe (RecoveryManager.avail env) = Ok j) /\
  (forall i, exists e, RecoveryManager.adds env i = Throw e).

(** ** The cars the durable store holds *)

(** The cars of the rows of the table, in table order, followed by the
    cars of the write buffer. *)
Definition held (s : SqliteManager.t) : list Car.t :=
  match SqliteManager.db s with
  | Some tbl => map RecoveryManager.carData tbl
  | None => []
  end ++ SqliteManager.writeBuffer s.

(** ** Reading the failover log *)

(** The event that closes a failover session: a return to REDIS_MODE that
    carries a session id (the event of the service start carries none). *)
Definition closes (ev : Metrics.FailoverEvent) : bool :=
  match Metrics.eventType ev, Metrics.d_sessionId (Metrics.details ev) with
  | Metrics.STATE_TRANSITION_TO_REDIS, Some _ => true
  | _, _ => false
  end.

Definition closedSessions (m : Metrics.t) : Z :=
  Z.of_nat (List.length (filter closes (Metrics.console m))).

(** What holds of the tracker however it is called: the log file mirrors
    the console, a session that is held is active, and every session
    counted is the open one or was closed by one event. *)
Definition accounted (m : Metrics.t) : Prop :=
  Metrics.logStream m = Some (Metrics.console m) /\
  (forall s, Metrics.currentSession m = Some s ->
             FailoverSession.isActive s = true) /\
  Metrics.totalFailoverSessions m =
    closedSessions m +
    match Metrics.currentSession m with Some _ => 1 | None => 0 end.

(** [s'] holds the cars of the rows [tbl] and of [buffer]: the cars of
    its rows followed by those of its buffer are these, in order, with in
    between the cars that are in both, a run of [buffer] that is empty
    unless the flush failed with its transaction ended from outside. *)
Definition keeps_cars (env : SqliteManager.FlushEnv) (tbl : SqliteManager.Table)
    (buffer : list Car.t) (s' : SqliteManager.t) : Prop :=
  exists dup,
    held s' = map RecoveryManager.carData tbl ++ dup ++ buffer /\
    (exists k n, dup = firstn n (skipn k buffer)) /\
    (SqliteManager.failure env = None \/ SqliteManager.torn env = None ->
     dup = []).

(** ** A recovery that is running *)


(** ** Sample values *)

(** The world the examples start from: everything fresh, the database
    open and empty. *)
Definition freshWorld : World :=
  mkWorld StateManager.new (CircuitBreaker.new None None)
    (SqliteManager.mkService (Some []) [] false false "instance-1-0")
    (Metrics.onModuleInit Metrics.new) (Remote.mk [] []).

Definition refused : JsError :=
  mkError (Some "connect ECONNREFUSED 127.0.0.1:6379") (Some "ECONNREFUSED")
    None None None None.

Definition quietFlush : SqliteManager.FlushEnv :=
  SqliteManager.mkFlushEnv 1000 (fun _ => "k3j9x0a1b") None None.

Definition refusedEnv : WriteHandler.Env :=
  WriteHandler.mkEnv (Throw refused) (fun _ => quietFlush) 10 10 10 10.

Definition someCar : Car.t :=
  Car.mk "toyota" "corolla" 2020 (Qmake 15000 1) "Yerevan".

Definition readyManager : RecoveryManager.t :=
  RecoveryManager.mk true true false 0 50 10000 "instance-1-0".

Definition rowA : PendingCar.t :=
  PendingCar.mk "instance-1-0-1000-0-aaaaaaaaa" "toyota" "corolla" 2020
    (Qmake 15000 1) "Yerevan" 1000 PENDING 0 None None None.

Definition rowB : PendingCar.t :=
  PendingCar.mk "instance-1-0-1000-1-bbbbbbbbb" "honda" "civic" 2019
    (Qmake 12000 1) "Gyumri" 1001 PENDING 0 None None None.

Definition storeAB : SqliteManager.t :=
  SqliteManager.mkService (Some [rowA; rowB]) [] false false "instance-1-0".

Definition busy : JsError :=
  mkError (Some "SQLITE_BUSY: database is locked") (Some "SQLITE_BUSY") None
    None None None.

(** A batch in which the first car is delivered, the second is refused,
    and the update that releases the second fails once. *)
Definition faultyBatch : RecoveryManager.BatchEnv :=
  RecoveryManager.mkBatchEnv 5000 None
    (RecoveryManager.mkAvailEnv RecoveryManager.Pong (Ok (Some "7")))
    (fun i => match i with O => Ok (Some "job-1") | _ => Throw refused end)
    None (Some (0%nat, busy)) None.

(** A world whose breaker is open and whose state is SQLITE_MODE. *)
Definition openWorld : World :=
  mkWorld (StateManager.mk SQLITE_MODE)
    (CircuitBreaker.mk OPEN 5 5 2000 (Some 2000))
    (sqliteManager freshWorld) (metrics freshWorld) (remote freshWorld).

(** A world still in REDIS_MODE whose breaker is open. *)
Definition racingWorld : World :=
  mkWorld (StateManager.mk REDIS_MODE)
    (CircuitBreaker.mk OPEN 5 5 2000 (Some 2000))
    (sqliteManager freshWorld) (metrics freshWorld) (remote freshWorld).

Definition acceptedEnv : WriteHandler.Env :=
  WriteHandler.mkEnv (Ok (Some "1")) (fun _ => quietFlush) 10 10 10 10.



(** A batch in which every car is delivered and no update fails. *)
Definition cleanBatch : RecoveryManager.BatchEnv :=
  RecoveryManager.mkBatchEnv 5000 None
    (RecoveryManager.mkAvailEnv RecoveryManager.Pong (Ok (Some "7")))
    (fun _ => Ok (Some "job-1")) None None None.

(** A drain whose first batch delivers everything it claims and whose
    second batch finds nothing left. *)
Definition cleanDrain : RecoveryManager.DrainEnv :=
  RecoveryManager.mkDrainEnv 400000 None [cleanBatch; cleanBatch].

(** An error that no pattern of the write handler matches. *)
Definition validationError : JsError :=
  mkError (Some "Invalid job data") None None None None None.

Definition rejectedEnv : WriteHandler.Env :=
  WriteHandler.mkEnv (Throw validationError) (fun _ => quietFlush) 10 10 10 10.

(** A world in SQLITE_MODE whose breaker is half-open after a cooldown,
    with the failover session of the outage open. *)
Definition probingWorld : World :=
  mkWorld (StateManager.mk SQLITE_MODE)
    (CircuitBreaker.mk HALF_OPEN 5 5 2000 None)
    (sqliteManager freshWorld)
    (Metrics.recordStateTransitionToSqlite REDIS_MODE 10
       (Metrics.recordMasterFailure (Some "connect ECONNREFUSED") 10
          (metrics freshWorld)))
    (remote freshWorld).

(** The error ioredis raises with the offline queue disabled. *)
Definition offlineError : JsError :=
  mkError (Some "Stream isn't writeable and enableOfflineQueue options is false")
    None None None None None.

(** A store one car short of a full batch: forty-nine cars in the
    buffer. *)
Definition storeFull : SqliteManager.t :=
  SqliteManager.mkService (Some []) (repeat someCar 49) true false
    "instance-1-0".

(** Distinct random suffixes: the index, printed. *)
Definition countingFlush : SqliteManager.FlushEnv :=
  SqliteManager.mkFlushEnv 1000 (fun i => show_Z (Z.of_nat i)) None None.

Definition failingFlush : SqliteManager.FlushEnv :=
  SqliteManager.mkFlushEnv 1000 (fun i => show_Z (Z.of_nat i)) (Some busy) None.

(** A flush whose transaction is ended from outside before its first
    insert, and whose COMMIT then fails. *)
Definition tornFlush : SqliteManager.FlushEnv :=
  SqliteManager.mkFlushEnv 1000 (fun i => show_Z (Z.of_nat i)) (Some busy)
    (Some 0%nat).

(** Every transaction of the durable store fails. *)
Definition lockedEnv : WriteHandler.Env :=
  WriteHandler.mkEnv (Ok (Some "1")) (fun _ => failingFlush) 10 10 10 10.

Definition storeOne : SqliteManager.t :=
  SqliteManager.mkService (Some []) [someCar] true false "instance-1-0".

(** A store whose database was never opened. *)
Definition storeClosed : SqliteManager.t :=
  SqliteManager.mkService None (repeat someCar 49) true false "instance-1-0".



(** A drain with three batches in which nothing fails. *)
Definition longDrain : RecoveryManager.DrainEnv :=
  RecoveryManager.mkDrainEnv 400000 None (repeat cleanBatch 3).

(** A batch in which the health check goes through and every job of a car
    is rejected. *)
Definition rejectingBatch : RecoveryManager.BatchEnv :=
  RecoveryManager.mkBatchEnv 5000 None
    (RecoveryManager.mkAvailEnv RecoveryManager.Pong (Ok (Some "7")))
    (fun _ => Throw validationError) None None None.

(** A forced reconnection that goes through: the client reconnects and
    the write test is accepted. *)
Definition switchEnv : Reconnection.ForceEnv :=
  Reconnection.mkForceEnv true (Ok (Some "9"))
    (Reconnection.mkPromotionEnv 30000 30000).

Definition idleLatch : Reconnection.t := Reconnection.mk false 0 "mymaster".



(** A health check at time 20000 that finds the store reachable, with six
    batches in which nothing fails. *)
Definition patientCheck : Reconnection.CheckEnv :=
  Reconnection.mkCheckEnv (Ok (Some "8")) 20000 20000
    (RecoveryManager.mkTriggerEnv 20000
       (RecoveryManager.mkAvailEnv RecoveryManager.Pong (Ok (Some "7")))
       20001
       (RecoveryManager.mkDrainEnv 400000 None (repeat cleanBatch 6))
       20050).

(** * Properties *)

(** ** Circuit breaker *)

Section BreakerFacts.
Import CircuitBreaker.

Lemma recordFailure_count (cb : CircuitBreaker.t) :
  failureCount (recordFailure cb) = failureCount cb + 1.
Proof.
  unfold recordFailure; destruct cb as [[] n thr cd tm]; simpl;
    try reflexivity.
  destruct (thr <=? n + 1); reflexivity.
Qed.

Lemma run_app (cb : CircuitBreaker.t) (es1 es2 : list event) :
  run cb (es1 ++ es2) = run (run cb es1) es2.
Proof. unfold run; apply fold_left_app. Qed.

Lemma repeat_snoc {A : Type} (x : A) (n : nat) :
  repeat x (S n) = repeat x n ++ [x].
Proof.
  induction n as [|n IH]; [reflexivity|].
  change (repeat x (S (S n))) with (x :: repeat x (S n)).
  rewrite IH at 1. reflexivity.
Qed.

Lemma recordFailure_closed (n thr cd : Z) (tm : option Z) :
  recordFailure (mk CLOSED n thr cd tm) =
  if thr <=? n + 1 then mk OPEN (n + 1) thr cd (Some cd)
  else mk CLOSED (n + 1) thr cd tm.
Proof.
  unfold recordFailure; cbn [state failureCount failureThreshold
    with_failureCount cooldownMs cooldownTimer].
  destruct (thr <=? n + 1); reflexivity.
Qed.

Lemma recordFailure_open (n thr cd : Z) (tm : option Z) :
  recordFailure (mk OPEN n thr cd tm) = mk OPEN (n + 1) thr cd tm.
Proof. reflexivity. Qed.

(** The breaker after [n] failures in a row from [Closed(0)]. *)
Lemma run_failures (thr cd : Z) (n : nat) :
  run (mk CLOSED 0 thr cd None) (repeat Failure n) =
  if ((1 <=? Z.of_nat n) && (thr <=? Z.of_nat n))%bool
  then mk OPEN (Z.of_nat n) thr cd (Some cd)
  else mk CLOSED (Z.of_nat n) thr cd None.
Proof.
  induction n as [|n IH]; [reflexivity|].
  rewrite repeat_snoc, run_app, IH.
  replace (Z.of_nat (S n)) with (Z.of_nat n + 1) by lia.
  unfold run; cbn [fold_left step].
  destruct (Z.leb_spec 1 (Z.of_nat n)); destruct (Z.leb_spec thr (Z.of_nat n));
    destruct (Z.leb_spec 1 (Z.of_nat n + 1));
    destruct (Z.leb_spec thr (Z.of_nat n + 1));
    cbn [andb]; rewrite ?recordFailure_closed, ?recordFailure_open;
    try reflexivity; try lia;
    destruct (Z.leb_spec thr (Z.of_nat n + 1)); try reflexivity; lia.
Qed.

(** A step never takes an open breaker to [CLOSED]. *)
Lemma step_from_open (cb : CircuitBreaker.t) (e : event) :
  state cb = OPEN ->
  state (step cb e) = OPEN \/ state (step cb e) = HALF_OPEN.
Proof.
  destruct cb as [s n thr cd tm]; simpl; intros ->.
  destruct e; simpl; auto.
  unfold cooldownExpired; simpl. destruct tm; simpl; auto.
Qed.

Lemma states_cons (cb : CircuitBreaker.t) (e : event) (es : list event) :
  states cb (e :: es) = state cb :: states (step cb e) es.
Proof. reflexivity. Qed.

Lemma states_adjacent (es : list event) :
  forall (cb : CircuitBreaker.t) (i : nat),
    nth_error (CircuitBreaker.states cb es) i = Some OPEN ->
    nth_error (CircuitBreaker.states cb es) (S i) <> Some CLOSED.
Proof.
  induction es as [|e es IH]; intros cb i Hi.
  - destruct i as [|[|i]]; simpl; discriminate.
  - rewrite states_cons in *. destruct i as [|i].
    + simpl in Hi. injection Hi as Hs.
      simpl. destruct es; simpl;
        destruct (step_from_open cb e Hs) as [H|H]; rewrite H; discriminate.
    + simpl in Hi. simpl. apply IH; exact Hi.
Qed.

Lemma states_via_half_open (es : list event) (cb : CircuitBreaker.t) :
  forall (d i j : nat),
    (j = i + S d)%nat ->
    nth_error (CircuitBreaker.states cb es) i = Some OPEN ->
    nth_error (CircuitBreaker.states cb es) j = Some CLOSED ->
    exists k, (i < k < j)%nat /\ nth_error (CircuitBreaker.states cb es) k = Some HALF_OPEN.
Proof.
  induction d as [|d IH]; intros i j -> Hi Hj.
  - exfalso. replace (i + 1)%nat with (S i) in Hj by lia.
    exact (states_adjacent es cb i Hi Hj).
  - destruct (nth_error (CircuitBreaker.states cb es) (S i)) as [[]|] eqn:Hn.
    + exfalso. exact (states_adjacent es cb i Hi Hn).
    + destruct (IH (S i) (i + S (S d))%nat ltac:(lia) Hn Hj) as (k & Hk & Hh).
      exists k; split; [lia|exact Hh].
    + exists (S i); split; [lia|exact Hn].
    + exfalso.
      assert (Hlen : (i + S (S d) < List.length (CircuitBreaker.states cb es))%nat)
        by (apply nth_error_Some; rewrite Hj; discriminate).
      apply nth_error_None in Hn. lia.
Qed.

End BreakerFacts.

(** C4. The breaker is the three-state machine of the specification. In
    [CLOSED], [recordFailure] adds one to [failureCount] and opens the
    breaker, arming the cooldown, exactly when the new count is at least
    the threshold (5 by default); in [CLOSED], [recordSuccess] sets the
    count to 0; in [HALF_OPEN], [recordSuccess] closes the breaker with
    count 0 and no timer, and [recordFailure] opens it again. After [n]
    failures in a row from [Closed(0)] the count is [n], and the breaker is
    open as soon as [n] has reached the threshold. *)
Theorem C4_breaker_state_machine :
  CircuitBreaker.failureThreshold (CircuitBreaker.new None None) = 5 /\
  (forall n thr cd tm,
     CircuitBreaker.recordFailure (CircuitBreaker.mk CLOSED n thr cd tm) =
     if thr <=? n + 1
     then CircuitBreaker.mk OPEN (n + 1) thr cd (Some cd)
     else CircuitBreaker.mk CLOSED (n + 1) thr cd tm) /\
  (forall n thr cd tm,
     CircuitBreaker.recordSuccess (CircuitBreaker.mk CLOSED n thr cd tm) =
     CircuitBreaker.mk CLOSED 0 thr cd tm) /\
  (forall n thr cd tm,
     CircuitBreaker.recordSuccess (CircuitBreaker.mk HALF_OPEN n thr cd tm) =
     CircuitBreaker.mk CLOSED 0 thr cd None) /\
  (forall n thr cd tm,
     CircuitBreaker.recordFailure (CircuitBreaker.mk HALF_OPEN n thr cd tm) =
     CircuitBreaker.mk OPEN (n + 1) thr cd (Some cd)) /\
  (forall thr cd (n : nat),
     let cb := CircuitBreaker.run (CircuitBreaker.mk CLOSED 0 thr cd None)
                 (repeat CircuitBreaker.Failure n) in
     CircuitBreaker.failureCount cb = Z.of_nat n /\
     CircuitBreaker.failureCount (CircuitBreaker.recordFailure cb) =
       CircuitBreaker.failureCount cb + 1 /\
     CircuitBreaker.state cb =
       if ((1 <=? Z.of_nat n) && (thr <=? Z.of_nat n))%bool
       then OPEN else CLOSED).
Proof.
  split; [reflexivity|].
  split; [intros; apply recordFailure_closed|].
  split; [reflexivity|].
  split; [reflexivity|].
  split; [reflexivity|].
  intros thr cd n cb. subst cb. rewrite run_failures.
  split; [|split].
  - destruct ((1 <=? Z.of_nat n) && (thr <=? Z.of_nat n))%bool; reflexivity.
  - apply recordFailure_count.
  - destruct ((1 <=? Z.of_nat n) && (thr <=? Z.of_nat n))%bool; reflexivity.
Qed.

(** C10. While the breaker is [OPEN], [recordSuccess] changes nothing and
    [recordFailure] only adds one to [failureCount]. Under any sequence of
    [recordSuccess] and [recordFailure] calls and cooldown expiries the
    breaker never goes from [OPEN] to [CLOSED] in one step, and between an
    [OPEN] state and a later [CLOSED] state there is a [HALF_OPEN] one. *)
Theorem C10_open_never_directly_closed :
  (forall n thr cd tm,
     CircuitBreaker.recordSuccess (CircuitBreaker.mk OPEN n thr cd tm) =
     CircuitBreaker.mk OPEN n thr cd tm) /\
  (forall n thr cd tm,
     CircuitBreaker.recordFailure (CircuitBreaker.mk OPEN n thr cd tm) =
     CircuitBreaker.mk OPEN (n + 1) thr cd tm) /\
  (forall cb es i,
     nth_error (CircuitBreaker.states cb es) i = Some OPEN ->
     nth_error (CircuitBreaker.states cb es) (S i) <> Some CLOSED) /\
  (forall cb es i j,
     (i < j)%nat ->
     nth_error (CircuitBreaker.states cb es) i = Some OPEN ->
     nth_error (CircuitBreaker.states cb es) j = Some CLOSED ->
     exists k, (i < k < j)%nat /\ nth_error (CircuitBreaker.states cb es) k = Some HALF_OPEN).
Proof.
  split; [reflexivity|]. split; [reflexivity|]. split.
  - intros cb es i. apply states_adjacent.
  - intros cb es i j Hij. apply (states_via_half_open es cb (j - i - 1)). lia.
Qed.

(** An open breaker whose cooldown expires, then a successful probe: the
    states are [OPEN], [HALF_OPEN], [CLOSED]. *)
Lemma C10_witness :
  let cb := CircuitBreaker.mk OPEN 5 5 2000 (Some 2000) in
  let es := [CircuitBreaker.CooldownExpired; CircuitBreaker.Success] in
  CircuitBreaker.states cb es = [OPEN; HALF_OPEN; CLOSED] /\
  nth_error (CircuitBreaker.states cb es) 1 <> Some CLOSED /\
  exists k, (0 < k < 2)%nat /\ nth_error (CircuitBreaker.states cb es) k = Some HALF_OPEN.
Proof.
  intros cb es. split; [reflexivity|]. split.
  - apply (proj1 (proj2 (proj2 C10_open_never_directly_closed)) cb es 0%nat).
    reflexivity.
  - apply (proj2 (proj2 (proj2 C10_open_never_directly_closed)) cb es 0%nat 2%nat).
    + lia.
    + reflexivity.
    + reflexivity.
Defined.

(** ** Metrics session tracker *)

Section MetricsFacts.
Import Metrics.

Lemma step_consistent (m : Metrics.t) (c : call) :
  consistent m -> consistent (step m c).
Proof.
  unfold consistent, step, recordMasterFailure, recordSentinelPromotion,
    recordStateTransitionToSqlite, recordStateTransitionToRedis,
    incrementSqliteFallbackCount, recordRecoveryStarted,
    recordRecoveryCompleted, activeSession.
  destruct m as [ls [s|] n tot con]; destruct c; simpl; intros H;
    try destruct (FailoverSession.isActive s); simpl; auto.
Qed.

Lemma run_consistent (cs : list call) :
  forall m, consistent m -> consistent (run m cs).
Proof.
  induction cs as [|c cs IH]; intros m H; [exact H|].
  apply IH, step_consistent, H.
Qed.

Lemma activeSession_count (m : Metrics.t) (s : FailoverSession.t) :
  consistent m -> activeSession m = Some s ->
  FailoverSession.sqliteFallbackCount s = sqliteFallbackCount m.
Proof.
  unfold consistent, activeSession. destruct (currentSession m) as [s'|];
    [|discriminate].
  destruct (FailoverSession.isActive s'); [|discriminate].
  intros H [= <-]. exact H.
Qed.

Lemma toRedis_closes (prev : SeederState) (now0 now : Z) (m : Metrics.t) :
  currentSession (recordStateTransitionToRedis prev now0 now m) = None /\
  getSqliteFallbackCount (recordStateTransitionToRedis prev now0 now m) =
    getSqliteFallbackCount m.
Proof.
  unfold recordStateTransitionToRedis.
  destruct (activeSession m); split; reflexivity.
Qed.

(** The two calls that reset the counter when they open a session. *)
Lemma opens_reset (m : Metrics.t) :
  currentSession m = None ->
  (forall e t, getSqliteFallbackCount (recordMasterFailure e t m) = 0) /\
  (forall p t,
     getSqliteFallbackCount (recordStateTransitionToSqlite p t m) = 0).
Proof.
  intros H. unfold recordMasterFailure, recordStateTransitionToSqlite,
    activeSession. rewrite H. split; reflexivity.
Qed.

Lemma active_inv (m : Metrics.t) (s : FailoverSession.t) :
  activeSession m = Some s ->
  exists ls n tot con,
    m = mk ls (Some s) n tot con /\ FailoverSession.isActive s = true.
Proof.
  unfold activeSession. destruct m as [ls [s0|] n tot con]; simpl;
    [|discriminate].
  destruct (FailoverSession.isActive s0) eqn:E; [|discriminate].
  intros [= <-]. exists ls, n, tot, con. split; [reflexivity|exact E].
Qed.

End MetricsFacts.

(** C8 as stated fails: after a failure, two fallbacks and the return to
    Redis mode the session is closed and the fallback count still reads
    2. *)
Lemma C8_fallback_count_kept_after_close :
  let m := Metrics.run Metrics.new
             [Metrics.MasterFailure (Some "connect ECONNREFUSED") 10;
              Metrics.ToSqlite REDIS_MODE 10;
              Metrics.IncrementFallback;
              Metrics.IncrementFallback] in
  let m' := Metrics.recordStateTransitionToRedis SQLITE_MODE 20 20 m in
  Metrics.currentSession m' = None /\
  Metrics.getSqliteFallbackCount m' = 2 /\
  ~ Metrics.getSqliteFallbackCount m' = 0.
Proof.
  cbv zeta. split; [reflexivity|]. split; [reflexivity|].
  intros H. vm_compute in H. discriminate H.
Qed.

(** C8, amended. The tracker holds at most one session; a call other than
    [recordStateTransitionToRedis] keeps the active session and opens no
    other, and [recordStateTransitionToRedis] closes it. On that close the
    emitted STATE_TRANSITION_TO_REDIS event reports the accumulated
    fallback count; the count itself is left as it is by the close and is
    set to zero when [recordMasterFailure] or
    [recordStateTransitionToSqlite] opens the next session. *)
Theorem C8_session_close_reports_count :
  forall (cs : list Metrics.call) (prev : SeederState) (now0 now : Z),
    let m := Metrics.run Metrics.new cs in
    let m' := Metrics.recordStateTransitionToRedis prev now0 now m in
    Metrics.currentSession m' = None /\
    (exists ev,
       Metrics.console m' = Metrics.console m ++ [ev] /\
       Metrics.eventType ev = Metrics.STATE_TRANSITION_TO_REDIS /\
       Metrics.d_sqliteFallbackCount (Metrics.details ev) =
         Some (Metrics.sqliteFallbackCount m)) /\
    Metrics.getSqliteFallbackCount m' = Metrics.getSqliteFallbackCount m /\
    (forall e t,
       Metrics.getSqliteFallbackCount (Metrics.recordMasterFailure e t m') = 0) /\
    (forall p t,
       Metrics.getSqliteFallbackCount
         (Metrics.recordStateTransitionToSqlite p t m') = 0) /\
    (forall c s,
       Metrics.activeSession m = Some s ->
       (forall p a b, c <> Metrics.ToRedis p a b) ->
       exists s',
         Metrics.activeSession (Metrics.step m c) = Some s' /\
         FailoverSession.sessionId s' = FailoverSession.sessionId s /\
         Metrics.totalFailoverSessions (Metrics.step m c) =
           Metrics.totalFailoverSessions m).
Proof.
  intros cs prev now0 now m m'.
  assert (Hc : Metrics.consistent m)
    by (apply run_consistent; exact I).
  destruct (toRedis_closes prev now0 now m) as [Hn Hk]. fold m' in Hn, Hk.
  split; [exact Hn|]. split.
  { subst m'. unfold Metrics.recordStateTransitionToRedis.
    destruct (Metrics.activeSession m) as [s|] eqn:Ha.
    - eexists; split; [reflexivity|]. split; [reflexivity|]. simpl.
      f_equal. apply activeSession_count; assumption.
    - eexists; split; [reflexivity|]. split; reflexivity. }
  split; [exact Hk|].
  split; [intros; apply (proj1 (opens_reset m' Hn))|].
  split; [intros; apply (proj2 (opens_reset m' Hn))|].
  intros c s Ha Hc'. clearbody m. clear m' Hc Hn Hk.
  destruct (active_inv m s Ha) as (ls & n & tot & con & -> & Hact).
  destruct c; try (exfalso; eapply Hc'; reflexivity);
    unfold Metrics.step, Metrics.recordMasterFailure,
      Metrics.recordSentinelPromotion, Metrics.recordStateTransitionToSqlite,
      Metrics.incrementSqliteFallbackCount, Metrics.recordRecoveryStarted,
      Metrics.recordRecoveryCompleted, Metrics.activeSession;
    simpl; rewrite Hact; simpl; rewrite ?Hact;
    eexists; (split; [reflexivity|split; reflexivity]).
Qed.

(** ** Durable store *)

Section TableFacts.
Import PendingCar SqliteManager.

Lemma RecoveryStatus_eqb_eq (a b : RecoveryStatus) :
  RecoveryStatus_eqb a b = true <-> a = b.
Proof. destruct a, b; simpl; split; congruence. Qed.

Lemma hasStatus_true (s : RecoveryStatus) (r : PendingCar.t) :
  hasStatus s r = true <-> status r = s.
Proof. apply RecoveryStatus_eqb_eq. Qed.

Lemma inb_In (x : string) (l : list string) : inb x l = true <-> In x l.
Proof.
  unfold inb. rewrite existsb_exists. split.
  - intros (y & Hy & E). apply String.eqb_eq in E. subst. exact Hy.
  - intros H. exists x. split; [exact H|apply String.eqb_refl].
Qed.

Lemma hasId_true (i : string) (r : PendingCar.t) :
  hasId i r = true <-> id r = i.
Proof. apply String.eqb_eq. Qed.

(** Rows of a table with a primary key are determined by their id. *)
Lemma unique_ids_inj (tbl : Table) (a b : PendingCar.t) :
  unique_ids tbl -> In a tbl -> In b tbl -> id a = id b -> a = b.
Proof.
  unfold unique_ids. induction tbl as [|x tbl IH]; simpl; [tauto|].
  intros Hnd Ha Hb E. inversion Hnd as [|? ? Hx Hnd']; subst.
  destruct Ha as [->|Ha], Hb as [->|Hb]; auto.
  - exfalso. apply Hx. rewrite E. apply in_map, Hb.
  - exfalso. apply Hx. rewrite <- E. apply in_map, Ha.
Qed.

Lemma unique_ids_NoDup (tbl : Table) : unique_ids tbl -> NoDup tbl.
Proof. apply NoDup_map_inv. Qed.

(** *** [UPDATE ... WHERE] *)



Lemma update_where_ids cond set (tbl : Table) :
  (forall r, id (set r) = id r) ->
  map id (update_where cond set tbl) = map id tbl.
Proof.
  intros H. unfold update_where. rewrite map_map. apply map_ext.
  intros r. destruct (cond r); [apply H|reflexivity].
Qed.

Lemma update_where_In cond set (tbl : Table) (r' : PendingCar.t) :
  In r' (update_where cond set tbl) <->
  exists r, In r tbl /\ r' = (if cond r then set r else r).
Proof.
  unfold update_where. rewrite in_map_iff. split; intros (r & A & B).
  - exists r. split; [exact B|symmetry; exact A].
  - exists r. split; [symmetry; exact B|exact A].
Qed.

Lemma filter_NoDup {A : Type} (f : A -> bool) (l : list A) :
  NoDup l -> NoDup (filter f l).
Proof.
  induction 1 as [|x l Hx Hnd IH]; simpl; [constructor|].
  destruct (f x); [constructor|exact IH].
  - intros H. apply filter_In in H. tauto.
  - exact IH.
Qed.

(** *** [ORDER BY created_at ASC LIMIT n] *)

Lemma in_firstn {A : Type} (n : nat) (l : list A) (x : A) :
  In x (firstn n l) -> In x l.
Proof.
  intros H. rewrite <- (firstn_skipn n l). apply in_or_app. left. exact H.
Qed.

Lemma in_skipn {A : Type} (n : nat) (l : list A) (x : A) :
  In x (skipn n l) -> In x l.
Proof.
  intros H. rewrite <- (firstn_skipn n l). apply in_or_app. right. exact H.
Qed.

Lemma insert_row_perm (r : PendingCar.t) (l : Table) :
  Permutation (insert_row r l) (r :: l).
Proof.
  induction l as [|x l IH]; simpl; [apply Permutation_refl|].
  destruct (created_at r <=? created_at x); [apply Permutation_refl|].
  eapply perm_trans; [apply perm_skip, IH|apply perm_swap].
Qed.

Lemma order_perm (l : Table) : Permutation (order_by_created_at l) l.
Proof.
  induction l as [|r l IH]; simpl; [constructor|].
  eapply perm_trans; [apply insert_row_perm|apply perm_skip, IH].
Qed.

Lemma insert_row_sorted (r : PendingCar.t) (l : Table) :
  StronglySorted created_le l -> StronglySorted created_le (insert_row r l).
Proof.
  induction 1 as [|x l Hs IH Hx]; simpl.
  - constructor; constructor.
  - destruct (Z.leb_spec (created_at r) (created_at x)) as [Hle|Hgt].
    + constructor; [constructor; assumption|].
      constructor; [exact Hle|].
      rewrite Forall_forall in *. intros y Hy.
      unfold created_le in *. specialize (Hx y Hy). lia.
    + constructor; [exact IH|].
      rewrite Forall_forall in *. intros y Hy.
      apply (Permutation_in _ (insert_row_perm r l)) in Hy.
      destruct Hy as [<-|Hy]; [unfold created_le; lia|apply Hx, Hy].
Qed.

Lemma order_sorted (l : Table) :
  StronglySorted created_le (order_by_created_at l).
Proof.
  induction l as [|r l IH]; simpl; [constructor|].
  apply insert_row_sorted, IH.
Qed.



Lemma sql_limit_incl {A : Type} (n : Z) (l : list A) (x : A) :
  In x (sql_limit n l) -> In x l.
Proof.
  unfold sql_limit. destruct (n <? 0); [tauto|]. apply in_firstn.
Qed.

Lemma sql_limit_length {A : Type} (n : Z) (l : list A) :
  0 <= n ->
  List.length (sql_limit n l) = Nat.min (Z.to_nat n) (List.length l).
Proof.
  intros H. unfold sql_limit.
  destruct (Z.ltb_spec n 0); [lia|]. apply length_firstn.
Qed.

End TableFacts.

Section ClaimFacts.
Import PendingCar SqliteManager.

Lemma pending_sorted_In (tbl : Table) (r : PendingCar.t) :
  In r (order_by_created_at (filter (hasStatus PENDING) tbl)) <->
  In r tbl /\ status r = PENDING.
Proof.
  rewrite <- hasStatus_true, <- filter_In. split; intros H.
  - eapply Permutation_in; [apply order_perm|exact H].
  - eapply Permutation_in; [apply Permutation_sym, order_perm|exact H].
Qed.

Lemma selected_In (limit : Z) (tbl : Table) (r : PendingCar.t) :
  In r (selected_rows limit tbl) -> In r tbl /\ status r = PENDING.
Proof.
  intros H. apply pending_sorted_In. eapply sql_limit_incl, H.
Qed.



Lemma selected_length (limit : Z) (tbl : Table) :
  0 <= limit ->
  List.length (selected_rows limit tbl) =
  Nat.min (Z.to_nat limit) (List.length (filter (hasStatus PENDING) tbl)).
Proof.
  intros H. unfold selected_rows. rewrite sql_limit_length by exact H.
  rewrite (Permutation_length (order_perm _)). reflexivity.
Qed.


Lemma selected_NoDup (limit : Z) (tbl : Table) :
  unique_ids tbl -> NoDup (selected_rows limit tbl).
Proof.
  intros H.
  assert (Hs : NoDup (order_by_created_at (filter (hasStatus PENDING) tbl))).
  { eapply Permutation_NoDup; [apply Permutation_sym, order_perm|].
    apply filter_NoDup, unique_ids_NoDup, H. }
  unfold selected_rows, sql_limit. destruct (limit <? 0); [exact Hs|].
  rewrite <- (firstn_skipn (Z.to_nat limit)) in Hs.
  eapply NoDup_app_remove_r, Hs.
Qed.

(** With a primary key, the rows the update touches are the selected
    ones. *)
Lemma claim_where_iff (limit : Z) (tbl : Table) (r : PendingCar.t) :
  unique_ids tbl -> In r tbl ->
  (claim_where limit tbl r = true <-> In r (selected_rows limit tbl)).
Proof.
  intros Hu Hr. unfold claim_where, selected_cars.
  rewrite andb_true_iff, inb_In, in_map_iff, hasStatus_true. split.
  - intros [(r2 & E & H2) _].
    assert (r2 = r) as <-; [|exact H2].
    eapply unique_ids_inj; eauto. apply (selected_In _ _ _ H2).
  - intros H. split; [exists r; auto|apply (selected_In _ _ _ H)].
Qed.

Lemma claimed_rows_perm (limit : Z) (tbl : Table) :
  unique_ids tbl ->
  Permutation (filter (claim_where limit tbl) tbl) (selected_rows limit tbl).
Proof.
  intros Hu. apply NoDup_Permutation.
  - apply filter_NoDup, unique_ids_NoDup, Hu.
  - apply selected_NoDup, Hu.
  - intros r. rewrite filter_In. split.
    + intros [Hr Hc]. apply (claim_where_iff limit tbl r Hu Hr), Hc.
    + intros H. pose proof (selected_In _ _ _ H) as [Hr _].
      split; [exact Hr|]. apply (claim_where_iff limit tbl r Hu Hr), H.
Qed.

Lemma set_recovering_id (inst : string) (now : Z) (r : PendingCar.t) :
  id (set_recovering inst now r) = id r.
Proof. reflexivity. Qed.

Lemma claim_unique_ids (limit : Z) (inst : string) (now : Z) (tbl : Table) :
  unique_ids tbl ->
  unique_ids (update_where (claim_where limit tbl)
                (set_recovering inst now) tbl).
Proof.
  unfold unique_ids. rewrite update_where_ids; [tauto|reflexivity].
Qed.

(** A row returned by a claim is in the table afterwards, recovering. *)
Lemma returning_In (limit : Z) (inst : string) (now : Z) (tbl : Table)
    (r' : PendingCar.t) :
  In r' (returning (claim_where limit tbl) (set_recovering inst now) tbl) ->
  In r' (update_where (claim_where limit tbl) (set_recovering inst now) tbl)
  /\ status r' = RECOVERING.
Proof.
  unfold returning. rewrite in_map_iff. intros (r & <- & H).
  apply filter_In in H. destruct H as [Hr Hc]. split; [|reflexivity].
  apply update_where_In. exists r. rewrite Hc. auto.
Qed.


End ClaimFacts.



Section ReleaseFacts.
Import PendingCar SqliteManager.


Lemma apply_all_app (s1 s2 : list (Table -> Table)) (tbl : Table) :
  apply_all (s1 ++ s2) tbl = apply_all s2 (apply_all s1 tbl).
Proof. unfold apply_all. apply fold_left_app. Qed.

Lemma pendingStatements_rows (carIds : list string) :
  forall tbl, apply_all (pendingStatements carIds) tbl =
              map (release carIds) tbl.
Proof.
  induction carIds as [|c carIds IH]; intros tbl.
  - simpl. symmetry. apply map_id.
  - change (apply_all (pendingStatements (c :: carIds)) tbl)
      with (apply_all (pendingStatements carIds)
              (update_where (hasId c) set_pending_retry tbl)).
    rewrite IH. unfold update_where. rewrite map_map. reflexivity.
Qed.

Lemma release_row (carIds : list string) :
  forall r,
    let r' := release carIds r in
    id r' = id r /\
    retry_count r' =
      retry_count r + Z.of_nat (count_occ string_dec carIds (id r)) /\
    (In (id r) carIds -> status r' = PENDING) /\
    (~ In (id r) carIds -> r' = r) /\
    recovery_instance r' = recovery_instance r /\
    recovery_started_at r' = recovery_started_at r /\
    redis_job_id r' = redis_job_id r /\
    created_at r' = created_at r /\
    RecoveryManager.carData r' = RecoveryManager.carData r.
Proof.
  induction carIds as [|c carIds IH]; intros r; cbv zeta.
  - simpl. repeat split; try tauto. lia.
  - unfold release in *; simpl fold_left.
    destruct (hasId c r) eqn:E.
    + apply hasId_true in E. subst c.
      specialize (IH (set_pending_retry r)). cbv zeta in IH.
      change (id (set_pending_retry r)) with (id r) in IH.
      change (retry_count (set_pending_retry r)) with (retry_count r + 1) in IH.
      change (recovery_instance (set_pending_retry r))
        with (recovery_instance r) in IH.
      change (recovery_started_at (set_pending_retry r))
        with (recovery_started_at r) in IH.
      change (redis_job_id (set_pending_retry r)) with (redis_job_id r) in IH.
      change (created_at (set_pending_retry r)) with (created_at r) in IH.
      change (RecoveryManager.carData (set_pending_retry r))
        with (RecoveryManager.carData r) in IH.
      destruct IH as (I1 & I2 & I3 & I4 & I5 & I6 & I7 & I8 & I9).
      simpl count_occ. destruct (string_dec (id r) (id r)); [|congruence].
      repeat split; try assumption.
      * rewrite I2. lia.
      * intros _. destruct (in_dec string_dec (id r) carIds) as [H|H].
        -- apply I3, H.
        -- rewrite (I4 H). reflexivity.
      * intros H. exfalso. apply H. left. reflexivity.
    + assert (Hne : c <> id r).
      { intros ->. unfold hasId in E. rewrite String.eqb_refl in E.
        discriminate E. }
      specialize (IH r). cbv zeta in IH.
      destruct IH as (I1 & I2 & I3 & I4 & I5 & I6 & I7 & I8 & I9).
      simpl count_occ. destruct (string_dec c (id r)); [congruence|].
      repeat split; try assumption.
      * intros [H|H]; [congruence|apply I3, H].
      * intros H. apply I4. intros H'. apply H. right. exact H'.
Qed.


End ReleaseFacts.

Section StoreMethodFacts.
Import PendingCar SqliteManager.

Lemma with_db_same (s : SqliteManager.t) (tbl : Table) :
  db s = Some tbl -> with_db tbl s = s.
Proof. destruct s; simpl; intros ->; reflexivity. Qed.

Lemma markCarsAsPending_ok (s : SqliteManager.t) (tbl : Table)
    (carIds : list string) :
  db s = Some tbl ->
  markCarsAsPending carIds None s =
    (Ok tt, with_db (map (release carIds) tbl) s).
Proof.
  intros Hdb. unfold markCarsAsPending. rewrite Hdb.
  destruct carIds as [|c carIds].
  - simpl. rewrite map_id, with_db_same by exact Hdb. reflexivity.
  - unfold run_statements. rewrite pendingStatements_rows. reflexivity.
Qed.

Lemma filter_ids_NoDup (f : PendingCar.t -> bool) (tbl : Table) :
  unique_ids tbl -> NoDup (map id (filter f tbl)).
Proof.
  unfold unique_ids. induction tbl as [|r tbl IH]; simpl; [constructor|].
  intros H. inversion H as [|? ? Hr Hnd]; subst.
  destruct (f r); simpl; [constructor|]; auto.
  intros Hin. apply Hr. apply in_map_iff in Hin.
  destruct Hin as (x & E & Hx). apply filter_In in Hx.
  apply in_map_iff. exists x. tauto.
Qed.

Lemma returning_ids_NoDup (limit : Z) (inst : string) (now : Z)
    (tbl : Table) :
  unique_ids tbl ->
  NoDup (map id (returning (claim_where limit tbl)
                   (set_recovering inst now) tbl)).
Proof.
  intros H. unfold returning. rewrite map_map. simpl.
  apply (filter_ids_NoDup _ _ H).
Qed.

End StoreMethodFacts.



Section FlushBasics.
Import PendingCar SqliteManager.

Lemma insert_all_app (rows : list PendingCar.t) :
  forall tbl tbl', insert_all rows tbl = Some tbl' -> tbl' = tbl ++ rows.
Proof.
  induction rows as [|r rows IH]; intros tbl tbl'; simpl.
  - intros [= <-]. symmetry. apply app_nil_r.
  - unfold insert. destruct (inb (id r) (map id tbl)); [discriminate|].
    intros H. rewrite (IH _ _ H), <- app_assoc. reflexivity.
Qed.

(** The rows that inserts outside a transaction leave are the first of
    the rows given. *)
Lemma insert_each_app (rows : list PendingCar.t) :
  forall tbl,
    exists n, fst (insert_each rows tbl) = tbl ++ firstn n rows.
Proof.
  induction rows as [|r rows IH]; intros tbl.
  - exists 0%nat. symmetry. apply app_nil_r.
  - cbn [insert_each]. unfold insert.
    destruct (inb (id r) (map id tbl)).
    + exists 0%nat. symmetry. apply app_nil_r.
    + destruct (IH (tbl ++ [r])) as [n Hn]. exists (S n).
      rewrite Hn, <- app_assoc. reflexivity.
Qed.

Lemma Forall_firstn {A : Type} (P : A -> Prop) (n : nat) (l : list A) :
  Forall P l -> Forall P (firstn n l).
Proof.
  intros H. apply Forall_forall. intros x Hx.
  rewrite Forall_forall in H. apply H. eapply in_firstn. exact Hx.
Qed.

Lemma Forall_skipn {A : Type} (P : A -> Prop) (n : nat) (l : list A) :
  Forall P l -> Forall P (skipn n l).
Proof.
  intros H. apply Forall_forall. intros x Hx.
  rewrite Forall_forall in H. apply H. eapply in_skipn. exact Hx.
Qed.

Lemma newRows_carData (inst : string) (env : FlushEnv) (cars : list Car.t) :
  forall i, map RecoveryManager.carData (newRows inst env i cars) = cars.
Proof.
  induction cars as [|c cars IH]; intros i; cbn; [reflexivity|].
  rewrite IH. destruct c. reflexivity.
Qed.

(** A flush of an open database keeps every car: the cars of the rows
    followed by those of the buffer are the ones before, with a part of
    the buffer twice when the transaction was ended from outside. *)
Lemma flushBuffer_keeps (env : FlushEnv) (s : SqliteManager.t) (tbl : Table) :
  db s = Some tbl ->
  keeps_cars env tbl (writeBuffer s) (snd (flushBuffer env s)) /\
  (exists tbl', db (snd (flushBuffer env s)) = Some tbl') /\
  isShuttingDown (snd (flushBuffer env s)) = isShuttingDown s.
Proof.
  intros Hdb. unfold flushBuffer, keeps_cars.
  destruct (writeBuffer s) as [|c cs] eqn:Hb.
  - cbn [snd]. split; [|split; [exists tbl; exact Hdb|reflexivity]].
    exists []. unfold held. rewrite Hdb, Hb.
    split; [reflexivity|]. split; [exists 0%nat, 0%nat; reflexivity|auto].
  - rewrite Hdb. destruct (failure env) as [e|] eqn:Hf.
    + destruct (torn env) as [k|] eqn:Ht.
      * destruct (insert_each_app
                    (skipn k (newRows (SqliteManager.instanceId s) env 0
                                (c :: cs))) tbl) as [n Hn].
        destruct (insert_each _ tbl) as [tbl' all]. cbn [fst] in Hn.
        subst tbl'. cbn [snd].
        split; [|split; [eexists; reflexivity|reflexivity]].
        exists (firstn n (skipn k (c :: cs))).
        unfold held. cbn [db writeBuffer].
        rewrite map_app, <- firstn_map, <- skipn_map, newRows_carData,
          <- app_assoc.
        split; [reflexivity|]. split; [exists k, n; reflexivity|].
        intros [D|D]; discriminate D.
      * cbn [snd]. split; [|split; [eexists; reflexivity|reflexivity]].
        exists []. unfold held. cbn [db writeBuffer].
        split; [reflexivity|]. split; [exists 0%nat, 0%nat; reflexivity|auto].
    + destruct (insert_all _ tbl) as [tbl'|] eqn:E.
      * apply insert_all_app in E. subst tbl'. cbn [snd].
        split; [|split; [eexists; reflexivity|reflexivity]].
        exists []. unfold held. cbn [db writeBuffer].
        rewrite map_app, newRows_carData, app_nil_r.
        split; [reflexivity|]. split; [exists 0%nat, 0%nat; reflexivity|auto].
      * cbn [snd]. split; [|split; [eexists; reflexivity|reflexivity]].
        exists []. unfold held. cbn [db writeBuffer].
        split; [reflexivity|]. split; [exists 0%nat, 0%nat; reflexivity|auto].
Qed.

(** A save on an open database that is not shutting down keeps every car
    and adds the saved one, whether it fulfils or rejects. *)
Lemma saveCar_keeps (env : FlushEnv) (car : Car.t) (s : SqliteManager.t)
    (tbl : Table) :
  db s = Some tbl -> isShuttingDown s = false ->
  keeps_cars env tbl (writeBuffer s ++ [car]) (snd (saveCar env car s)) /\
  (exists tbl', db (snd (saveCar env car s)) = Some tbl') /\
  isShuttingDown (snd (saveCar env car s)) = false.
Proof.
  intros Hdb Hs. unfold saveCar. rewrite Hs.
  cbn [writeBuffer db isShuttingDown SqliteManager.instanceId flushTimer].
  destruct (_ <=? _)%nat.
  - apply (flushBuffer_keeps env
             (mkService (db s) (writeBuffer s ++ [car]) (flushTimer s) false
                (SqliteManager.instanceId s)) tbl Hdb).
  - cbn [snd db isShuttingDown].
    split; [|split; [exists tbl; exact Hdb|reflexivity]].
    exists []. unfold held. cbn [db writeBuffer]. rewrite Hdb.
    split; [reflexivity|]. split; [exists 0%nat, 0%nat; reflexivity|auto].
Qed.

Lemma keeps_cars_In (env : FlushEnv) (tbl : Table) (buffer : list Car.t)
    (s' : SqliteManager.t) (car : Car.t) :
  keeps_cars env tbl buffer s' -> In car buffer -> In car (held s').
Proof.
  intros (dup & -> & _) H. apply in_or_app. right. apply in_or_app. right.
  exact H.
Qed.

Lemma flushBuffer_inserts (env : FlushEnv) (s : SqliteManager.t) (tbl : Table) :
  db s = Some tbl -> writeBuffer s <> [] -> failure env = None ->
  flushBuffer env s =
    match insert_all (newRows (instanceId s) env 0 (writeBuffer s)) tbl with
    | Some tbl' =>
        (Ok tt, mkService (Some tbl') [] false (isShuttingDown s) (instanceId s))
    | None =>
        (Throw constraintError,
         mkService (Some tbl) (writeBuffer s) false (isShuttingDown s)
           (instanceId s))
    end.
Proof.
  intros Hdb Hb Hf. unfold flushBuffer.
  destruct (writeBuffer s) as [|c cars]; [congruence|].
  rewrite Hdb, Hf. reflexivity.
Qed.

Lemma insert_all_some (rows : list PendingCar.t) :
  forall tbl,
    unique_ids (tbl ++ rows) -> insert_all rows tbl = Some (tbl ++ rows).
Proof.
  unfold unique_ids.
  induction rows as [|r rows IH]; intros tbl H; cbn.
  - rewrite app_nil_r. reflexivity.
  - unfold insert.
    destruct (inb (id r) (map id tbl)) eqn:E.
    + exfalso. apply inb_In in E. rewrite map_app in H. cbn in H.
      apply NoDup_remove_2 in H. apply H, in_or_app. left. exact E.
    + replace (tbl ++ r :: rows) with ((tbl ++ [r]) ++ rows)
        by (rewrite <- app_assoc; reflexivity).
      apply IH. rewrite <- app_assoc. exact H.
Qed.

Lemma saveCar_flushes (env : FlushEnv) (car : Car.t) (s : SqliteManager.t) :
  isShuttingDown s = false ->
  (batchSize <= List.length (writeBuffer s) + 1)%nat ->
  saveCar env car s =
    flushBuffer env
      (mkService (db s) (writeBuffer s ++ [car]) (flushTimer s) false
         (instanceId s)).
Proof.
  intros Hs Hlen. unfold saveCar. rewrite Hs.
  cbn [writeBuffer db isShuttingDown instanceId flushTimer].
  rewrite length_app. cbn [List.length].
  destruct (Nat.leb_spec batchSize (List.length (writeBuffer s) + 1));
    [reflexivity|lia].
Qed.

Lemma app_not_nil {A : Type} (l : list A) (x : A) : l ++ [x] <> [].
Proof. destruct l; discriminate. Qed.

End FlushBasics.

(** ** Write handler *)

Section WriteFacts.
Import WriteHandler.

(** The durable path touches the SQLite manager only. *)
Lemma writeToSqlite_frame (env : Env) (car : Car.t) (w : World) :
  let w' := snd (writeToSqlite env car w) in
  stateManager w' = stateManager w /\
  circuitBreaker w' = circuitBreaker w /\
  metrics w' = metrics w /\
  remote w' = remote w.
Proof.
  unfold writeToSqlite.
  destruct (writeToSqliteFrom _ _ _ _ _ _) as [r s]. simpl. auto.
Qed.

(** A save into a buffer with room for it appends the car. *)
Lemma saveCar_buffers (fenv : SqliteManager.FlushEnv) (car : Car.t)
    (s : SqliteManager.t) :
  SqliteManager.isShuttingDown s = false ->
  (List.length (SqliteManager.writeBuffer s) + 1 <
   SqliteManager.batchSize)%nat ->
  SqliteManager.saveCar fenv car s =
  (Ok tt,
   SqliteManager.mkService (SqliteManager.db s)
     (SqliteManager.writeBuffer s ++ [car]) true false
     (SqliteManager.instanceId s)).
Proof.
  intros Hs Hlen. unfold SqliteManager.saveCar. rewrite Hs.
  cbn [SqliteManager.writeBuffer SqliteManager.db
       SqliteManager.isShuttingDown SqliteManager.instanceId
       SqliteManager.flushTimer].
  rewrite length_app. cbn [List.length].
  destruct (Nat.leb_spec SqliteManager.batchSize
              (List.length (SqliteManager.writeBuffer s) + 1)); [lia|].
  reflexivity.
Qed.

Lemma writeToSqlite_buffers (env : Env) (car : Car.t) (w : World) :
  SqliteManager.isShuttingDown (sqliteManager w) = false ->
  (List.length (SqliteManager.writeBuffer (sqliteManager w)) + 1 <
   SqliteManager.batchSize)%nat ->
  fst (writeToSqlite env car w) = Ok tt /\
  SqliteManager.writeBuffer (sqliteManager (snd (writeToSqlite env car w))) =
    SqliteManager.writeBuffer (sqliteManager w) ++ [car] /\
  SqliteManager.db (sqliteManager (snd (writeToSqlite env car w))) =
    SqliteManager.db (sqliteManager w).
Proof.
  intros Hs Hlen. unfold writeToSqlite.
  cbn [writeToSqliteFrom maxRetries].
  rewrite (saveCar_buffers _ _ _ Hs Hlen). simpl. auto.
Qed.

Lemma writeToSqlite_stores (env : Env) (car : Car.t) (w : World) :
  SqliteManager.isShuttingDown (sqliteManager w) = false ->
  (List.length (SqliteManager.writeBuffer (sqliteManager w)) + 1 <
   SqliteManager.batchSize)%nat ->
  fst (writeToSqlite env car w) = Ok tt /\
  sqliteManager (snd (writeToSqlite env car w)) =
    SqliteManager.mkService (SqliteManager.db (sqliteManager w))
      (SqliteManager.writeBuffer (sqliteManager w) ++ [car]) true false
      (SqliteManager.instanceId (sqliteManager w)).
Proof.
  intros Hs Hlen. unfold writeToSqlite.
  cbn [writeToSqliteFrom maxRetries].
  rewrite (saveCar_buffers _ _ _ Hs Hlen). destruct w. simpl. auto.
Qed.

(** A save that fills the batch and whose flush commits rows with new
    ids. *)
Lemma writeToSqlite_commits (env : Env) (car : Car.t) (w : World)
    (tbl : SqliteManager.Table) :
  SqliteManager.isShuttingDown (sqliteManager w) = false ->
  SqliteManager.db (sqliteManager w) = Some tbl ->
  (SqliteManager.batchSize <=
   List.length (SqliteManager.writeBuffer (sqliteManager w)) + 1)%nat ->
  SqliteManager.failure (flushes env 0%nat) = None ->
  SqliteManager.unique_ids
    (tbl ++ SqliteManager.newRows (SqliteManager.instanceId (sqliteManager w))
              (flushes env 0%nat) 0
              (SqliteManager.writeBuffer (sqliteManager w) ++ [car])) ->
  fst (writeToSqlite env car w) = Ok tt /\
  sqliteManager (snd (writeToSqlite env car w)) =
    SqliteManager.mkService
      (Some (tbl ++ SqliteManager.newRows
                      (SqliteManager.instanceId (sqliteManager w))
                      (flushes env 0%nat) 0
                      (SqliteManager.writeBuffer (sqliteManager w) ++ [car])))
      [] false false (SqliteManager.instanceId (sqliteManager w)).
Proof.
  intros Hs Hdb Hlen Hf Hu. unfold writeToSqlite.
  cbn [writeToSqliteFrom maxRetries].
  rewrite (saveCar_flushes _ _ _ Hs Hlen).
  rewrite (flushBuffer_inserts _ _ tbl);
    [|exact Hdb|apply app_not_nil|exact Hf].
  cbn [SqliteManager.writeBuffer SqliteManager.instanceId
       SqliteManager.isShuttingDown].
  rewrite (insert_all_some _ tbl Hu). destruct w. simpl. auto.
Qed.

(** On an open database that is not shutting down the durable path
    leaves the car in the buffer or in the table, whether it fulfils or
    rejects. *)
Lemma writeToSqliteFrom_holds (n : nat) (flushes : nat -> SqliteManager.FlushEnv)
    (car : Car.t) :
  forall attempt lastError (s : SqliteManager.t),
    SqliteManager.db s <> None ->
    SqliteManager.isShuttingDown s = false ->
    (n = 0%nat -> In car (held s)) ->
    In car (held (snd (writeToSqliteFrom n attempt flushes car lastError s))).
Proof.
  induction n as [|n IH]; intros attempt lastError s Hdb Hs H0.
  - apply H0. reflexivity.
  - cbn [writeToSqliteFrom].
    destruct (SqliteManager.db s) as [tbl|] eqn:Ed; [|congruence].
    destruct (saveCar_keeps (flushes attempt) car s tbl Ed Hs)
      as (K & (tbl' & Hdb') & Hs').
    assert (Hin : In car (held (snd (SqliteManager.saveCar (flushes attempt)
                                       car s)))).
    { eapply keeps_cars_In; [exact K|]. apply in_or_app. right. left.
      reflexivity. }
    destruct (SqliteManager.saveCar (flushes attempt) car s) as [[u|e] s1].
    + exact Hin.
    + cbn [snd] in *. apply IH; [congruence|exact Hs'|intros _; exact Hin].
Qed.

Lemma writeToSqlite_holds (env : Env) (car : Car.t) (w : World) :
  SqliteManager.db (sqliteManager w) <> None ->
  SqliteManager.isShuttingDown (sqliteManager w) = false ->
  In car (held (sqliteManager (snd (writeToSqlite env car w)))).
Proof.
  intros Hdb Hs. unfold writeToSqlite.
  pose proof (writeToSqliteFrom_holds (S maxRetries) (flushes env) car 0%nat
                (Error "") (sqliteManager w) Hdb Hs) as H.
  destruct (writeToSqliteFrom _ _ _ _ _ _) as [r s]. cbn [snd] in *.
  apply H. discriminate.
Qed.

Lemma isOpen_true (cb : CircuitBreaker.t) :
  CircuitBreaker.isOpen cb = true <-> CircuitBreaker.state cb = OPEN.
Proof.
  unfold CircuitBreaker.isOpen. destruct (CircuitBreaker.state cb); simpl;
    split; congruence.
Qed.

(** A remote attempt that is made records one [queue.add]. *)
Lemma writeToRedis_attempts (self : WriteHandler.t) (env : Env) (car : Car.t)
    (w : World) :
  queue self = true ->
  CircuitBreaker.isOpen (circuitBreaker w) = false ->
  Remote.attempts (remote (snd (writeToRedis self env car w))) =
  Remote.attempts (remote w) ++ [Remote.Add "car" (Remote.CarData car)].
Proof.
  intros Hq Ho. unfold writeToRedis. rewrite Hq, Ho. simpl.
  destruct (add env) as [j|e].
  - destruct (StateManager.isSqliteMode _); reflexivity.
  - destruct (isRedisConnectionError (Some e)); [|reflexivity].
    match goal with
    | |- context [writeToSqlite env car ?w0] =>
        destruct (writeToSqlite_frame env car w0) as (_ & _ & _ & ->)
    end.
    simpl.
    destruct (CircuitBreaker.isOpen
                (CircuitBreaker.recordFailure (circuitBreaker w)));
      [|reflexivity].
    destruct (SeederState_eqb _ _); reflexivity.
Qed.

End WriteFacts.

(** C5. With the queue set, [writeCar] routes in this order: a HALF_OPEN
    breaker makes it attempt the remote queue, also in SQLITE_MODE;
    otherwise, in REDIS_MODE with the breaker not open, it attempts the
    remote queue; otherwise, in SQLITE_MODE, it takes the durable path and
    makes no remote call. When the remote branch finds the breaker OPEN,
    the state is set to SQLITE_MODE and the car goes down the durable path
    without a remote call. On the durable path, with the store not
    shutting down, the car reaches the store: with room in the buffer the
    call fulfils with the car appended to the buffer and the flush timer
    set; when the car fills the batch and the first flush commits rows
    with new ids, the call fulfils with the rows of the whole batch
    appended to the table and the buffer empty; and with the database
    open the car is in the table or in the buffer afterwards, whether the
    call fulfils or rejects. *)
Theorem C5_write_routing :
  forall (self : WriteHandler.t) (env : WriteHandler.Env) (car : Car.t)
         (w : World),
    WriteHandler.queue self = true ->
    let r := WriteHandler.writeCar self env car w in
    let attempted :=
      Remote.attempts (remote (snd r)) =
      Remote.attempts (remote w) ++ [Remote.Add "car" (Remote.CarData car)] in
    let s := sqliteManager w in
    let stored :=
      SqliteManager.isShuttingDown s = false ->
      ((List.length (SqliteManager.writeBuffer s) + 1 <
        SqliteManager.batchSize)%nat ->
       fst r = Ok tt /\
       sqliteManager (snd r) =
         SqliteManager.mkService (SqliteManager.db s)
           (SqliteManager.writeBuffer s ++ [car]) true false
           (SqliteManager.instanceId s)) /\
      (forall tbl,
         SqliteManager.db s = Some tbl ->
         (SqliteManager.batchSize <=
          List.length (SqliteManager.writeBuffer s) + 1)%nat ->
         SqliteManager.failure (WriteHandler.flushes env 0%nat) = None ->
         let rows :=
           SqliteManager.newRows (SqliteManager.instanceId s)
             (WriteHandler.flushes env 0%nat) 0
             (SqliteManager.writeBuffer s ++ [car]) in
         SqliteManager.unique_ids (tbl ++ rows) ->
         fst r = Ok tt /\
         sqliteManager (snd r) =
           SqliteManager.mkService (Some (tbl ++ rows)) [] false false
             (SqliteManager.instanceId s)) /\
      (SqliteManager.db s <> None -> In car (held (sqliteManager (snd r)))) in
    (CircuitBreaker.state (circuitBreaker w) = HALF_OPEN -> attempted) /\
    (CircuitBreaker.state (circuitBreaker w) = CLOSED ->
     StateManager.currentState (stateManager w) = REDIS_MODE -> attempted) /\
    (CircuitBreaker.state (circuitBreaker w) <> HALF_OPEN ->
     StateManager.currentState (stateManager w) = SQLITE_MODE ->
     r = WriteHandler.writeToSqlite env car w /\
     remote (snd r) = remote w /\
     stateManager (snd r) = stateManager w /\
     stored) /\
    (CircuitBreaker.state (circuitBreaker w) = OPEN ->
     StateManager.currentState (stateManager w) = REDIS_MODE ->
     r = WriteHandler.writeToSqlite env car
           (with_stateManager
              (StateManager.setState SQLITE_MODE (stateManager w)) w) /\
     remote (snd r) = remote w /\
     StateManager.currentState (stateManager (snd r)) = SQLITE_MODE /\
     stored).
Proof.
  intros self env car w Hq r attempted s stored.
  assert (Hdur : forall w0,
            sqliteManager w0 = s ->
            r = WriteHandler.writeToSqlite env car w0 -> stored).
  { intros w0 Hw0 Hr. subst stored. subst s. rewrite <- Hw0, Hr.
    intros Hs. split; [|split].
    - intros Hlen. apply (writeToSqlite_stores env car w0); assumption.
    - intros tbl Hdb Hlen Hf rows Hu. subst rows.
      apply (writeToSqlite_commits env car w0 tbl); assumption.
    - intros Hdb. apply writeToSqlite_holds; assumption. }
  assert (H3 : CircuitBreaker.state (circuitBreaker w) <> HALF_OPEN ->
               StateManager.currentState (stateManager w) = SQLITE_MODE ->
               r = WriteHandler.writeToSqlite env car w).
  { intros H H0. subst r.
    unfold WriteHandler.writeCar, CircuitBreaker.getState,
      StateManager.getState.
    rewrite H0. destruct (CircuitBreaker.state (circuitBreaker w));
      try reflexivity. congruence. }
  assert (H4 : CircuitBreaker.state (circuitBreaker w) = OPEN ->
               StateManager.currentState (stateManager w) = REDIS_MODE ->
               r = WriteHandler.writeToSqlite env car
                     (with_stateManager
                        (StateManager.setState SQLITE_MODE (stateManager w))
                        w)).
  { intros H H0. subst r.
    unfold WriteHandler.writeCar, CircuitBreaker.getState,
      StateManager.getState.
    rewrite H, H0. simpl. unfold WriteHandler.writeToRedis.
    rewrite Hq. unfold CircuitBreaker.isOpen. rewrite H. reflexivity. }
  split; [|split; [|split]].
  - intros H. subst r attempted.
    unfold WriteHandler.writeCar, CircuitBreaker.getState. rewrite H. simpl.
    apply writeToRedis_attempts; [exact Hq|].
    unfold CircuitBreaker.isOpen. rewrite H. reflexivity.
  - intros H1 H2. subst r attempted.
    unfold WriteHandler.writeCar, CircuitBreaker.getState,
      StateManager.getState. rewrite H1, H2. simpl.
    apply writeToRedis_attempts; [exact Hq|].
    unfold CircuitBreaker.isOpen. rewrite H1. reflexivity.
  - intros H H0. pose proof (H3 H H0) as Hr.
    split; [exact Hr|].
    destruct (writeToSqlite_frame env car w) as (F1 & _ & _ & F4).
    rewrite Hr. split; [exact F4|]. split; [exact F1|].
    apply (Hdur w); [reflexivity|exact Hr].
  - intros H H0. pose proof (H4 H H0) as Hr.
    split; [exact Hr|].
    destruct (writeToSqlite_frame env car
                (with_stateManager
                   (StateManager.setState SQLITE_MODE (stateManager w)) w))
      as (F1 & _ & _ & F4).
    rewrite Hr. split; [exact F4|]. split; [rewrite F1; reflexivity|].
    apply (Hdur (with_stateManager
                   (StateManager.setState SQLITE_MODE (stateManager w)) w));
      [reflexivity|exact Hr].
Qed.

(** C1 as stated fails: the first refused enqueue leaves the breaker
    closed, and the car is appended to the durable store's buffer and the
    fallback counter goes from 0 to 1 all the same. *)
Lemma C1_closed_breaker_still_falls_back :
  let w := snd (WriteHandler.writeCar (WriteHandler.mk true) refusedEnv
                  someCar freshWorld) in
  WriteHandler.isRedisConnectionError (Some refused) = true /\
  CircuitBreaker.state (circuitBreaker w) = CLOSED /\
  CircuitBreaker.failureCount (circuitBreaker w) = 1 /\
  SqliteManager.writeBuffer (sqliteManager freshWorld) = [] /\
  SqliteManager.writeBuffer (sqliteManager w) = [someCar] /\
  Metrics.getSqliteFallbackCount (metrics freshWorld) = 0 /\
  Metrics.getSqliteFallbackCount (metrics w) = 1.
Proof. vm_compute. repeat split. Qed.

(** C1, amended. When the enqueue of a car fails with an error classified
    as a transport error, [writeCar] calls [recordFailure] on the breaker
    and, if the breaker is open after that call, signals the metrics and
    sets the state to SQLITE_MODE; whether the breaker is then open or
    still closed, it increments the fallback counter and hands the car to
    the durable store. *)
Theorem C1_transport_failure_falls_back :
  forall (self : WriteHandler.t) (env : WriteHandler.Env) (car : Car.t)
         (w : World) (error : JsError),
    WriteHandler.queue self = true ->
    CircuitBreaker.isOpen (circuitBreaker w) = false ->
    (CircuitBreaker.state (circuitBreaker w) = HALF_OPEN \/
     StateManager.currentState (stateManager w) = REDIS_MODE) ->
    WriteHandler.add env = Throw error ->
    WriteHandler.isRedisConnectionError (Some error) = true ->
    let cb' := CircuitBreaker.recordFailure (circuitBreaker w) in
    let before := StateManager.currentState (stateManager w) in
    let signalled :=
      if CircuitBreaker.isOpen cb' then
        Metrics.recordStateTransitionToSqlite before (WriteHandler.tToSqlite env)
          (if SeederState_eqb before REDIS_MODE
           then Metrics.recordMasterFailure (message error)
                  (WriteHandler.tMasterFailure env) (metrics w)
           else metrics w)
      else metrics w in
    let w1 :=
      mkWorld
        (if CircuitBreaker.isOpen cb' then StateManager.mk SQLITE_MODE
         else stateManager w)
        cb' (sqliteManager w)
        (Metrics.incrementSqliteFallbackCount signalled)
        (Remote.add "car" (Remote.CarData car) (Throw error) (remote w)) in
    let r := WriteHandler.writeCar self env car w in
    r = WriteHandler.writeToSqlite env car w1 /\
    circuitBreaker (snd r) = cb' /\
    Metrics.getSqliteFallbackCount (metrics (snd r)) =
      Metrics.getSqliteFallbackCount signalled + 1 /\
    (CircuitBreaker.isOpen cb' = true ->
     StateManager.currentState (stateManager (snd r)) = SQLITE_MODE) /\
    (CircuitBreaker.isOpen cb' = false ->
     stateManager (snd r) = stateManager w /\
     Metrics.getSqliteFallbackCount (metrics (snd r)) =
       Metrics.getSqliteFallbackCount (metrics w) + 1) /\
    (SqliteManager.isShuttingDown (sqliteManager w) = false ->
     (List.length (SqliteManager.writeBuffer (sqliteManager w)) + 1 <
      SqliteManager.batchSize)%nat ->
     fst r = Ok tt /\
     SqliteManager.writeBuffer (sqliteManager (snd r)) =
       SqliteManager.writeBuffer (sqliteManager w) ++ [car]).
Proof.
  intros self env car w error Hq Ho Hroute Hadd Hcls cb' before signalled w1 r.
  assert (Hr : r = WriteHandler.writeToSqlite env car w1).
  { subst r. unfold WriteHandler.writeCar, CircuitBreaker.getState,
      StateManager.getState.
    assert (Hgo : (if CircuitBreakerState_eqb
                        (CircuitBreaker.state (circuitBreaker w)) HALF_OPEN
                   then WriteHandler.writeToRedis self env car w
                   else if SeederState_eqb
                             (StateManager.currentState (stateManager w))
                             REDIS_MODE
                        then WriteHandler.writeToRedis self env car w
                        else WriteHandler.writeToSqlite env car w) =
                  WriteHandler.writeToRedis self env car w).
    { destruct Hroute as [H|H]; rewrite H; simpl; [reflexivity|].
      destruct (CircuitBreakerState_eqb _ _); reflexivity. }
    rewrite Hgo. unfold WriteHandler.writeToRedis.
    rewrite Hq, Ho, Hadd, Hcls. cbn [negb]. f_equal.
    subst w1 signalled cb' before.
    unfold StateManager.getState, StateManager.setState.
    cbn [circuitBreaker with_circuitBreaker with_remote stateManager metrics
         sqliteManager remote].
    destruct (CircuitBreaker.isOpen
                (CircuitBreaker.recordFailure (circuitBreaker w)));
      [|reflexivity].
    destruct (SeederState_eqb _ _); reflexivity. }
  split; [exact Hr|].
  destruct (writeToSqlite_frame env car w1) as (F1 & F2 & F3 & F4).
  rewrite <- Hr in F1, F2, F3, F4.
  split; [rewrite F2; reflexivity|].
  split; [rewrite F3; reflexivity|].
  split; [intros H; rewrite F1; subst w1; simpl; rewrite H; reflexivity|].
  split.
  { intros H. rewrite F1, F3. subst w1 signalled. simpl. rewrite H.
    split; reflexivity. }
  intros Hs Hlen. rewrite Hr.
  destruct (writeToSqlite_buffers env car w1 Hs Hlen) as (B1 & B2 & _).
  split; [exact B1|exact B2].
Qed.

(** ** Recovery manager *)

(** C7 as stated fails: with the breaker closed, a ping that answers PONG
    is followed by the write probe. *)
Lemma C7_probe_follows_successful_ping :
  let env := RecoveryManager.mkAvailEnv RecoveryManager.Pong (Ok (Some "1")) in
  let r := RecoveryManager.isRedisAvailable env readyManager freshWorld in
  CircuitBreaker.state (circuitBreaker freshWorld) = CLOSED /\
  fst r = true /\
  Remote.attempts (remote (snd r)) =
    [Remote.Ping; Remote.Add "health-check-test" Remote.HealthCheck].
Proof. vm_compute. repeat split. Qed.

(** C7, amended. [isRedisAvailable] returns false when the breaker is
    OPEN, without a remote call. Otherwise, with the client set, it pings
    the remote and then, whether the ping answered, was rejected or timed
    out, runs the write probe when the queue is set and returns the
    result of that probe; without a queue it returns false after the
    ping. *)
Theorem C7_availability_probe :
  forall (env : RecoveryManager.AvailEnv) (self : RecoveryManager.t)
         (w : World),
    (CircuitBreaker.state (circuitBreaker w) = OPEN ->
     RecoveryManager.isRedisAvailable env self w = (false, w)) /\
    (RecoveryManager.redisClient self = false ->
     RecoveryManager.isRedisAvailable env self w = (false, w)) /\
    (CircuitBreaker.state (circuitBreaker w) <> OPEN ->
     RecoveryManager.redisClient self = true ->
     let r := RecoveryManager.isRedisAvailable env self w in
     (RecoveryManager.queue self = true ->
      Remote.attempts (remote (snd r)) =
        Remote.attempts (remote w) ++
        [Remote.Ping; Remote.Add "health-check-test" Remote.HealthCheck] /\
      fst r = match RecoveryManager.probe env with
              | Ok _ => true
              | Throw _ => false
              end) /\
     (RecoveryManager.queue self = false ->
      Remote.attempts (remote (snd r)) =
        Remote.attempts (remote w) ++ [Remote.Ping] /\
      fst r = false)).
Proof.
  intros env self w. unfold RecoveryManager.isRedisAvailable.
  split; [|split].
  - intros H. unfold CircuitBreaker.isOpen. rewrite H.
    destruct (RecoveryManager.redisClient self); reflexivity.
  - intros ->. reflexivity.
  - intros Hno ->.
    assert (Ho : CircuitBreaker.isOpen (circuitBreaker w) = false).
    { unfold CircuitBreaker.isOpen.
      destruct (CircuitBreaker.state (circuitBreaker w)); try reflexivity.
      congruence. }
    rewrite Ho. cbn [negb]. unfold RecoveryManager.testRedisWrite.
    split; intros ->; cbn [negb snd fst remote with_remote Remote.attempts
                           Remote.add Remote.ping].
    + rewrite <- app_assoc. split; reflexivity.
    + split; reflexivity.
Qed.

(** ** Status transitions *)

Section TransitionFacts.
Import PendingCar SqliteManager.

Lemma moves_map (R : RecoveryStatus -> RecoveryStatus -> Prop)
    (f : PendingCar.t -> PendingCar.t) (tbl : Table) :
  (forall r, In r tbl ->
             id (f r) = id r /\
             (status (f r) = status r \/ R (status r) (status (f r)))) ->
  moves R tbl (map f tbl).
Proof.
  unfold moves. induction tbl as [|x tbl IH]; simpl; intros H; constructor.
  - apply H. left. reflexivity.
  - apply IH. intros r Hr. apply H. right. exact Hr.
Qed.

Lemma moves_refl (R : RecoveryStatus -> RecoveryStatus -> Prop)
    (tbl : Table) : moves R tbl tbl.
Proof.
  rewrite <- (map_id tbl) at 2. apply moves_map. intros r _. auto.
Qed.

Lemma claim_moves (limit : Z) (inst : string) (now : Z) (tbl : Table) :
  moves claim_move tbl
    (update_where (claim_where limit tbl) (set_recovering inst now) tbl).
Proof.
  apply moves_map. intros r _. unfold claim_where.
  destruct (inb (id r) (selected_cars limit tbl)); simpl; auto.
  destruct (hasStatus PENDING r) eqn:E; auto.
  apply hasStatus_true in E. simpl. rewrite E. split; [reflexivity|].
  right. constructor.
Qed.

Lemma recovering_moves (carIds : list string) (inst : string) (now : Z)
    (tbl : Table) :
  moves claim_move tbl
    (update_where (recovering_where carIds) (set_recovering inst now) tbl).
Proof.
  apply moves_map. intros r _. unfold recovering_where.
  destruct (inb (id r) carIds); simpl; auto.
  destruct (hasStatus PENDING r) eqn:E; auto.
  apply hasStatus_true in E. simpl. rewrite E. split; [reflexivity|].
  right. constructor.
Qed.

Lemma cleanup_moves (cutoffTime : Z) (tbl : Table) :
  moves release_move tbl
    (update_where (stale_where cutoffTime) set_pending_released tbl).
Proof.
  apply moves_map. intros r _. unfold stale_where.
  destruct (hasStatus RECOVERING r) eqn:E; simpl; auto.
  apply hasStatus_true in E.
  destruct (recovery_started_at r) as [t|]; auto.
  destruct (t <? cutoffTime); auto. simpl. rewrite E.
  split; [reflexivity|]. right. constructor.
Qed.

Lemma sentStatements_rows (carIds : list string) :
  forall redisJobIds tbl,
    apply_all (sentStatements carIds redisJobIds) tbl =
    map (deliver carIds redisJobIds) tbl.
Proof.
  induction carIds as [|c carIds IH]; intros jobs tbl.
  - simpl. symmetry. apply map_id.
  - change (apply_all (sentStatements (c :: carIds) jobs) tbl)
      with (apply_all (sentStatements carIds (tl jobs))
              (update_where (hasId c)
                 (set_sent (jobIdOrNull (hd_error jobs))) tbl)).
    rewrite IH. unfold update_where. rewrite map_map. reflexivity.
Qed.

Lemma deliver_row (carIds : list string) :
  forall redisJobIds r,
    id (deliver carIds redisJobIds r) = id r /\
    (In (id r) carIds -> status (deliver carIds redisJobIds r) = SENT) /\
    (~ In (id r) carIds -> deliver carIds redisJobIds r = r).
Proof.
  induction carIds as [|c carIds IH]; intros jobs r; simpl.
  - repeat split; tauto.
  - destruct (hasId c r) eqn:E.
    + apply hasId_true in E. subst c.
      destruct (IH (tl jobs) (set_sent (jobIdOrNull (hd_error jobs)) r))
        as (I1 & I2 & I3).
      change (id (set_sent (jobIdOrNull (hd_error jobs)) r)) with (id r)
        in I1, I2, I3.
      repeat split.
      * exact I1.
      * intros _. destruct (in_dec string_dec (id r) carIds) as [H|H].
        -- apply I2, H.
        -- rewrite (I3 H). reflexivity.
      * intros H. exfalso. apply H. left. reflexivity.
    + assert (Hne : c <> id r).
      { intros ->. unfold hasId in E. rewrite String.eqb_refl in E.
        discriminate E. }
      destruct (IH (tl jobs) r) as (I1 & I2 & I3).
      repeat split.
      * exact I1.
      * intros [H|H]; [congruence|apply I2, H].
      * intros H. apply I3. intros H'. apply H. right. exact H'.
Qed.

Lemma firstn_sentStatements (k : nat) :
  forall carIds redisJobIds,
    firstn k (sentStatements carIds redisJobIds) =
    sentStatements (firstn k carIds) redisJobIds.
Proof.
  induction k as [|k IH]; intros [|c carIds] jobs; simpl; try reflexivity.
  rewrite IH. reflexivity.
Qed.

Lemma firstn_pendingStatements (k : nat) (carIds : list string) :
  firstn k (pendingStatements carIds) = pendingStatements (firstn k carIds).
Proof. unfold pendingStatements. apply firstn_map. Qed.

(** Applied to rows that are RECOVERING, the updates of
    [markCarsAsSent] move them to SENT and nothing else. *)
Lemma deliver_moves (carIds redisJobIds : list string) (tbl : Table) :
  all_recovering carIds tbl ->
  moves send_move tbl (map (deliver carIds redisJobIds) tbl).
Proof.
  intros Hg. apply moves_map. intros r Hr.
  destruct (deliver_row carIds redisJobIds r) as (I1 & I2 & I3).
  split; [exact I1|].
  destruct (in_dec string_dec (id r) carIds) as [H|H].
  - right. rewrite (I2 H), (Hg r Hr H). constructor.
  - left. rewrite (I3 H). reflexivity.
Qed.

Lemma release_moves (carIds : list string) (tbl : Table) :
  all_recovering carIds tbl ->
  moves release_move tbl (map (release carIds) tbl).
Proof.
  intros Hg. apply moves_map. intros r Hr.
  destruct (release_row carIds r) as (I1 & _ & I3 & I4 & _).
  split; [exact I1|].
  destruct (in_dec string_dec (id r) carIds) as [H|H].
  - right. rewrite (I3 H), (Hg r Hr H). constructor.
  - left. rewrite (I4 H). reflexivity.
Qed.

Lemma all_recovering_firstn (k : nat) (carIds : list string) (tbl : Table) :
  all_recovering carIds tbl -> all_recovering (firstn k carIds) tbl.
Proof.
  intros H r Hr Hin. apply (H r Hr). eapply in_firstn, Hin.
Qed.

Lemma markCarsAsSent_db (s : SqliteManager.t) (tbl : Table)
    (carIds redisJobIds : list string) (fault : Fault) :
  db s = Some tbl ->
  exists k,
    snd (markCarsAsSent carIds redisJobIds fault s) =
    with_db (map (deliver (firstn k carIds) redisJobIds) tbl) s.
Proof.
  intros Hdb. unfold markCarsAsSent. rewrite Hdb.
  destruct carIds as [|c carIds].
  - exists 0%nat. simpl. rewrite map_id, with_db_same by exact Hdb.
    reflexivity.
  - unfold run_statements. destruct fault as [[k e]|].
    + destruct (k <? _)%nat.
      * exists k. cbn [snd].
        rewrite firstn_sentStatements, sentStatements_rows. reflexivity.
      * exists (List.length (c :: carIds)). rewrite firstn_all.
        cbn [snd]. rewrite sentStatements_rows. reflexivity.
    + exists (List.length (c :: carIds)). rewrite firstn_all.
      cbn [snd]. rewrite sentStatements_rows. reflexivity.
Qed.

Lemma markCarsAsPending_db (s : SqliteManager.t) (tbl : Table)
    (carIds : list string) (fault : Fault) :
  db s = Some tbl ->
  exists k,
    snd (markCarsAsPending carIds fault s) =
    with_db (map (release (firstn k carIds)) tbl) s.
Proof.
  intros Hdb. unfold markCarsAsPending. rewrite Hdb.
  destruct carIds as [|c carIds].
  - exists 0%nat. simpl. rewrite map_id, with_db_same by exact Hdb.
    reflexivity.
  - unfold run_statements. destruct fault as [[k e]|].
    + destruct (k <? _)%nat.
      * exists k. cbn [snd].
        rewrite firstn_pendingStatements, pendingStatements_rows.
        reflexivity.
      * exists (List.length (c :: carIds)). rewrite firstn_all.
        cbn [snd]. rewrite pendingStatements_rows. reflexivity.
    + exists (List.length (c :: carIds)). rewrite firstn_all.
      cbn [snd]. rewrite pendingStatements_rows. reflexivity.
Qed.

End TransitionFacts.

Section DrainFacts.
Import PendingCar SqliteManager RecoveryManager.

Lemma markCarsAsSent_ok (s : SqliteManager.t) (tbl : Table)
    (carIds redisJobIds : list string) :
  db s = Some tbl ->
  markCarsAsSent carIds redisJobIds None s =
    (Ok tt, with_db (map (deliver carIds redisJobIds) tbl) s).
Proof.
  intros Hdb. unfold markCarsAsSent. rewrite Hdb.
  destruct carIds as [|c carIds].
  - simpl. rewrite map_id, with_db_same by exact Hdb. reflexivity.
  - unfold run_statements. rewrite sentStatements_rows. reflexivity.
Qed.

Lemma isRedisAvailable_frame (env : AvailEnv) (self : RecoveryManager.t)
    (w : World) :
  sqliteManager (snd (isRedisAvailable env self w)) = sqliteManager w.
Proof.
  unfold isRedisAvailable, testRedisWrite.
  destruct (redisClient self); [|reflexivity]. cbn [negb].
  destruct (CircuitBreaker.isOpen (circuitBreaker w)); [reflexivity|].
  destruct (queue self); reflexivity.
Qed.

(** The enqueue loop splits the claimed ids into delivered and failed
    ones. *)
Lemma enqueueAll_ids (cars : list PendingCar.t) :
  forall i adds r ok ko r',
    enqueueAll i adds cars r = (ok, ko, r') ->
    (forall x, In x (map fst ok) -> In x (map id cars)) /\
    (forall x, In x ko -> In x (map id cars)) /\
    (NoDup (map id cars) -> forall x, In x (map fst ok) -> ~ In x ko).
Proof.
  induction cars as [|car cars IH]; intros i adds r ok ko r' H.
  - injection H as <- <- _. simpl. repeat split; tauto.
  - simpl in H.
    destruct (enqueueAll (S i) adds cars _) as [[ok0 ko0] r0] eqn:E.
    destruct (IH _ _ _ _ _ _ E) as (I1 & I2 & I3).
    destruct (adds i) as [j|e]; injection H as <- <- _; simpl.
    + split; [|split].
      * intros x [Hx|Hx]; [left; exact Hx|right; apply I1, Hx].
      * intros x Hx. right. apply I2, Hx.
      * intros Hnd x [Hx|Hx] Hk.
        -- subst x. inversion Hnd as [|? ? Hn _]; subst.
           apply Hn, I2, Hk.
        -- inversion Hnd as [|? ? _ Hnd']; subst. exact (I3 Hnd' x Hx Hk).
    + split; [|split].
      * intros x Hx. right. apply I1, Hx.
      * intros x [Hx|Hx]; [left; exact Hx|right; apply I2, Hx].
      * intros Hnd x Hx [Hk|Hk].
        -- subst x. inversion Hnd as [|? ? Hn _]; subst.
           apply Hn, I1, Hx.
        -- inversion Hnd as [|? ? _ Hnd']; subst. exact (I3 Hnd' x Hx Hk).
Qed.

(** After a claim, the rows named by the returned ids are RECOVERING. *)
Lemma claimed_recovering (limit : Z) (inst : string) (now : Z)
    (tbl : Table) :
  unique_ids tbl ->
  all_recovering
    (map id (returning (claim_where limit tbl) (set_recovering inst now) tbl))
    (update_where (claim_where limit tbl) (set_recovering inst now) tbl).
Proof.
  intros Hu r Hr Hin. apply in_map_iff in Hin.
  destruct Hin as (r' & E & Hr').
  apply returning_In in Hr'. destruct Hr' as [Ht Hs].
  assert (r' = r) as <-; [|exact Hs].
  eapply unique_ids_inj; [apply claim_unique_ids, Hu| | |]; eassumption.
Qed.

Lemma all_recovering_incl (ids ids' : list string) (tbl : Table) :
  (forall x, In x ids' -> In x ids) ->
  all_recovering ids tbl -> all_recovering ids' tbl.
Proof. intros Hi H r Hr Hin. apply (H r Hr), Hi, Hin. Qed.

(** Rows that [markCarsAsSent] did not name are as they were. *)
Lemma all_recovering_after_sent (ok ko jobs : list string) (tbl : Table) :
  (forall x, In x ok -> ~ In x ko) ->
  all_recovering ko tbl ->
  all_recovering ko (map (deliver ok jobs) tbl).
Proof.
  intros Hd H r2 Hr2 Hin. apply in_map_iff in Hr2.
  destruct Hr2 as (r1 & <- & Hr1).
  destruct (deliver_row ok jobs r1) as (I1 & _ & I3).
  rewrite I1 in Hin.
  rewrite I3; [apply (H r1 Hr1 Hin)|].
  intros Hok. exact (Hd _ Hok Hin).
Qed.

Lemma newRows_pending (inst : string) (env : FlushEnv) (cars : list Car.t) :
  forall i, Forall (fun r => status r = PENDING) (newRows inst env i cars).
Proof.
  induction cars as [|c cars IH]; intros i; simpl; constructor.
  - reflexivity.
  - apply IH.
Qed.

(** A flush leaves the rows of the table alone and adds pending rows. *)
Lemma flushBuffer_adds (env : FlushEnv) (s : SqliteManager.t) (tbl : Table) :
  db s = Some tbl ->
  exists added,
    db (snd (flushBuffer env s)) = Some (tbl ++ added) /\
    Forall (fun r => status r = PENDING) added.
Proof.
  intros Hdb. unfold flushBuffer.
  destruct (writeBuffer s) as [|c cars] eqn:Hb.
  - exists []. rewrite app_nil_r. split; [exact Hdb|constructor].
  - rewrite Hdb. destruct (failure env).
    + destruct (torn env) as [k|].
      * destruct (insert_each_app
                    (skipn k (newRows (SqliteManager.instanceId s) env 0 (c :: cars)))
                    tbl)
          as [n Hn].
        destruct (insert_each _ tbl) as [tbl' all]. cbn [fst] in Hn.
        subst tbl'. eexists. split; [reflexivity|].
        apply Forall_firstn, Forall_skipn, newRows_pending.
      * exists []. rewrite app_nil_r. split; [reflexivity|constructor].
    + destruct (insert_all _ tbl) as [tbl'|] eqn:Hi.
      * apply insert_all_app in Hi. subst tbl'.
        eexists. split; [reflexivity|apply newRows_pending].
      * exists []. rewrite app_nil_r. split; [reflexivity|constructor].
Qed.

Lemma saveCar_adds (env : FlushEnv) (car : Car.t) (s : SqliteManager.t)
    (tbl : Table) :
  db s = Some tbl ->
  exists added,
    db (snd (saveCar env car s)) = Some (tbl ++ added) /\
    Forall (fun r => status r = PENDING) added.
Proof.
  intros Hdb. unfold saveCar. destruct (isShuttingDown s).
  - exists []. rewrite app_nil_r. split; [exact Hdb|constructor].
  - cbn [writeBuffer db isShuttingDown instanceId flushTimer].
    destruct (_ <=? _)%nat.
    + apply flushBuffer_adds. exact Hdb.
    + exists []. rewrite app_nil_r. split; [exact Hdb|constructor].
Qed.

End DrainFacts.

Section DrainBatch.
Import PendingCar SqliteManager RecoveryManager.

(** One iteration of the drain loop without a store fault: a claim,
    [markCarsAsSent] on the delivered ids, [markCarsAsPending] on the
    others, each applied to rows that are RECOVERING. *)
Lemma drainBatch_moves (env : BatchEnv) (self : RecoveryManager.t)
    (tot : Totals) (w : World) (tbl : Table) :
  db (sqliteManager w) = Some tbl ->
  unique_ids tbl ->
  claimFailure env = None -> sentFault env = None ->
  pendingFault env = None -> revertFault env = None ->
  let s := sqliteManager w in
  exists rows t1 okIds jobs t2 relIds t3 res w',
    drainBatch env self tot w = (Ok res, w') /\
    getAndMarkPendingCars (chunkSize self) (instanceId self) (claimNow env)
      None s = (Ok rows, with_db t1 s) /\
    markCarsAsSent okIds jobs None (with_db t1 s) = (Ok tt, with_db t2 s) /\
    markCarsAsPending relIds None (with_db t2 s) = (Ok tt, with_db t3 s) /\
    sqliteManager w' = with_db t3 s /\
    moves claim_move tbl t1 /\
    moves send_move t1 t2 /\
    moves release_move t2 t3.
Proof.
  intros Hdb Hu Hcf Hsf Hpf Hrf s.
  pose proof (claimed_recovering (chunkSize self) (instanceId self)
                (claimNow env) tbl Hu) as Hg.
  pose proof (returning_ids_NoDup (chunkSize self) (instanceId self)
                (claimNow env) tbl Hu) as Hnd.
  pose proof (claim_moves (chunkSize self) (instanceId self) (claimNow env)
                tbl) as Hm1.
  assert (Hclaim : getAndMarkPendingCars (chunkSize self) (instanceId self)
                     (claimNow env) None s =
                   (Ok (returning (claim_where (chunkSize self) tbl)
                          (set_recovering (instanceId self) (claimNow env))
                          tbl),
                    with_db (update_where (claim_where (chunkSize self) tbl)
                               (set_recovering (instanceId self)
                                  (claimNow env)) tbl) s)).
  { unfold getAndMarkPendingCars. subst s. rewrite Hdb. reflexivity. }
  revert Hg Hnd Hm1 Hclaim.
  generalize (returning (claim_where (chunkSize self) tbl)
                (set_recovering (instanceId self) (claimNow env)) tbl).
  generalize (update_where (claim_where (chunkSize self) tbl)
                (set_recovering (instanceId self) (claimNow env)) tbl).
  intros t1 rows0 Hg Hnd Hm1 Hclaim.
  unfold drainBatch. rewrite Hcf. fold s. rewrite Hclaim.
  destruct rows0 as [|r0 rows'].
  - exists [], t1, [], [], t1, [], t1. eexists. eexists.
    split; [reflexivity|]. split; [reflexivity|].
    split; [reflexivity|]. split; [reflexivity|].
    split; [reflexivity|]. split; [exact Hm1|].
    split; apply moves_refl.
  - set (rows := r0 :: rows') in *.
    destruct (isRedisAvailable (avail env) self
                (with_sqliteManager (with_db t1 s) w)) as [b w2] eqn:Hav.
    assert (Hf : sqliteManager w2 = with_db t1 s).
    { change w2 with (snd (b, w2)). rewrite <- Hav.
      apply isRedisAvailable_frame. }
    destruct b; cbn [negb].
    + destruct (enqueueAll 0 (adds env) rows (remote w2))
        as [[ok ko] rq] eqn:Hen.
      destruct (enqueueAll_ids _ _ _ _ _ _ _ Hen) as (E1 & E2 & E3).
      cbn [sqliteManager with_remote]. rewrite Hf, Hsf.
      rewrite (markCarsAsSent_ok (with_db t1 s) t1) by reflexivity.
      cbn [sqliteManager with_sqliteManager]. rewrite Hpf.
      rewrite (markCarsAsPending_ok _ (map (deliver (map fst ok) (map snd ok)) t1))
        by reflexivity.
      exists rows, t1, (map fst ok), (map snd ok),
        (map (deliver (map fst ok) (map snd ok)) t1), ko,
        (map (release ko) (map (deliver (map fst ok) (map snd ok)) t1)).
      eexists. eexists.
      split; [reflexivity|]. split; [reflexivity|].
      split; [rewrite (markCarsAsSent_ok (with_db t1 s) t1) by reflexivity;
              reflexivity|].
      split; [rewrite (markCarsAsPending_ok _
                         (map (deliver (map fst ok) (map snd ok)) t1))
                by reflexivity; reflexivity|].
      split; [reflexivity|]. split; [exact Hm1|]. split.
      * apply deliver_moves. eapply all_recovering_incl; [exact E1|exact Hg].
      * apply release_moves. apply all_recovering_after_sent.
        -- apply E3, Hnd.
        -- eapply all_recovering_incl; [exact E2|exact Hg].
    + rewrite Hf, Hrf.
      rewrite (markCarsAsPending_ok (with_db t1 s) t1) by reflexivity.
      exists rows, t1, [], [], t1, (map id rows),
        (map (release (map id rows)) t1).
      eexists. eexists.
      split; [reflexivity|]. split; [reflexivity|].
      split; [reflexivity|].
      split; [rewrite (markCarsAsPending_ok (with_db t1 s) t1)
                by reflexivity; reflexivity|].
      split; [reflexivity|]. split; [exact Hm1|].
      split; [apply moves_refl|]. apply release_moves, Hg.
Qed.

End DrainBatch.

Section DrainLoop.
Import PendingCar SqliteManager RecoveryManager.

Lemma moves_weaken (R R' : RecoveryStatus -> RecoveryStatus -> Prop)
    (tbl tbl' : Table) :
  (forall a b, R a b -> R' a b) -> moves R tbl tbl' -> moves R' tbl tbl'.
Proof.
  intros HR H. unfold moves in *.
  induction H as [|r r' l l' [Hid Hst] _ IH]; constructor; [|exact IH].
  split; [exact Hid|]. destruct Hst as [Hst|Hst]; [left; exact Hst|].
  right. apply HR, Hst.
Qed.

Lemma moves_ids (R : RecoveryStatus -> RecoveryStatus -> Prop)
    (tbl tbl' : Table) :
  moves R tbl tbl' -> map id tbl' = map id tbl.
Proof.
  unfold moves. induction 1 as [|r r' l l' [Hid _] _ IH]; simpl;
    [reflexivity|].
  rewrite Hid, IH. reflexivity.
Qed.

Lemma path_trans (a b c : Table) : path a b -> path b c -> path a c.
Proof.
  induction 1 as [|t t' t'' Hm _ IH]; intros H; [exact H|].
  eapply path_step; [exact Hm|apply IH, H].
Qed.

Lemma path_one (R : RecoveryStatus -> RecoveryStatus -> Prop)
    (tbl tbl' : Table) :
  (forall a b, R a b -> lifecycle a b) -> moves R tbl tbl' -> path tbl tbl'.
Proof.
  intros HR H. eapply path_step; [|apply path_refl].
  eapply moves_weaken; eassumption.
Qed.

Lemma path_ids (tbl tbl' : Table) :
  path tbl tbl' -> map id tbl' = map id tbl.
Proof.
  induction 1 as [|t t' t'' Hm _ IH]; [reflexivity|].
  rewrite IH. eapply moves_ids, Hm.
Qed.

(** No lifecycle move leaves SENT, so a row that is SENT stays SENT along
    a path. *)
Lemma path_sent_stable (tbl tbl' : Table) :
  path tbl tbl' ->
  Forall2 (fun r r' => id r' = id r /\ (status r = SENT -> status r' = SENT))
    tbl tbl'.
Proof.
  induction 1 as [t|t t' t'' Hm _ IH].
  - induction t as [|r t IHt]; constructor; auto.
  - unfold moves in Hm. revert t'' IH.
    induction Hm as [|r r' l l' [Hid Hst] _ IHm]; intros t'' IH.
    + exact IH.
    + inversion IH as [|? r'' ? l'' [Hid' Hst'] Hrest]; subst.
      constructor; [|apply IHm, Hrest].
      split; [congruence|]. intros Hs. apply Hst'.
      destruct Hst as [Hst|[Hst|[Hst|Hst]]]; try congruence;
        rewrite Hs in Hst; inversion Hst.
Qed.

Lemma drainBatch_path (env : BatchEnv) (self : RecoveryManager.t)
    (tot : Totals) (w : World) (tbl : Table) :
  db (sqliteManager w) = Some tbl -> unique_ids tbl -> fault_free env ->
  exists res w' tbl',
    drainBatch env self tot w = (Ok res, w') /\
    db (sqliteManager w') = Some tbl' /\ path tbl tbl' /\ unique_ids tbl'.
Proof.
  intros Hdb Hu (Hc & Hs & Hp & Hr).
  destruct (drainBatch_moves env self tot w tbl Hdb Hu Hc Hs Hp Hr)
    as (rows & t1 & okIds & jobs & t2 & relIds & t3 & res & w' & H1 & _ & _
        & _ & H5 & M1 & M2 & M3).
  exists res, w', t3. split; [exact H1|]. split; [rewrite H5; reflexivity|].
  assert (P : path tbl t3).
  { eapply path_trans; [eapply (path_one claim_move); [|exact M1]|].
    - intros a b H. left. exact H.
    - eapply path_trans; [eapply (path_one send_move); [|exact M2]|].
      + intros a b H. right. left. exact H.
      + eapply (path_one release_move); [|exact M3].
        intros a b H. right. right. exact H. }
  split; [exact P|]. unfold unique_ids. rewrite (path_ids _ _ P). exact Hu.
Qed.

Lemma drainLoop_path (envs : list BatchEnv) (self : RecoveryManager.t) :
  Forall fault_free envs ->
  forall tot w tbl r w',
    db (sqliteManager w) = Some tbl -> unique_ids tbl ->
    drainLoop envs self tot w = Some (r, w') ->
    exists tot' tbl',
      r = Ok tot' /\ db (sqliteManager w') = Some tbl' /\ path tbl tbl'.
Proof.
  induction 1 as [|env envs Hff _ IH]; intros tot w tbl r w' Hdb Hu Hrun;
    [discriminate Hrun|].
  simpl in Hrun.
  destruct (drainBatch_path env self tot w tbl Hdb Hu Hff)
    as ([next tot1] & w1 & t1 & Hb & Hdb1 & P1 & Hu1).
  rewrite Hb in Hrun. destruct next.
  - destruct (IH _ _ _ _ _ Hdb1 Hu1 Hrun) as (tot' & tbl' & -> & Hd & P).
    exists tot', tbl'. split; [reflexivity|]. split; [exact Hd|].
    eapply path_trans; eassumption.
  - injection Hrun as <- <-. exists tot1, t1. auto.
Qed.

End DrainLoop.

(** C3 as stated fails. [markCarsAsSent] takes a PENDING row straight to
    SENT and [markCarsAsPending] takes a SENT row back to PENDING; and in a
    drain batch whose release update fails, the row that was delivered and
    marked SENT is reverted to PENDING by the exception path together with
    the failed one. *)
Lemma C3_sent_row_reverted :
  let sent := snd (SqliteManager.markCarsAsSent [PendingCar.id rowA] ["job-1"]
                     None storeAB) in
  let back := snd (SqliteManager.markCarsAsPending [PendingCar.id rowA] None
                     sent) in
  let w := with_sqliteManager storeAB freshWorld in
  let r := RecoveryManager.drainBatch faultyBatch readyManager
             (RecoveryManager.mkTotals 0 0) w in
  let claimed := snd (SqliteManager.getAndMarkPendingCars 50 "instance-1-0"
                        5000 None storeAB) in
  let delivered := snd (SqliteManager.markCarsAsSent [PendingCar.id rowA]
                          ["job-1"] None claimed) in
  option_map (map PendingCar.status) (SqliteManager.db storeAB) =
    Some [PENDING; PENDING] /\
  option_map (map PendingCar.status) (SqliteManager.db sent) =
    Some [SENT; PENDING] /\
  option_map (map PendingCar.status) (SqliteManager.db back) =
    Some [PENDING; PENDING] /\
  option_map (map PendingCar.status) (SqliteManager.db delivered) =
    Some [SENT; RECOVERING] /\
  fst r = Ok (RecoveryManager.Break, RecoveryManager.mkTotals 1 2) /\
  option_map (map PendingCar.status) (SqliteManager.db (sqliteManager (snd r))) =
    Some [PENDING; PENDING] /\
  option_map (map PendingCar.redis_job_id)
    (SqliteManager.db (sqliteManager (snd r))) = Some [Some "job-1"; None] /\
  option_map (map PendingCar.retry_count)
    (SqliteManager.db (sqliteManager (snd r))) = Some [1; 1] /\
  map Remote.jobId (Remote.jobs (remote (snd r))) = [Some "7"; Some "job-1"].
Proof. vm_compute. repeat split. Qed.

(** C3, amended. [saveCar] and the flush only add PENDING rows;
    [getAndMarkPendingCars] moves rows only from PENDING to RECOVERING and
    [cleanupStaleRecoveries] only from RECOVERING to PENDING, whether
    they succeed or fail. [markCarsAsSent] and [markCarsAsPending] carry
    no status guard: they move rows only from RECOVERING to SENT,
    respectively to PENDING, when the rows they name are RECOVERING. A
    drain batch without a store fault calls them that way: it claims,
    marks the delivered rows SENT and releases the others, so that every
    row keeps its status or moves PENDING to RECOVERING, RECOVERING to
    SENT or RECOVERING to PENDING. A whole drain without a store fault is
    a sequence of such moves, and a row that is SENT before it is SENT
    after it. *)
Theorem C3_status_transitions :
  (forall env car s tbl,
     SqliteManager.db s = Some tbl ->
     (exists added,
        SqliteManager.db (snd (SqliteManager.saveCar env car s)) =
          Some (tbl ++ added) /\
        Forall (fun r => PendingCar.status r = PENDING) added) /\
     (exists added,
        SqliteManager.db (snd (SqliteManager.flushBuffer env s)) =
          Some (tbl ++ added) /\
        Forall (fun r => PendingCar.status r = PENDING) added)) /\
  (forall s tbl limit instanceId now failure,
     SqliteManager.db s = Some tbl ->
     exists tbl',
       SqliteManager.db
         (snd (SqliteManager.getAndMarkPendingCars limit instanceId now
                 failure s)) = Some tbl' /\
       SqliteManager.moves SqliteManager.claim_move tbl tbl') /\
  (forall s tbl maxAgeMs now failure,
     SqliteManager.db s = Some tbl ->
     exists tbl',
       SqliteManager.db
         (snd (SqliteManager.cleanupStaleRecoveries maxAgeMs now failure s)) =
         Some tbl' /\
       SqliteManager.moves SqliteManager.release_move tbl tbl') /\
  (forall s tbl carIds redisJobIds fault,
     SqliteManager.db s = Some tbl ->
     SqliteManager.all_recovering carIds tbl ->
     exists tbl',
       SqliteManager.db
         (snd (SqliteManager.markCarsAsSent carIds redisJobIds fault s)) =
         Some tbl' /\
       SqliteManager.moves SqliteManager.send_move tbl tbl') /\
  (forall s tbl carIds fault,
     SqliteManager.db s = Some tbl ->
     SqliteManager.all_recovering carIds tbl ->
     exists tbl',
       SqliteManager.db (snd (SqliteManager.markCarsAsPending carIds fault s)) =
         Some tbl' /\
       SqliteManager.moves SqliteManager.release_move tbl tbl') /\
  (forall env self tot w tbl,
     SqliteManager.db (sqliteManager w) = Some tbl ->
     SqliteManager.unique_ids tbl ->
     RecoveryManager.claimFailure env = None ->
     RecoveryManager.sentFault env = None ->
     RecoveryManager.pendingFault env = None ->
     RecoveryManager.revertFault env = None ->
     let s := sqliteManager w in
     exists rows t1 okIds jobs t2 relIds t3 res w',
       RecoveryManager.drainBatch env self tot w = (Ok res, w') /\
       SqliteManager.getAndMarkPendingCars (RecoveryManager.chunkSize self)
         (RecoveryManager.instanceId self) (RecoveryManager.claimNow env)
         None s = (Ok rows, SqliteManager.with_db t1 s) /\
       SqliteManager.markCarsAsSent okIds jobs None
         (SqliteManager.with_db t1 s) = (Ok tt, SqliteManager.with_db t2 s) /\
       SqliteManager.markCarsAsPending relIds None
         (SqliteManager.with_db t2 s) = (Ok tt, SqliteManager.with_db t3 s) /\
       sqliteManager w' = SqliteManager.with_db t3 s /\
       SqliteManager.moves SqliteManager.claim_move tbl t1 /\
       SqliteManager.moves SqliteManager.send_move t1 t2 /\
       SqliteManager.moves SqliteManager.release_move t2 t3) /\
  (forall env self w tbl r w',
     SqliteManager.db (sqliteManager w) = Some tbl ->
     SqliteManager.unique_ids tbl ->
     RecoveryManager.cleanupFailure env = None ->
     Forall RecoveryManager.fault_free (RecoveryManager.batches env) ->
     RecoveryManager.recoverPendingEntries env self w = Some (r, w') ->
     exists tbl',
       SqliteManager.db (sqliteManager w') = Some tbl' /\
       SqliteManager.path tbl tbl' /\
       Forall2
         (fun a b =>
            PendingCar.id b = PendingCar.id a /\
            (PendingCar.status a = SENT -> PendingCar.status b = SENT))
         tbl tbl').
Proof.
  split; [|split; [|split; [|split; [|split; [|split]]]]].
  - intros env car s tbl Hdb. split.
    + apply saveCar_adds, Hdb.
    + apply flushBuffer_adds, Hdb.
  - intros s tbl limit inst now failure Hdb.
    unfold SqliteManager.getAndMarkPendingCars. rewrite Hdb.
    destruct failure.
    + exists tbl. split; [exact Hdb|apply moves_refl].
    + eexists. split; [reflexivity|apply claim_moves].
  - intros s tbl maxAgeMs now failure Hdb.
    unfold SqliteManager.cleanupStaleRecoveries. rewrite Hdb.
    destruct failure.
    + exists tbl. split; [exact Hdb|apply moves_refl].
    + eexists. split; [reflexivity|apply cleanup_moves].
  - intros s tbl carIds jobs fault Hdb Hg.
    destruct (markCarsAsSent_db s tbl carIds jobs fault Hdb) as [k ->].
    eexists. split; [reflexivity|].
    apply deliver_moves, all_recovering_firstn, Hg.
  - intros s tbl carIds fault Hdb Hg.
    destruct (markCarsAsPending_db s tbl carIds fault Hdb) as [k ->].
    eexists. split; [reflexivity|].
    apply release_moves, all_recovering_firstn, Hg.
  - intros env self tot w tbl. apply drainBatch_moves.
  - intros env self w tbl r w' Hdb Hu Hcf Hff Hrun.
    assert (Hp : exists tbl', SqliteManager.db (sqliteManager w') = Some tbl' /\
                              SqliteManager.path tbl tbl').
    { unfold RecoveryManager.recoverPendingEntries in Hrun.
      destruct (RecoveryManager.queue self); cbn [negb] in Hrun.
      - unfold SqliteManager.cleanupStaleRecoveries in Hrun.
        rewrite Hdb, Hcf in Hrun.
        set (t0 := SqliteManager.update_where _ _ tbl) in Hrun.
        assert (M : SqliteManager.moves SqliteManager.release_move tbl t0)
          by apply cleanup_moves.
        assert (P0 : SqliteManager.path tbl t0).
        { eapply (path_one SqliteManager.release_move); [|exact M].
          intros a b H. right. right. exact H. }
        assert (Hu0 : SqliteManager.unique_ids t0).
        { unfold SqliteManager.unique_ids. rewrite (path_ids _ _ P0).
          exact Hu. }
        assert (Hd0 : SqliteManager.db
                        (sqliteManager
                           (with_sqliteManager
                              (SqliteManager.with_db t0 (sqliteManager w)) w)) =
                      Some t0) by reflexivity.
        destruct (drainLoop_path _ self Hff _ _ t0 _ _ Hd0 Hu0 Hrun)
          as (tot' & tbl' & _ & Hd & P).
        exists tbl'. split; [exact Hd|]. eapply path_trans; eassumption.
      - injection Hrun as _ <-. exists tbl. split; [exact Hdb|].
        apply SqliteManager.path_refl. }
    destruct Hp as (tbl' & Hd & P). exists tbl'.
    split; [exact Hd|]. split; [exact P|]. apply path_sent_stable, P.
Qed.

(** ** The theorems at sample values *)

(** C1 at the first refused enqueue of a fresh producer. *)
Lemma C1_witness :
  let r := WriteHandler.writeCar (WriteHandler.mk true) refusedEnv someCar
             freshWorld in
  circuitBreaker (snd r) =
    CircuitBreaker.recordFailure (circuitBreaker freshWorld) /\
  fst r = Ok tt /\
  SqliteManager.writeBuffer (sqliteManager (snd r)) = [someCar].
Proof.
  intros r.
  destruct (C1_transport_failure_falls_back (WriteHandler.mk true) refusedEnv
              someCar freshWorld refused)
    as (_ & H2 & _ & _ & _ & H6).
  - reflexivity.
  - reflexivity.
  - right. reflexivity.
  - reflexivity.
  - vm_compute. reflexivity.
  - split; [exact H2|]. apply H6.
    + reflexivity.
    + vm_compute. lia.
Defined.


(** C3 at a drain that delivers both pending rows. *)
Lemma C3_witness :
  (exists res w',
     RecoveryManager.drainBatch cleanBatch readyManager
       (RecoveryManager.mkTotals 0 0) (with_sqliteManager storeAB freshWorld) =
       (Ok res, w') /\
     exists tbl',
       SqliteManager.db (sqliteManager w') = Some tbl' /\
       List.length tbl' = 2%nat) /\
  (exists r w',
     RecoveryManager.recoverPendingEntries cleanDrain readyManager
       (with_sqliteManager storeAB freshWorld) = Some (r, w') /\
     exists tbl',
       SqliteManager.db (sqliteManager w') = Some tbl' /\
       SqliteManager.path [rowA; rowB] tbl').
Proof.
  assert (Hu : SqliteManager.unique_ids [rowA; rowB]).
  { unfold SqliteManager.unique_ids. simpl.
    constructor; [|constructor; [|constructor]].
    - simpl. intros [H|[]]. discriminate H.
    - intros []. }
  split.
  - destruct (proj1 (proj2 (proj2 (proj2 (proj2 (proj2 C3_status_transitions)))))
                cleanBatch readyManager (RecoveryManager.mkTotals 0 0)
                (with_sqliteManager storeAB freshWorld) [rowA; rowB]
                eq_refl Hu eq_refl eq_refl eq_refl eq_refl)
      as (rows & t1 & okIds & jobs & t2 & relIds & t3 & res & w' & H1 & _ & _
          & _ & H5 & M1 & M2 & M3).
    exists res, w'. split; [exact H1|]. exists t3. split.
    + rewrite H5. reflexivity.
    + unfold SqliteManager.moves in M1, M2, M3.
      rewrite <- (Forall2_length M3), <- (Forall2_length M2),
        <- (Forall2_length M1). reflexivity.
  - destruct (RecoveryManager.recoverPendingEntries cleanDrain readyManager
                (with_sqliteManager storeAB freshWorld))
      as [[r w']|] eqn:E; [|vm_compute in E; discriminate E].
    exists r, w'. split; [reflexivity|].
    destruct (proj2 (proj2 (proj2 (proj2 (proj2 (proj2 C3_status_transitions)))))
                cleanDrain readyManager
                (with_sqliteManager storeAB freshWorld) [rowA; rowB] r w'
                eq_refl Hu eq_refl)
      as (tbl' & Hd & P & _).
    + repeat constructor.
    + exact E.
    + exists tbl'. split; [exact Hd|exact P].
Defined.

(** C5 at an open breaker: in SQLITE_MODE, and in REDIS_MODE where the
    remote branch finds the breaker open. Each time the car is appended
    to the buffer and no remote call is made. *)
Lemma C5_witness :
  (let r := WriteHandler.writeCar (WriteHandler.mk true) acceptedEnv someCar
              openWorld in
   fst r = Ok tt /\
   remote (snd r) = remote openWorld /\
   sqliteManager (snd r) =
     SqliteManager.mkService (Some []) [someCar] true false "instance-1-0") /\
  (let r := WriteHandler.writeCar (WriteHandler.mk true) acceptedEnv someCar
              racingWorld in
   fst r = Ok tt /\
   remote (snd r) = remote racingWorld /\
   StateManager.currentState (stateManager (snd r)) = SQLITE_MODE /\
   sqliteManager (snd r) =
     SqliteManager.mkService (Some []) [someCar] true false "instance-1-0").
Proof.
  split.
  - destruct (C5_write_routing (WriteHandler.mk true) acceptedEnv someCar
                openWorld eq_refl) as (_ & _ & H & _).
    destruct H as (_ & Hr & _ & Hst); [discriminate|reflexivity|].
    destruct (Hst eq_refl) as (Hb & _).
    destruct Hb as (Hf & Hs); [vm_compute; lia|].
    split; [exact Hf|]. split; [exact Hr|exact Hs].
  - destruct (C5_write_routing (WriteHandler.mk true) acceptedEnv someCar
                racingWorld eq_refl) as (_ & _ & _ & H).
    destruct H as (_ & Hr & Hm & Hst); [reflexivity|reflexivity|].
    destruct (Hst eq_refl) as (Hb & _).
    destruct Hb as (Hf & Hs); [vm_compute; lia|].
    split; [exact Hf|]. split; [exact Hr|]. split; [exact Hm|exact Hs].
Defined.


(** C7 at an open breaker. *)
Lemma C7_witness :
  RecoveryManager.isRedisAvailable
    (RecoveryManager.mkAvailEnv RecoveryManager.Pong (Ok (Some "1")))
    readyManager openWorld = (false, openWorld).
Proof.
  apply (proj1 (C7_availability_probe
                  (RecoveryManager.mkAvailEnv RecoveryManager.Pong
                     (Ok (Some "1"))) readyManager openWorld)).
  reflexivity.
Defined.

(** C8 at a fallback counted while the first session is open. *)
Lemma C8_witness :
  let m := Metrics.run Metrics.new
             [Metrics.MasterFailure (Some "connect ECONNREFUSED") 10] in
  exists s',
    Metrics.activeSession (Metrics.step m Metrics.IncrementFallback) = Some s' /\
    FailoverSession.sessionId s' = "failover-1-10" /\
    Metrics.totalFailoverSessions (Metrics.step m Metrics.IncrementFallback) = 1.
Proof.
  intros m.
  destruct (C8_session_close_reports_count
              [Metrics.MasterFailure (Some "connect ECONNREFUSED") 10]
              SQLITE_MODE 20 20) as (_ & _ & _ & _ & _ & H).
  destruct (H Metrics.IncrementFallback
              (FailoverSession.mk "failover-1-10" (Some 10) None None None
                 None None 0 true))
    as (s' & H1 & H2 & H3).
  - reflexivity.
  - intros p a b E. discriminate E.
  - exists s'. split; [exact H1|]. split; [exact H2|exact H3].
Defined.


(** * Further properties *)

(** ** Circuit breaker: every call *)

Section BreakerInvariant.
Import CircuitBreaker.

Lemma apply_well_formed (thr cd : Z) (cb : CircuitBreaker.t) (o : op) :
  well_formed thr cd cb -> well_formed thr cd (apply cb o).
Proof.
  destruct cb as [s n t c tm]. unfold well_formed.
  cbn [state failureCount failureThreshold cooldownMs cooldownTimer].
  intros (-> & -> & Hn & Hs).
  destruct o; cbn [apply].
  - destruct s; cbn; repeat split; auto; try lia; try tauto.
  - destruct s.
    + destruct Hs as [-> Hc]. rewrite recordFailure_closed.
      destruct (Z.leb_spec thr (n + 1)); cbn; repeat split; auto; lia.
    + rewrite recordFailure_open. cbn. repeat split; auto; lia.
    + cbn. repeat split; auto; lia.
  - unfold cooldownExpired.
    cbn [state failureCount failureThreshold cooldownMs cooldownTimer].
    destruct tm as [x|].
    + cbn. repeat split; auto.
    + destruct s; cbn; repeat split; auto; try tauto; try discriminate Hs.
  - cbn. repeat split; auto; lia.
  - cbn. repeat split; auto; lia.
Qed.

Lemma exec_well_formed (thr cd : Z) (os : list op) :
  forall cb, well_formed thr cd cb -> well_formed thr cd (exec cb os).
Proof.
  induction os as [|o os IH]; intros cb H; [exact H|].
  apply IH, apply_well_formed, H.
Qed.

Lemma new_well_formed (envThreshold envCooldown : option Z) :
  well_formed (envOr envThreshold 5) (envOr envCooldown 2000)
    (new envThreshold envCooldown).
Proof. unfold well_formed. cbn. repeat split; auto; lia. Qed.

End BreakerInvariant.

(** X1. However a breaker is driven from its construction (successes,
    failures, cooldown expiries, resets, forced half-open), its cooldown
    timer is pending exactly when it is OPEN, its failure count is never
    negative, and a CLOSED breaker has a count of zero or below the
    threshold; the threshold and the cooldown never change. *)
Theorem X1_breaker_invariant :
  forall (envThreshold envCooldown : option Z) (os : list CircuitBreaker.op),
    let cb := CircuitBreaker.exec
                (CircuitBreaker.new envThreshold envCooldown) os in
    (CircuitBreaker.state cb = OPEN <->
     CircuitBreaker.cooldownTimer cb <> None) /\
    0 <= CircuitBreaker.failureCount cb /\
    (CircuitBreaker.state cb = CLOSED ->
     CircuitBreaker.failureCount cb = 0 \/
     CircuitBreaker.failureCount cb < CircuitBreaker.failureThreshold cb) /\
    CircuitBreaker.failureThreshold cb = CircuitBreaker.envOr envThreshold 5 /\
    CircuitBreaker.cooldownMs cb = CircuitBreaker.envOr envCooldown 2000.
Proof.
  intros thr cd os cb.
  destruct (exec_well_formed _ _ os _ (new_well_formed thr cd))
    as (Ht & Hc & Hn & Hs).
  fold cb in Ht, Hc, Hn, Hs.
  split; [|split; [exact Hn|split; [|split; [exact Ht|exact Hc]]]].
  - destruct (CircuitBreaker.state cb); split; intros H;
      try discriminate H; try reflexivity.
    + destruct Hs as [Hs _]. contradiction.
    + rewrite Hs. discriminate.
    + contradiction.
  - intros E. rewrite E in Hs. rewrite Ht. tauto.
Qed.

(** X1 after five failures and a cooldown expiry. *)
Lemma X1_witness :
  let cb := CircuitBreaker.exec (CircuitBreaker.new None None)
              (repeat CircuitBreaker.RecordFailure 5
               ++ [CircuitBreaker.TimerFired; CircuitBreaker.RecordSuccess;
                   CircuitBreaker.RecordFailure]) in
  CircuitBreaker.state cb = CLOSED /\
  (CircuitBreaker.failureCount cb = 0 \/ CircuitBreaker.failureCount cb < 5).
Proof.
  intros cb. split; [reflexivity|].
  exact (proj1 (proj2 (proj2
           (X1_breaker_invariant None None
              (repeat CircuitBreaker.RecordFailure 5
               ++ [CircuitBreaker.TimerFired; CircuitBreaker.RecordSuccess;
                   CircuitBreaker.RecordFailure])))) eq_refl).
Defined.

(** X2. An OPEN breaker, however it was reached, is closed again by the
    expiry of its cooldown followed by one recorded success: the state is
    then CLOSED with a failure count of 0 and no timer. A success recorded
    without the expiry leaves it OPEN. *)
Theorem X2_open_breaker_recovers :
  forall (envThreshold envCooldown : option Z) (os : list CircuitBreaker.op),
    let cb := CircuitBreaker.exec
                (CircuitBreaker.new envThreshold envCooldown) os in
    CircuitBreaker.state cb = OPEN ->
    let cb' := CircuitBreaker.recordSuccess (CircuitBreaker.cooldownExpired cb) in
    CircuitBreaker.state (CircuitBreaker.cooldownExpired cb) = HALF_OPEN /\
    CircuitBreaker.state cb' = CLOSED /\
    CircuitBreaker.failureCount cb' = 0 /\
    CircuitBreaker.cooldownTimer cb' = None /\
    CircuitBreaker.state (CircuitBreaker.recordSuccess cb) = OPEN.
Proof.
  intros thr cd os cb Ho.
  destruct (exec_well_formed _ _ os _ (new_well_formed thr cd))
    as (_ & _ & _ & Hs).
  fold cb in Hs. rewrite Ho in Hs.
  destruct cb as [s n t c tm]. cbn in Ho, Hs. subst s tm.
  cbn. repeat split.
Qed.

(** X2 after five failures. *)
Lemma X2_witness :
  let cb := CircuitBreaker.exec (CircuitBreaker.new None None)
              (repeat CircuitBreaker.RecordFailure 5) in
  CircuitBreaker.state
    (CircuitBreaker.recordSuccess (CircuitBreaker.cooldownExpired cb)) = CLOSED.
Proof.
  intros cb.
  apply (X2_open_breaker_recovers None None
           (repeat CircuitBreaker.RecordFailure 5)).
  reflexivity.
Defined.

(** ** Write handler: the outcomes of a remote attempt *)

Section RemoteAttempt.
Import WriteHandler.

Lemma writeCar_remote (self : WriteHandler.t) (env : Env) (car : Car.t)
    (w : World) :
  CircuitBreaker.state (circuitBreaker w) = HALF_OPEN \/
  StateManager.currentState (stateManager w) = REDIS_MODE ->
  writeCar self env car w = writeToRedis self env car w.
Proof.
  unfold writeCar, CircuitBreaker.getState, StateManager.getState.
  intros [H|H]; rewrite H; cbn; [reflexivity|].
  destruct (CircuitBreakerState_eqb _ _); reflexivity.
Qed.

Lemma recordSuccess_closes (cb : CircuitBreaker.t) :
  CircuitBreaker.isOpen cb = false ->
  CircuitBreaker.state (CircuitBreaker.recordSuccess cb) = CLOSED /\
  CircuitBreaker.failureCount (CircuitBreaker.recordSuccess cb) = 0.
Proof.
  destruct cb as [[] n t c tm]; cbn; intros H; try discriminate H;
    split; reflexivity.
Qed.

Lemma prefix_app (p s : string) : String.prefix p (p ++ s) = true.
Proof.
  induction p as [|c p IH]; cbn; [destruct s; reflexivity|].
  destruct (ascii_dec c c) as [_|H]; [exact IH|congruence].
Qed.

Lemma includes_app (p a b : string) : includes p (a ++ p ++ b) = true.
Proof.
  induction a as [|c a IH].
  - cbn [String.append]. destruct (p ++ b)%string eqn:E; cbn [includes];
      rewrite <- E, prefix_app; reflexivity.
  - cbn [String.append includes]. rewrite IH. apply orb_true_r.
Qed.

Lemma toLowerCase_app (a b : string) :
  toLowerCase (a ++ b) = (toLowerCase a ++ toLowerCase b)%string.
Proof.
  induction a as [|c a IH]; cbn; [reflexivity|]. rewrite IH. reflexivity.
Qed.

Lemma matchesMessage_includes (pat m : string) :
  In pat connectionErrorMessages -> includes pat m = true ->
  matchesMessage m = true.
Proof.
  intros Hin Hinc. unfold matchesMessage. apply existsb_exists.
  exists pat. split; assumption.
Qed.

End RemoteAttempt.

(** X3. When the enqueue of a car fails with an error that is not
    classified as a transport error, [writeCar] rejects with that very
    error: the breaker, the state, the metrics and the durable store are
    as before, and nothing but the one [queue.add] attempt was made. *)
Theorem X3_other_error_surfaced :
  forall (self : WriteHandler.t) (env : WriteHandler.Env) (car : Car.t)
         (w : World) (error : JsError),
    WriteHandler.queue self = true ->
    CircuitBreaker.isOpen (circuitBreaker w) = false ->
    (CircuitBreaker.state (circuitBreaker w) = HALF_OPEN \/
     StateManager.currentState (stateManager w) = REDIS_MODE) ->
    WriteHandler.add env = Throw error ->
    WriteHandler.isRedisConnectionError (Some error) = false ->
    WriteHandler.writeCar self env car w =
      (Throw error,
       mkWorld (stateManager w) (circuitBreaker w) (sqliteManager w)
         (metrics w)
         (Remote.mk
            (Remote.attempts (remote w)
             ++ [Remote.Add "car" (Remote.CarData car)])
            (Remote.jobs (remote w)))).
Proof.
  intros self env car w error Hq Ho Hroute Hadd Hcls.
  rewrite (writeCar_remote _ _ _ _ Hroute). unfold WriteHandler.writeToRedis.
  rewrite Hq, Ho, Hadd, Hcls. reflexivity.
Qed.

(** X3 at a validation error on the first write of a fresh producer. *)
Lemma X3_witness :
  fst (WriteHandler.writeCar (WriteHandler.mk true) rejectedEnv someCar
         freshWorld) = Throw validationError /\
  circuitBreaker
    (snd (WriteHandler.writeCar (WriteHandler.mk true) rejectedEnv someCar
            freshWorld)) = circuitBreaker freshWorld.
Proof.
  rewrite (X3_other_error_surfaced (WriteHandler.mk true) rejectedEnv someCar
             freshWorld validationError).
  - split; reflexivity.
  - reflexivity.
  - reflexivity.
  - right. reflexivity.
  - reflexivity.
  - vm_compute. reflexivity.
Defined.

(** X4. When the enqueue of a car succeeds, [writeCar] fulfils, the job is
    on the queue, the breaker is CLOSED with a failure count of 0, the
    state is REDIS_MODE and the durable store is untouched. If the state
    was SQLITE_MODE the return is signalled to the metrics, which closes
    the failover session; if it was REDIS_MODE the metrics are
    untouched. *)
Theorem X4_successful_write :
  forall (self : WriteHandler.t) (env : WriteHandler.Env) (car : Car.t)
         (w : World) (jobId : option string),
    WriteHandler.queue self = true ->
    CircuitBreaker.isOpen (circuitBreaker w) = false ->
    (CircuitBreaker.state (circuitBreaker w) = HALF_OPEN \/
     StateManager.currentState (stateManager w) = REDIS_MODE) ->
    WriteHandler.add env = Ok jobId ->
    let r := WriteHandler.writeCar self env car w in
    fst r = Ok tt /\
    Remote.jobs (remote (snd r)) =
      Remote.jobs (remote w) ++ [Remote.mkJob "car" (Remote.CarData car) jobId] /\
    CircuitBreaker.state (circuitBreaker (snd r)) = CLOSED /\
    CircuitBreaker.failureCount (circuitBreaker (snd r)) = 0 /\
    StateManager.currentState (stateManager (snd r)) = REDIS_MODE /\
    sqliteManager (snd r) = sqliteManager w /\
    (StateManager.currentState (stateManager w) = SQLITE_MODE ->
     metrics (snd r) =
       Metrics.recordStateTransitionToRedis SQLITE_MODE
         (WriteHandler.tToRedis0 env) (WriteHandler.tToRedis env) (metrics w) /\
     Metrics.currentSession (metrics (snd r)) = None) /\
    (StateManager.currentState (stateManager w) = REDIS_MODE ->
     metrics (snd r) = metrics w).
Proof.
  intros self env car w jobId Hq Ho Hroute Hadd r. subst r.
  rewrite (writeCar_remote _ _ _ _ Hroute). unfold WriteHandler.writeToRedis.
  rewrite Hq, Ho, Hadd. cbn [negb].
  destruct (recordSuccess_closes _ Ho) as [Hs Hc].
  unfold StateManager.isSqliteMode, StateManager.getState.
  cbn [stateManager with_circuitBreaker with_remote].
  destruct (StateManager.currentState (stateManager w)) eqn:Hm; cbn.
  - repeat split; auto; try discriminate.
  - repeat split; auto; try discriminate.
    apply toRedis_closes.
Qed.

(** X4 at the probe that ends an outage. *)
Lemma X4_witness :
  let r := WriteHandler.writeCar (WriteHandler.mk true) acceptedEnv someCar
             probingWorld in
  fst r = Ok tt /\
  CircuitBreaker.state (circuitBreaker (snd r)) = CLOSED /\
  StateManager.currentState (stateManager (snd r)) = REDIS_MODE /\
  Metrics.currentSession (metrics (snd r)) = None.
Proof.
  intros r.
  destruct (X4_successful_write (WriteHandler.mk true) acceptedEnv someCar
              probingWorld (Some "1"))
    as (H1 & _ & H3 & _ & H5 & _ & H7 & _).
  - reflexivity.
  - reflexivity.
  - left. reflexivity.
  - reflexivity.
  - split; [exact H1|]. split; [exact H3|]. split; [exact H5|].
    apply H7. reflexivity.
Defined.

(** X5. A write that finds the breaker HALF_OPEN is the probe: after it
    the breaker is CLOSED and the state REDIS_MODE if the enqueue
    succeeded, the breaker is OPEN with its cooldown armed again and the
    state SQLITE_MODE if it failed with a transport error, and the breaker
    is still HALF_OPEN, the state unchanged, if it failed with another
    error. *)
Theorem X5_probe_outcomes :
  forall (self : WriteHandler.t) (env : WriteHandler.Env) (car : Car.t)
         (w : World),
    WriteHandler.queue self = true ->
    CircuitBreaker.state (circuitBreaker w) = HALF_OPEN ->
    let w' := snd (WriteHandler.writeCar self env car w) in
    match WriteHandler.add env with
    | Ok _ =>
        CircuitBreaker.state (circuitBreaker w') = CLOSED /\
        StateManager.currentState (stateManager w') = REDIS_MODE
    | Throw error =>
        if WriteHandler.isRedisConnectionError (Some error) then
          CircuitBreaker.state (circuitBreaker w') = OPEN /\
          CircuitBreaker.cooldownTimer (circuitBreaker w') =
            Some (CircuitBreaker.cooldownMs (circuitBreaker w)) /\
          StateManager.currentState (stateManager w') = SQLITE_MODE
        else
          circuitBreaker w' = circuitBreaker w /\
          stateManager w' = stateManager w
    end.
Proof.
  intros self env car w Hq Hh w'. subst w'.
  rewrite (writeCar_remote _ _ _ _ (or_introl Hh)).
  unfold WriteHandler.writeToRedis.
  assert (Ho : CircuitBreaker.isOpen (circuitBreaker w) = false)
    by (unfold CircuitBreaker.isOpen; rewrite Hh; reflexivity).
  rewrite Hq, Ho. cbn [negb].
  destruct (WriteHandler.add env) as [j|error].
  - destruct (recordSuccess_closes _ Ho) as [Hs _].
    unfold StateManager.isSqliteMode, StateManager.getState.
    cbn [stateManager with_circuitBreaker with_remote].
    destruct (StateManager.currentState (stateManager w)) eqn:Hm; cbn;
      split; auto.
  - destruct (WriteHandler.isRedisConnectionError (Some error)).
    + match goal with
      | |- context [WriteHandler.writeToSqlite env car ?w0] =>
          destruct (writeToSqlite_frame env car w0) as (-> & -> & _)
      end.
      destruct w as [sm [s n t c tm] sq me re]. cbn in Hh. subst s.
      cbn. destruct (SeederState_eqb _ _); cbn; repeat split.
    + cbn. split; reflexivity.
Qed.

(** X5 at a probe that is refused. *)
Lemma X5_witness :
  let w' := snd (WriteHandler.writeCar (WriteHandler.mk true) refusedEnv
                   someCar probingWorld) in
  CircuitBreaker.state (circuitBreaker w') = OPEN /\
  CircuitBreaker.cooldownTimer (circuitBreaker w') = Some 2000 /\
  StateManager.currentState (stateManager w') = SQLITE_MODE.
Proof.
  exact (X5_probe_outcomes (WriteHandler.mk true) refusedEnv someCar
           probingWorld eq_refl eq_refl).
Defined.

(** X6. An error is classified as a transport error as soon as its code,
    or the code of the error it wraps ([cause], else [lastError], else
    [originalError]), is one of ECONNREFUSED, ETIMEDOUT, ENOTFOUND,
    ECONNRESET, EPIPE, or its message contains one of the listed patterns
    in any mix of upper and lower case; [null] is not a transport
    error. *)
Theorem X6_transport_classification :
  WriteHandler.isRedisConnectionError None = false /\
  (forall error,
     In (orEmpty (code error)) WriteHandler.connectionErrorCodes ->
     WriteHandler.isRedisConnectionError (Some error) = true) /\
  (forall error nested,
     orElse (cause error) (orElse (lastError error) (originalError error)) =
       Some nested ->
     In (orEmpty (n_code nested)) WriteHandler.connectionErrorCodes ->
     WriteHandler.isRedisConnectionError (Some error) = true) /\
  (forall error before found after pattern,
     In pattern WriteHandler.connectionErrorMessages ->
     toLowerCase found = pattern ->
     message error = Some (before ++ found ++ after)%string ->
     WriteHandler.isRedisConnectionError (Some error) = true).
Proof.
  split; [reflexivity|]. split; [|split].
  - intros error H. unfold WriteHandler.isRedisConnectionError.
    apply inb_In in H. rewrite H. reflexivity.
  - intros error nested Hn H. unfold WriteHandler.isRedisConnectionError.
    rewrite Hn. apply inb_In in H. rewrite H.
    destruct (SqliteManager.inb (orEmpty (code error))
                WriteHandler.connectionErrorCodes); reflexivity.
  - intros error a m b pat Hin Hlow Hmsg.
    unfold WriteHandler.isRedisConnectionError. rewrite Hmsg.
    destruct (SqliteManager.inb (orEmpty (code error))
                WriteHandler.connectionErrorCodes); [reflexivity|].
    destruct (match orElse _ _ with Some _ => _ | None => _ end);
      [reflexivity|].
    cbn [orEmpty]. rewrite !toLowerCase_app, Hlow.
    rewrite (matchesMessage_includes pat _ Hin (includes_app pat _ _)).
    reflexivity.
Qed.

(** X6 at the error ioredis raises with the offline queue disabled. *)
Lemma X6_witness : WriteHandler.isRedisConnectionError (Some offlineError) = true.
Proof.
  apply (proj2 (proj2 (proj2 X6_transport_classification)) offlineError
           "" "Stream isn't writeable"
           " and enableOfflineQueue options is false" "stream isn't writeable").
  - cbn. tauto.
  - reflexivity.
  - reflexivity.
Defined.

(** ** Durable store: buffer and flush *)

Section FlushFacts.
Import PendingCar SqliteManager.

(** A failing flush whose transaction is rolled back. *)
Lemma flushBuffer_fails (env : FlushEnv) (s : SqliteManager.t) (tbl : Table)
    (e : JsError) :
  db s = Some tbl -> writeBuffer s <> [] -> failure env = Some e ->
  torn env = None ->
  flushBuffer env s =
    (Throw e,
     mkService (Some tbl) (writeBuffer s) false (isShuttingDown s)
       (instanceId s)).
Proof.
  intros Hdb Hb Hf Ht. unfold flushBuffer.
  destruct (writeBuffer s) as [|c cars]; [congruence|].
  rewrite Hdb, Hf, Ht. reflexivity.
Qed.

(** A failing flush whose transaction was ended from outside after [k]
    inserts. *)
Lemma flushBuffer_torn (env : FlushEnv) (s : SqliteManager.t) (tbl : Table)
    (e : JsError) (k : nat) :
  db s = Some tbl -> writeBuffer s <> [] -> failure env = Some e ->
  torn env = Some k ->
  flushBuffer env s =
    (Throw (if snd (insert_each
                      (skipn k (newRows (instanceId s) env 0 (writeBuffer s)))
                      tbl)
            then e else constraintError),
     mkService
       (Some (fst (insert_each
                     (skipn k (newRows (instanceId s) env 0 (writeBuffer s)))
                     tbl)))
       (writeBuffer s) false (isShuttingDown s) (instanceId s)).
Proof.
  intros Hdb Hb Hf Ht. unfold flushBuffer.
  destruct (writeBuffer s) as [|c cars]; [congruence|].
  rewrite Hdb, Hf, Ht. cbn zeta.
  destruct (insert_each _ tbl) as [tbl' all]. reflexivity.
Qed.

(** A failing flush, rolled back or not: the batch is back in the
    buffer, and the rows it leaves in the table carry cars of the
    batch. *)
Lemma flushBuffer_rejects (env : FlushEnv) (s : SqliteManager.t) (tbl : Table)
    (e : JsError) :
  db s = Some tbl -> writeBuffer s <> [] -> failure env = Some e ->
  exists e' kept,
    flushBuffer env s =
      (Throw e',
       mkService (Some (tbl ++ kept)) (writeBuffer s) false (isShuttingDown s)
         (instanceId s)) /\
    (torn env = None -> kept = [] /\ e' = e) /\
    (forall x, In x (map RecoveryManager.carData kept) ->
               In x (writeBuffer s)).
Proof.
  intros Hdb Hb Hf. destruct (torn env) as [k|] eqn:Ht.
  - rewrite (flushBuffer_torn env s tbl e k Hdb Hb Hf Ht).
    destruct (insert_each_app
                (skipn k (newRows (instanceId s) env 0 (writeBuffer s))) tbl)
      as [n Hn].
    rewrite Hn. eexists. eexists. split; [reflexivity|].
    split; [intros D; discriminate D|].
    intros x Hx. apply in_map_iff in Hx. destruct Hx as (r & <- & Hr).
    apply in_firstn, in_skipn in Hr.
    rewrite <- (newRows_carData (instanceId s) env (writeBuffer s) 0).
    apply in_map, Hr.
  - rewrite (flushBuffer_fails env s tbl e Hdb Hb Hf Ht).
    exists e, []. rewrite app_nil_r. split; [reflexivity|].
    split; [auto|]. intros x [].
Qed.

Lemma insert_each_unique (rows : list PendingCar.t) :
  forall tbl, unique_ids tbl -> unique_ids (fst (insert_each rows tbl)).
Proof.
  unfold unique_ids.
  induction rows as [|r rows IH]; intros tbl Hu; cbn [insert_each].
  - exact Hu.
  - unfold insert. destruct (inb (id r) (map id tbl)) eqn:E; [exact Hu|].
    apply IH. rewrite map_app. cbn.
    apply NoDup_app; [exact Hu| |].
    + constructor; [intros []|constructor].
    + intros x Hx [<-|[]]. apply inb_In in Hx. congruence.
Qed.

Lemma insert_each_all (rows : list PendingCar.t) :
  forall tbl,
    unique_ids (tbl ++ rows) -> insert_each rows tbl = (tbl ++ rows, true).
Proof.
  unfold unique_ids.
  induction rows as [|r rows IH]; intros tbl H; cbn [insert_each].
  - rewrite app_nil_r. reflexivity.
  - unfold insert.
    destruct (inb (id r) (map id tbl)) eqn:E.
    + exfalso. apply inb_In in E. rewrite map_app in H. cbn in H.
      apply NoDup_remove_2 in H. apply H, in_or_app. left. exact E.
    + replace (tbl ++ r :: rows) with ((tbl ++ [r]) ++ rows)
        by (rewrite <- app_assoc; reflexivity).
      apply IH. rewrite <- app_assoc. exact H.
Qed.

Lemma insert_all_unique (rows : list PendingCar.t) :
  forall tbl tbl',
    unique_ids tbl -> insert_all rows tbl = Some tbl' -> unique_ids tbl'.
Proof.
  unfold unique_ids.
  induction rows as [|r rows IH]; intros tbl tbl' Hu; cbn.
  - intros [= <-]. exact Hu.
  - unfold insert. destruct (inb (id r) (map id tbl)) eqn:E; [discriminate|].
    apply IH. rewrite map_app. cbn.
    apply NoDup_app; [exact Hu| |].
    + constructor; [intros []|constructor].
    + intros x Hx [<-|[]]. apply inb_In in Hx. congruence.
Qed.

Lemma newRows_nth (inst : string) (env : FlushEnv) (cars : list Car.t) :
  forall i k r,
    nth_error (newRows inst env i cars) k = Some r ->
    exists car,
      nth_error cars k = Some car /\ r = newRow inst env (i + k) car.
Proof.
  induction cars as [|c cars IH]; intros i k r; cbn.
  - destruct k; discriminate.
  - destruct k as [|k]; cbn.
    + intros [= <-]. exists c. rewrite Nat.add_0_r. auto.
    + intros H. destruct (IH _ _ _ H) as (car & H1 & H2).
      exists car. split; [exact H1|]. rewrite H2. f_equal. lia.
Qed.

End FlushFacts.

(** X7. A flush of a non-empty buffer whose transaction does not fail
    inserts one row per buffered car, in order: the row carries the car's
    five fields unchanged, [created_at = baseTime + index], status
    PENDING, [retry_count] 0 and NULL recovery and job columns. If the
    generated ids are new and distinct the rows are appended to the table
    and the buffer is empty; if one collides on the primary key the
    transaction is rolled back, the table is as before and the cars are
    back in the buffer. *)
Theorem X7_flush_commits_batch :
  forall (env : SqliteManager.FlushEnv) (s : SqliteManager.t)
         (tbl : SqliteManager.Table),
    SqliteManager.db s = Some tbl ->
    SqliteManager.writeBuffer s <> [] ->
    SqliteManager.failure env = None ->
    let rows := SqliteManager.newRows (SqliteManager.instanceId s) env 0
                  (SqliteManager.writeBuffer s) in
    map RecoveryManager.carData rows = SqliteManager.writeBuffer s /\
    (forall i r,
       nth_error rows i = Some r ->
       PendingCar.created_at r = SqliteManager.baseTime env + Z.of_nat i /\
       PendingCar.status r = PENDING /\ PendingCar.retry_count r = 0 /\
       PendingCar.recovery_instance r = None /\
       PendingCar.recovery_started_at r = None /\
       PendingCar.redis_job_id r = None) /\
    (SqliteManager.unique_ids (tbl ++ rows) ->
     SqliteManager.flushBuffer env s =
       (Ok tt,
        SqliteManager.mkService (Some (tbl ++ rows)) [] false
          (SqliteManager.isShuttingDown s) (SqliteManager.instanceId s))) /\
    (SqliteManager.unique_ids tbl ->
     ~ SqliteManager.unique_ids (tbl ++ rows) ->
     SqliteManager.flushBuffer env s =
       (Throw SqliteManager.constraintError,
        SqliteManager.mkService (Some tbl) (SqliteManager.writeBuffer s) false
          (SqliteManager.isShuttingDown s) (SqliteManager.instanceId s))).
Proof.
  intros env s tbl Hdb Hb Hf rows.
  split; [apply newRows_carData|]. split.
  - intros i r Hi. destruct (newRows_nth _ _ _ _ _ _ Hi) as (car & _ & ->).
    cbn. repeat split.
  - rewrite (flushBuffer_inserts env s tbl Hdb Hb Hf). fold rows. split.
    + intros Hu. rewrite (insert_all_some rows tbl Hu). reflexivity.
    + intros Hu Hn. destruct (SqliteManager.insert_all rows tbl) as [tbl'|] eqn:E;
        [|reflexivity].
      exfalso. apply Hn. rewrite <- (insert_all_app _ _ _ E).
      exact (insert_all_unique _ _ _ Hu E).
Qed.

(** X8. When a save has to flush and the flush fails, the retry of
    [writeToSqlite] pushes the car again on top of the batch put back in
    the buffer. After the failed attempt the buffer holds the batch with
    the car, and the table is as before if the transaction was rolled
    back, or holds in addition the rows inserted after the transaction was
    ended from outside. If the second attempt commits, the call fulfils
    and the car has been inserted twice by it. If all three attempts
    fail, the call rejects and the buffer holds the batch with three
    copies of the car, while the rows left in the table carry cars of the
    batch; if the three are rolled back, the call rejects with the third
    error and the table is as before. *)
Theorem X8_retry_duplicates_car :
  forall (env : WriteHandler.Env) (car : Car.t) (w : World)
         (tbl : SqliteManager.Table) (e0 : JsError),
    let s := sqliteManager w in
    let buffer := SqliteManager.writeBuffer s in
    SqliteManager.db s = Some tbl ->
    SqliteManager.isShuttingDown s = false ->
    (SqliteManager.batchSize <= List.length buffer + 1)%nat ->
    SqliteManager.failure (WriteHandler.flushes env 0%nat) = Some e0 ->
    exists tbl1 e0' kept,
      SqliteManager.saveCar (WriteHandler.flushes env 0%nat) car s =
        (Throw e0',
         SqliteManager.mkService (Some tbl1) (buffer ++ [car]) false false
           (SqliteManager.instanceId s)) /\
      tbl1 = tbl ++ kept /\
      (SqliteManager.torn (WriteHandler.flushes env 0%nat) = None ->
       kept = [] /\ e0' = e0) /\
      (forall x, In x (map RecoveryManager.carData kept) ->
                 In x (buffer ++ [car])) /\
      (forall rows,
         rows = SqliteManager.newRows (SqliteManager.instanceId s)
                  (WriteHandler.flushes env 1%nat) 0 (buffer ++ [car; car]) ->
         SqliteManager.failure (WriteHandler.flushes env 1%nat) = None ->
         SqliteManager.unique_ids (tbl1 ++ rows) ->
         WriteHandler.writeToSqlite env car w =
           (Ok tt,
            with_sqliteManager
              (SqliteManager.mkService (Some (tbl1 ++ rows)) [] false false
                 (SqliteManager.instanceId s)) w) /\
         map RecoveryManager.carData rows = buffer ++ [car; car]) /\
      (forall e1 e2,
         SqliteManager.failure (WriteHandler.flushes env 1%nat) = Some e1 ->
         SqliteManager.failure (WriteHandler.flushes env 2%nat) = Some e2 ->
         exists e left,
           WriteHandler.writeToSqlite env car w =
             (Throw e,
              with_sqliteManager
                (SqliteManager.mkService (Some (tbl ++ left))
                   (buffer ++ [car; car; car]) false false
                   (SqliteManager.instanceId s)) w) /\
           (forall x, In x (map RecoveryManager.carData left) ->
                      In x (buffer ++ [car]))) /\
      (forall e1 e2,
         SqliteManager.torn (WriteHandler.flushes env 0%nat) = None ->
         SqliteManager.failure (WriteHandler.flushes env 1%nat) = Some e1 ->
         SqliteManager.torn (WriteHandler.flushes env 1%nat) = None ->
         SqliteManager.failure (WriteHandler.flushes env 2%nat) = Some e2 ->
         SqliteManager.torn (WriteHandler.flushes env 2%nat) = None ->
         WriteHandler.writeToSqlite env car w =
           (Throw e2,
            with_sqliteManager
              (SqliteManager.mkService (Some tbl) (buffer ++ [car; car; car])
                 false false (SqliteManager.instanceId s)) w)).
Proof.
  intros env car w tbl e0 s buffer Hdb Hs Hlen Hf0.
  assert (H0 : exists tbl1 e0' kept,
            SqliteManager.saveCar (WriteHandler.flushes env 0%nat) car s =
              (Throw e0',
               SqliteManager.mkService (Some tbl1) (buffer ++ [car]) false
                 false (SqliteManager.instanceId s)) /\
            tbl1 = tbl ++ kept /\
            (SqliteManager.torn (WriteHandler.flushes env 0%nat) = None ->
             kept = [] /\ e0' = e0) /\
            (forall x, In x (map RecoveryManager.carData kept) ->
                       In x (buffer ++ [car]))).
  { rewrite (saveCar_flushes _ _ _ Hs Hlen).
    destruct (SqliteManager.torn (WriteHandler.flushes env 0%nat)) as [k|]
      eqn:Ht.
    - rewrite (flushBuffer_torn _ _ tbl e0 k); try assumption;
        [|apply app_not_nil].
      cbn [SqliteManager.writeBuffer SqliteManager.instanceId
           SqliteManager.isShuttingDown].
      destruct (insert_each_app
                  (skipn k (SqliteManager.newRows (SqliteManager.instanceId s)
                              (WriteHandler.flushes env 0%nat) 0
                              (buffer ++ [car]))) tbl) as [n Hn].
      eexists. eexists. exists (firstn n
        (skipn k (SqliteManager.newRows (SqliteManager.instanceId s)
                    (WriteHandler.flushes env 0%nat) 0 (buffer ++ [car])))).
      split; [reflexivity|]. split; [exact Hn|].
      split; [intros D; discriminate D|].
      intros x Hx. apply in_map_iff in Hx. destruct Hx as (r & <- & Hr).
      apply in_firstn, in_skipn in Hr.
      rewrite <- (newRows_carData (SqliteManager.instanceId s)
                    (WriteHandler.flushes env 0%nat) (buffer ++ [car]) 0).
      apply in_map, Hr.
    - rewrite (flushBuffer_fails _ _ tbl e0); try assumption;
        [|apply app_not_nil].
      exists tbl, e0, []. rewrite app_nil_r.
      split; [reflexivity|]. split; [reflexivity|].
      split; [auto|]. intros x []. }
  destruct H0 as (tbl1 & e0' & kept & H0 & Hk & Hr & Hin).
  exists tbl1, e0', kept.
  split; [exact H0|]. split; [exact Hk|]. split; [exact Hr|].
  split; [exact Hin|].
  assert (Hlen1 : (SqliteManager.batchSize <= List.length (buffer ++ [car]) + 1)%nat)
    by (rewrite length_app; cbn; lia).
  split; [|split].
  - intros rows -> Hf1 Hu. split; [|apply newRows_carData].
    unfold WriteHandler.writeToSqlite.
    cbn [WriteHandler.writeToSqliteFrom WriteHandler.maxRetries]. fold s.
    rewrite H0. rewrite saveCar_flushes by (try reflexivity; exact Hlen1).
    cbn [SqliteManager.writeBuffer SqliteManager.db SqliteManager.isShuttingDown
         SqliteManager.instanceId SqliteManager.flushTimer].
    rewrite <- app_assoc. cbn [app].
    rewrite (flushBuffer_inserts _ _ tbl1); try reflexivity; try assumption.
    + cbn [SqliteManager.writeBuffer SqliteManager.instanceId
           SqliteManager.isShuttingDown].
      rewrite (insert_all_some _ tbl1 Hu). reflexivity.
    + cbn. destruct buffer; discriminate.
  - intros e1 e2 Hf1 Hf2.
    unfold WriteHandler.writeToSqlite.
    cbn [WriteHandler.writeToSqliteFrom WriteHandler.maxRetries]. fold s.
    rewrite H0. rewrite saveCar_flushes by (try reflexivity; exact Hlen1).
    cbn [SqliteManager.writeBuffer SqliteManager.db SqliteManager.isShuttingDown
         SqliteManager.instanceId SqliteManager.flushTimer].
    destruct (flushBuffer_rejects (WriteHandler.flushes env 1%nat)
                (SqliteManager.mkService (Some tbl1)
                   ((buffer ++ [car]) ++ [car]) false false
                   (SqliteManager.instanceId s)) tbl1 e1 eq_refl
                (app_not_nil _ _) Hf1) as (e1' & kept1 & F1 & _ & I1).
    rewrite F1.
    cbn [SqliteManager.writeBuffer SqliteManager.db SqliteManager.isShuttingDown
         SqliteManager.instanceId SqliteManager.flushTimer].
    rewrite saveCar_flushes;
      [|reflexivity
       |cbn [SqliteManager.writeBuffer]; rewrite !length_app; cbn; lia].
    cbn [SqliteManager.writeBuffer SqliteManager.db SqliteManager.isShuttingDown
         SqliteManager.instanceId SqliteManager.flushTimer].
    destruct (flushBuffer_rejects (WriteHandler.flushes env 2%nat)
                (SqliteManager.mkService (Some (tbl1 ++ kept1))
                   (((buffer ++ [car]) ++ [car]) ++ [car]) false false
                   (SqliteManager.instanceId s)) (tbl1 ++ kept1) e2 eq_refl
                (app_not_nil _ _) Hf2) as (e2' & kept2 & F2 & _ & I2).
    rewrite F2.
    cbn [SqliteManager.writeBuffer SqliteManager.db SqliteManager.isShuttingDown
         SqliteManager.instanceId SqliteManager.flushTimer] in *.
    exists e2', (kept ++ kept1 ++ kept2).
    split.
    + rewrite Hk, <- !app_assoc. reflexivity.
    + intros x Hx. rewrite !map_app in Hx.
      apply in_app_or in Hx. destruct Hx as [Hx|Hx]; [apply Hin, Hx|].
      apply in_app_or in Hx.
      assert (Hc : In x (((buffer ++ [car]) ++ [car]) ++ [car]) ->
                   In x (buffer ++ [car])).
      { rewrite !in_app_iff. cbn. tauto. }
      destruct Hx as [Hx|Hx]; apply Hc.
      * apply in_or_app. left. apply I1, Hx.
      * apply I2, Hx.
  - intros e1 e2 Ht0 Hf1 Ht1 Hf2 Ht2.
    destruct (Hr Ht0) as [-> ->]. rewrite app_nil_r in Hk. subst tbl1.
    unfold WriteHandler.writeToSqlite.
    cbn [WriteHandler.writeToSqliteFrom WriteHandler.maxRetries]. fold s.
    rewrite H0. rewrite saveCar_flushes by (try reflexivity; exact Hlen1).
    cbn [SqliteManager.writeBuffer SqliteManager.db SqliteManager.isShuttingDown
         SqliteManager.instanceId SqliteManager.flushTimer].
    rewrite (flushBuffer_fails _ _ tbl e1); try reflexivity; try assumption;
      [|apply app_not_nil].
    cbn [SqliteManager.writeBuffer SqliteManager.db SqliteManager.isShuttingDown
         SqliteManager.instanceId SqliteManager.flushTimer].
    rewrite saveCar_flushes;
      [|reflexivity
       |cbn [SqliteManager.writeBuffer]; rewrite !length_app; cbn; lia].
    cbn [SqliteManager.writeBuffer SqliteManager.db SqliteManager.isShuttingDown
         SqliteManager.instanceId SqliteManager.flushTimer].
    rewrite (flushBuffer_fails _ _ tbl e2); try reflexivity; try assumption;
      [|apply app_not_nil].
    cbn [SqliteManager.writeBuffer SqliteManager.db SqliteManager.isShuttingDown
         SqliteManager.instanceId SqliteManager.flushTimer].
    rewrite <- !app_assoc. reflexivity.
Qed.

(** X7 at the flush of a buffer of one car into an empty table. *)
Lemma X7_witness :
  SqliteManager.flushBuffer quietFlush storeOne =
    (Ok tt,
     SqliteManager.mkService
       (Some (SqliteManager.newRows "instance-1-0" quietFlush 0 [someCar]))
       [] false false "instance-1-0").
Proof.
  destruct (X7_flush_commits_batch quietFlush storeOne [] eq_refl)
    as (_ & _ & H & _).
  - discriminate.
  - reflexivity.
  - apply H. unfold SqliteManager.unique_ids. cbn.
    constructor; [intros []|constructor].
Defined.

(** X8 at a full batch and a database that stays locked. *)
Lemma X8_witness :
  WriteHandler.writeToSqlite lockedEnv someCar
    (with_sqliteManager storeFull freshWorld) =
    (Throw busy,
     with_sqliteManager
       (SqliteManager.mkService (Some [])
          (repeat someCar 49 ++ [someCar; someCar; someCar]) false false
          "instance-1-0") freshWorld).
Proof.
  destruct (X8_retry_duplicates_car lockedEnv someCar
              (with_sqliteManager storeFull freshWorld) [] busy)
    as (tbl1 & e0' & kept & _ & _ & _ & _ & _ & _ & H).
  - reflexivity.
  - reflexivity.
  - vm_compute. lia.
  - reflexivity.
  - apply (H busy busy); reflexivity.
Defined.

(** X9. With the database not initialised, a save that fills the batch
    throws away the whole buffer: the flush empties it before it finds the
    database missing. [writeToSqlite] then retries, buffers the car alone
    and fulfils, so the caller sees a success while the cars buffered
    before are gone. *)
Theorem X9_uninitialised_database_drops_batch :
  forall (env : WriteHandler.Env) (car : Car.t) (w : World),
    let s := sqliteManager w in
    SqliteManager.db s = None ->
    SqliteManager.isShuttingDown s = false ->
    (SqliteManager.batchSize <= List.length (SqliteManager.writeBuffer s) + 1)%nat ->
    SqliteManager.saveCar (WriteHandler.flushes env 0%nat) car s =
      (Throw (Error "Database not initialized"),
       SqliteManager.mkService None [] false false (SqliteManager.instanceId s)) /\
    WriteHandler.writeToSqlite env car w =
      (Ok tt,
       with_sqliteManager
         (SqliteManager.mkService None [car] true false
            (SqliteManager.instanceId s)) w).
Proof.
  intros env car w s Hdb Hs Hlen.
  assert (H0 : SqliteManager.saveCar (WriteHandler.flushes env 0%nat) car s =
               (Throw (Error "Database not initialized"),
                SqliteManager.mkService None [] false false
                  (SqliteManager.instanceId s))).
  { rewrite (saveCar_flushes _ _ _ Hs Hlen). unfold SqliteManager.flushBuffer.
    cbn [SqliteManager.writeBuffer SqliteManager.db SqliteManager.isShuttingDown
         SqliteManager.instanceId SqliteManager.flushTimer].
    rewrite Hdb.
    destruct (SqliteManager.writeBuffer s ++ [car]) eqn:E; [|reflexivity].
    exfalso. exact (app_not_nil _ _ E). }
  split; [exact H0|].
  unfold WriteHandler.writeToSqlite.
  cbn [WriteHandler.writeToSqliteFrom WriteHandler.maxRetries]. fold s.
  rewrite H0. reflexivity.
Qed.

(** X9 at a buffer of forty-nine cars. *)
Lemma X9_witness :
  WriteHandler.writeToSqlite acceptedEnv someCar
    (with_sqliteManager storeClosed freshWorld) =
    (Ok tt,
     with_sqliteManager
       (SqliteManager.mkService None [someCar] true false "instance-1-0")
       freshWorld).
Proof.
  apply (X9_uninitialised_database_drops_batch acceptedEnv someCar
           (with_sqliteManager storeClosed freshWorld)).
  - reflexivity.
  - reflexivity.
  - vm_compute. lia.
Defined.

(** X10. A save that fulfils on a service that is not shutting down keeps
    the buffer below the batch size, and leaves the buffer either empty
    (the batch was committed) or with the flush timer armed; the saved car
    is then in the buffer or in the table. *)
Theorem X10_save_keeps_buffer_scheduled :
  forall (env : SqliteManager.FlushEnv) (car : Car.t) (s : SqliteManager.t),
    SqliteManager.isShuttingDown s = false ->
    (List.length (SqliteManager.writeBuffer s) < SqliteManager.batchSize)%nat ->
    fst (SqliteManager.saveCar env car s) = Ok tt ->
    let s' := snd (SqliteManager.saveCar env car s) in
    (List.length (SqliteManager.writeBuffer s') < SqliteManager.batchSize)%nat /\
    ((SqliteManager.writeBuffer s' = SqliteManager.writeBuffer s ++ [car] /\
      SqliteManager.flushTimer s' = true /\
      SqliteManager.db s' = SqliteManager.db s) \/
     (SqliteManager.writeBuffer s' = [] /\
      SqliteManager.flushTimer s' = false /\
      exists tbl rows,
        SqliteManager.db s = Some tbl /\
        SqliteManager.db s' = Some (tbl ++ rows) /\
        map RecoveryManager.carData rows =
          SqliteManager.writeBuffer s ++ [car])).
Proof.
  intros env car s Hs Hlen Hok s'. subst s'.
  destruct (Nat.le_gt_cases SqliteManager.batchSize
              (List.length (SqliteManager.writeBuffer s) + 1)) as [Hfull|Hroom].
  - rewrite (saveCar_flushes _ _ _ Hs Hfull) in *.
    destruct (SqliteManager.db s) as [tbl|] eqn:Hdb.
    + destruct (SqliteManager.failure env) as [e|] eqn:Hf.
      * destruct (SqliteManager.torn env) as [k|] eqn:Ht.
        -- rewrite (flushBuffer_torn _ _ tbl e k) in Hok;
             [discriminate Hok|reflexivity|apply app_not_nil|exact Hf
             |exact Ht].
        -- rewrite (flushBuffer_fails _ _ tbl e) in Hok;
             [discriminate Hok|reflexivity|apply app_not_nil|exact Hf
             |exact Ht].
      * rewrite (flushBuffer_inserts _ _ tbl) in *;
          try reflexivity; try exact Hf; try apply app_not_nil.
        cbn [SqliteManager.writeBuffer SqliteManager.instanceId
             SqliteManager.isShuttingDown] in *.
        destruct (SqliteManager.insert_all _ tbl) as [tbl'|] eqn:E;
          [|discriminate Hok].
        cbn. split; [unfold SqliteManager.batchSize; lia|]. right.
        split; [reflexivity|]. split; [reflexivity|].
        exists tbl. eexists. split; [reflexivity|].
        rewrite (insert_all_app _ _ _ E). split; [reflexivity|].
        apply newRows_carData.
    + unfold SqliteManager.flushBuffer in Hok.
      cbn [SqliteManager.writeBuffer SqliteManager.db] in Hok.
      destruct (SqliteManager.writeBuffer s ++ [car]) eqn:E.
      * exfalso. exact (app_not_nil _ _ E).
      * discriminate Hok.
  - rewrite (saveCar_buffers env car s Hs Hroom). cbn.
    split; [rewrite length_app; cbn; lia|]. left. auto.
Qed.

(** X10 at a save into an empty buffer. *)
Lemma X10_witness :
  SqliteManager.writeBuffer
    (snd (SqliteManager.saveCar quietFlush someCar
            (sqliteManager freshWorld))) = [someCar] /\
  SqliteManager.flushTimer
    (snd (SqliteManager.saveCar quietFlush someCar
            (sqliteManager freshWorld))) = true.
Proof.
  destruct (X10_save_keeps_buffer_scheduled quietFlush someCar
              (sqliteManager freshWorld))
    as (_ & [(H1 & H2 & _)|(H1 & _)]).
  - reflexivity.
  - vm_compute. lia.
  - reflexivity.
  - split; [exact H1|exact H2].
  - discriminate H1.
Defined.

(** ** Durable store: what the updates never do *)

Section IdsFacts.
Import PendingCar SqliteManager.

Lemma only_rows_refl (s : SqliteManager.t) : only_rows s s.
Proof. unfold only_rows. auto. Qed.

Lemma only_rows_trans (a b c : SqliteManager.t) :
  only_rows a b -> only_rows b c -> only_rows a c.
Proof.
  unfold only_rows. intros (A1 & A2 & A3 & A4 & A5) (B1 & B2 & B3 & B4 & B5).
  repeat split; congruence.
Qed.

Lemma only_rows_with_db (tbl tbl' : Table) (s : SqliteManager.t) :
  db s = Some tbl -> map id tbl' = map id tbl -> only_rows s (with_db tbl' s).
Proof.
  intros Hdb H. unfold only_rows, ids_of. rewrite Hdb. cbn. rewrite H. auto.
Qed.

Lemma map_id_deliver (carIds jobs : list string) (tbl : Table) :
  map id (map (deliver carIds jobs) tbl) = map id tbl.
Proof.
  rewrite map_map. apply map_ext. intros r.
  apply (deliver_row carIds jobs r).
Qed.

Lemma map_id_release (carIds : list string) (tbl : Table) :
  map id (map (release carIds) tbl) = map id tbl.
Proof.
  rewrite map_map. apply map_ext. intros r. apply (release_row carIds r).
Qed.

Lemma claim_only_rows limit inst now failure (s : SqliteManager.t) :
  only_rows s (snd (getAndMarkPendingCars limit inst now failure s)).
Proof.
  unfold getAndMarkPendingCars. destruct (db s) as [tbl|] eqn:Hdb;
    [|apply only_rows_refl].
  destruct failure; [apply only_rows_refl|]. cbn [snd].
  apply (only_rows_with_db tbl); [exact Hdb|].
  apply update_where_ids. reflexivity.
Qed.

Lemma recovering_only_rows carIds inst now failure (s : SqliteManager.t) :
  only_rows s (snd (markCarsAsRecovering carIds inst now failure s)).
Proof.
  unfold markCarsAsRecovering. destruct (db s) as [tbl|] eqn:Hdb;
    [|apply only_rows_refl].
  destruct carIds; [apply only_rows_refl|].
  destruct failure; [apply only_rows_refl|]. cbn [snd].
  apply (only_rows_with_db tbl); [exact Hdb|].
  apply update_where_ids. reflexivity.
Qed.

Lemma cleanup_only_rows maxAgeMs now failure (s : SqliteManager.t) :
  only_rows s (snd (cleanupStaleRecoveries maxAgeMs now failure s)).
Proof.
  unfold cleanupStaleRecoveries. destruct (db s) as [tbl|] eqn:Hdb;
    [|apply only_rows_refl].
  destruct failure; [apply only_rows_refl|]. cbn [snd].
  apply (only_rows_with_db tbl); [exact Hdb|].
  apply update_where_ids. reflexivity.
Qed.

Lemma sent_only_rows carIds jobs fault (s : SqliteManager.t) :
  only_rows s (snd (markCarsAsSent carIds jobs fault s)).
Proof.
  destruct (db s) as [tbl|] eqn:Hdb.
  - destruct (markCarsAsSent_db s tbl carIds jobs fault Hdb) as [k ->].
    apply (only_rows_with_db tbl); [exact Hdb|apply map_id_deliver].
  - unfold markCarsAsSent. rewrite Hdb. apply only_rows_refl.
Qed.

Lemma pending_only_rows carIds fault (s : SqliteManager.t) :
  only_rows s (snd (markCarsAsPending carIds fault s)).
Proof.
  destruct (db s) as [tbl|] eqn:Hdb.
  - destruct (markCarsAsPending_db s tbl carIds fault Hdb) as [k ->].
    apply (only_rows_with_db tbl); [exact Hdb|apply map_id_release].
  - unfold markCarsAsPending. rewrite Hdb. apply only_rows_refl.
Qed.

Lemma flushBuffer_unique (env : FlushEnv) (s : SqliteManager.t) (tbl : Table) :
  db s = Some tbl -> unique_ids tbl ->
  exists tbl', db (snd (flushBuffer env s)) = Some tbl' /\ unique_ids tbl'.
Proof.
  intros Hdb Hu. unfold flushBuffer.
  destruct (writeBuffer s) as [|c cs]; [exists tbl; auto|].
  rewrite Hdb. destruct (failure env) as [e|].
  - destruct (torn env) as [k|]; [|exists tbl; auto].
    pose proof (insert_each_unique
                  (skipn k (newRows (instanceId s) env 0 (c :: cs))) tbl Hu)
      as H.
    destruct (insert_each _ tbl) as [tbl' all]. exists tbl'. auto.
  - destruct (insert_all _ tbl) as [tbl'|] eqn:E; [|exists tbl; auto].
    exists tbl'. split; [reflexivity|]. eapply insert_all_unique; eassumption.
Qed.

Lemma only_rows_unique (s s' : SqliteManager.t) (tbl : Table) :
  only_rows s s' -> db s = Some tbl -> unique_ids tbl ->
  exists tbl', db s' = Some tbl' /\ map id tbl' = map id tbl /\ unique_ids tbl'.
Proof.
  unfold only_rows, ids_of, unique_ids. intros (H & _) Hdb Hu.
  rewrite Hdb in H. cbn in H.
  destruct (db s') as [tbl'|]; [|discriminate H].
  injection H as H. exists tbl'. rewrite H. auto.
Qed.

End IdsFacts.

(** X11. No update of the durable store adds a row, removes one or
    changes an id, whatever its arguments and whether or not a statement
    of it fails: after [getAndMarkPendingCars], [markCarsAsRecovering],
    [markCarsAsSent], [markCarsAsPending] and [cleanupStaleRecoveries] the
    [id] column is the same list, and the buffer, the flush timer and the
    shutdown flag are untouched. [saveCar] and the flush keep the rows of
    the table and only append. Hence the ids of the table stay pairwise
    different under every operation. *)
Theorem X11_updates_keep_ids :
  forall (s : SqliteManager.t),
    (forall limit instanceId now failure,
       SqliteManager.only_rows s
         (snd (SqliteManager.getAndMarkPendingCars limit instanceId now
                 failure s))) /\
    (forall carIds instanceId now failure,
       SqliteManager.only_rows s
         (snd (SqliteManager.markCarsAsRecovering carIds instanceId now
                 failure s))) /\
    (forall carIds redisJobIds fault,
       SqliteManager.only_rows s
         (snd (SqliteManager.markCarsAsSent carIds redisJobIds fault s))) /\
    (forall carIds fault,
       SqliteManager.only_rows s
         (snd (SqliteManager.markCarsAsPending carIds fault s))) /\
    (forall maxAgeMs now failure,
       SqliteManager.only_rows s
         (snd (SqliteManager.cleanupStaleRecoveries maxAgeMs now failure s))) /\
    (forall tbl s',
       SqliteManager.db s = Some tbl -> SqliteManager.unique_ids tbl ->
       ((exists env car, s' = snd (SqliteManager.saveCar env car s)) \/
        (exists env, s' = snd (SqliteManager.flushBuffer env s)) \/
        SqliteManager.only_rows s s') ->
       exists tbl',
         SqliteManager.db s' = Some tbl' /\ SqliteManager.unique_ids tbl').
Proof.
  intros s.
  split; [intros; apply claim_only_rows|].
  split; [intros; apply recovering_only_rows|].
  split; [intros; apply sent_only_rows|].
  split; [intros; apply pending_only_rows|].
  split; [intros; apply cleanup_only_rows|].
  intros tbl s' Hdb Hu [(env & car & ->)|[(env & ->)|H]].
  - unfold SqliteManager.saveCar.
    destruct (SqliteManager.isShuttingDown s); [exists tbl; auto|].
    cbn [SqliteManager.writeBuffer SqliteManager.db SqliteManager.isShuttingDown
         SqliteManager.instanceId SqliteManager.flushTimer].
    destruct (_ <=? _)%nat; [|exists tbl; auto].
    apply (flushBuffer_unique env _ tbl); [exact Hdb|exact Hu].
  - apply (flushBuffer_unique env s tbl Hdb Hu).
  - destruct (only_rows_unique s s' tbl H Hdb Hu) as (tbl' & H1 & _ & H3).
    exists tbl'. auto.
Qed.

(** X11 at a claim on a table of two rows. *)
Lemma X11_witness :
  exists tbl',
    SqliteManager.db
      (snd (SqliteManager.getAndMarkPendingCars 1 "instance-1-0" 5000 None
              storeAB)) = Some tbl' /\
    SqliteManager.unique_ids tbl'.
Proof.
  destruct (X11_updates_keep_ids storeAB) as (H1 & _ & _ & _ & _ & H6).
  apply (H6 [rowA; rowB]).
  - reflexivity.
  - unfold SqliteManager.unique_ids. cbn.
    constructor; [|constructor; [|constructor]].
    + cbn. intros [H|[]]. discriminate H.
    + intros [].
  - right. right. apply H1.
Defined.

(** ** The drain: what it leaves alone *)

Section DrainFrame.
Import SqliteManager RecoveryManager.

Lemma grows_refl (r : Remote.t) : grows r r.
Proof. split; exists []; rewrite app_nil_r; reflexivity. Qed.

Lemma grows_trans (a b c : Remote.t) : grows a b -> grows b c -> grows a c.
Proof.
  intros [[x Hx] [y Hy]] [[x' Hx'] [y' Hy']]. split.
  - exists (x ++ x'). rewrite Hx', Hx, app_assoc. reflexivity.
  - exists (y ++ y'). rewrite Hy', Hy, app_assoc. reflexivity.
Qed.

Lemma grows_add name data o (r : Remote.t) : grows r (Remote.add name data o r).
Proof.
  split; cbn.
  - eexists; reflexivity.
  - destruct o; [eexists; reflexivity|exists []; rewrite app_nil_r; reflexivity].
Qed.

Lemma grows_ping (r : Remote.t) : grows r (Remote.ping r).
Proof.
  split; cbn; [eexists; reflexivity|exists []; rewrite app_nil_r; reflexivity].
Qed.

Lemma untouched_refl (w : World) : untouched w w.
Proof.
  unfold untouched.
  split; [reflexivity|]. split; [reflexivity|]. split; [reflexivity|].
  split; [apply only_rows_refl|apply grows_refl].
Qed.

Lemma untouched_trans (a b c : World) :
  untouched a b -> untouched b c -> untouched a c.
Proof.
  intros (A1 & A2 & A3 & A4 & A5) (B1 & B2 & B3 & B4 & B5).
  unfold untouched.
  split; [congruence|]. split; [congruence|]. split; [congruence|].
  split; [eapply only_rows_trans; eassumption|].
  apply (grows_trans _ _ _ A5 B5).
Qed.

Lemma untouched_sql (s' : SqliteManager.t) (w : World) :
  only_rows (sqliteManager w) s' -> untouched w (with_sqliteManager s' w).
Proof.
  intros H. unfold untouched. cbn.
  split; [reflexivity|]. split; [reflexivity|]. split; [reflexivity|].
  split; [exact H|apply grows_refl].
Qed.

Lemma untouched_remote (r : Remote.t) (w : World) :
  grows (remote w) r -> untouched w (with_remote r w).
Proof.
  intros H. unfold untouched. cbn.
  split; [reflexivity|]. split; [reflexivity|]. split; [reflexivity|].
  split; [apply only_rows_refl|exact H].
Qed.

Lemma isRedisAvailable_untouched (env : AvailEnv) (self : RecoveryManager.t)
    (w : World) :
  untouched w (snd (isRedisAvailable env self w)).
Proof.
  unfold isRedisAvailable, testRedisWrite.
  destruct (redisClient self); [|apply untouched_refl]. cbn [negb].
  destruct (CircuitBreaker.isOpen (circuitBreaker w)); [apply untouched_refl|].
  destruct (queue self); cbn [negb snd].
  - eapply untouched_trans; [apply untouched_remote, grows_ping|].
    apply untouched_remote, grows_add.
  - apply untouched_remote, grows_ping.
Qed.

Lemma enqueueAll_grows (cars : list PendingCar.t) :
  forall i adds r, grows r (snd (enqueueAll i adds cars r)).
Proof.
  induction cars as [|car cars IH]; intros i adds r.
  - apply grows_refl.
  - cbn [enqueueAll].
    pose proof (IH (S i) adds
                  (Remote.add "car" (Remote.CarData (carData car)) (adds i) r))
      as H.
    destruct (enqueueAll (S i) adds cars _) as [[ok ko] r'].
    cbn [snd] in H.
    assert (G : grows r r').
    { eapply grows_trans; [apply grows_add|exact H]. }
    destruct (adds i); exact G.
Qed.

Lemma revertBatch_untouched env cars tot (w : World) :
  untouched w (snd (revertBatch env cars tot w)).
Proof.
  unfold revertBatch.
  pose proof (pending_only_rows (map PendingCar.id cars) (revertFault env)
                (sqliteManager w)) as H.
  destruct (markCarsAsPending _ _ _) as [[?|?] s]; cbn [snd] in *;
    apply untouched_sql, H.
Qed.

Lemma drainBatch_untouched env self tot (w : World) :
  untouched w (snd (drainBatch env self tot w)).
Proof.
  unfold drainBatch.
  pose proof (claim_only_rows (chunkSize self) (RecoveryManager.instanceId self)
                (claimNow env) (claimFailure env) (sqliteManager w)) as Hc.
  destruct (getAndMarkPendingCars _ _ _ _ _) as [[rows|e] s]; cbn [snd] in Hc;
    [|apply untouched_sql, Hc].
  destruct rows as [|r0 rows']; [apply untouched_sql, Hc|].
  set (rows := r0 :: rows').
  apply (untouched_trans _ (with_sqliteManager s w));
    [apply untouched_sql, Hc|].
  generalize (with_sqliteManager s w). clear. intros w.
  pose proof (isRedisAvailable_untouched (avail env) self w) as Ha.
  destruct (isRedisAvailable (avail env) self w) as [b w2]. cbn [snd] in Ha.
  apply (untouched_trans _ w2); [exact Ha|]. clear Ha w.
  destruct b; cbn [negb].
  - pose proof (enqueueAll_grows rows 0%nat (adds env) (remote w2)) as He.
    destruct (enqueueAll 0 (adds env) rows (remote w2)) as [[ok ko] rq].
    cbn [snd] in He.
    apply (untouched_trans _ (with_remote rq w2));
      [apply untouched_remote, He|].
    generalize (with_remote rq w2). clear. intros w.
    pose proof (sent_only_rows (map fst ok) (map snd ok) (sentFault env)
                  (sqliteManager w)) as Hs.
    destruct (markCarsAsSent _ _ _ _) as [[?|?] s]; cbn [snd] in Hs.
    + apply (untouched_trans _ (with_sqliteManager s w));
        [apply untouched_sql, Hs|].
      generalize (with_sqliteManager s w). clear. intros w.
      pose proof (pending_only_rows ko (pendingFault env) (sqliteManager w))
        as Hp.
      destruct (markCarsAsPending ko _ _) as [[?|?] s]; cbn [snd] in Hp.
      * apply untouched_sql, Hp.
      * apply (untouched_trans _ (with_sqliteManager s w));
          [apply untouched_sql, Hp|apply revertBatch_untouched].
    + apply (untouched_trans _ (with_sqliteManager s w));
        [apply untouched_sql, Hs|apply revertBatch_untouched].
  - pose proof (pending_only_rows (map PendingCar.id rows) (revertFault env)
                  (sqliteManager w2)) as Hp.
    destruct (markCarsAsPending _ _ _) as [[?|?] s]; cbn [snd] in Hp;
      apply untouched_sql, Hp.
Qed.

Lemma drainLoop_untouched (envs : list BatchEnv) :
  forall self tot (w : World) o w',
    drainLoop envs self tot w = Some (o, w') -> untouched w w'.
Proof.
  induction envs as [|env envs IH]; intros self tot w o w' H; [discriminate H|].
  cbn [drainLoop] in H.
  pose proof (drainBatch_untouched env self tot w) as Hb.
  destruct (drainBatch env self tot w) as [[[[|] tot']|e] w1]; cbn [snd] in Hb.
  - eapply untouched_trans; [exact Hb|]. eapply IH; exact H.
  - injection H as _ <-. exact Hb.
  - injection H as _ <-. exact Hb.
Qed.

Lemma recoverPendingEntries_untouched env self (w : World) o w' :
  recoverPendingEntries env self w = Some (o, w') -> untouched w w'.
Proof.
  unfold recoverPendingEntries. intros H.
  destruct (queue self); cbn [negb] in H;
    [|injection H as _ <-; apply untouched_refl].
  pose proof (cleanup_only_rows (5 * 60 * 1000) (cleanupNow env)
                (cleanupFailure env) (sqliteManager w)) as Hc.
  destruct (cleanupStaleRecoveries _ _ _ _) as [[n|e] s]; cbn [snd] in Hc.
  - eapply untouched_trans; [apply untouched_sql, Hc|].
    eapply drainLoop_untouched; exact H.
  - injection H as _ <-. apply untouched_sql, Hc.
Qed.

Lemma triggerRecovery_keeps (env : TriggerEnv) (self self' : RecoveryManager.t)
    (w w' : World) :
  triggerRecovery env self w = Some (self', w') ->
  stateManager w' = stateManager w /\
  circuitBreaker w' = circuitBreaker w /\
  SqliteManager.only_rows (sqliteManager w) (sqliteManager w') /\
  grows (remote w) (remote w').
Proof.
  intros H.
  assert (U : forall a b : World,
             untouched a b ->
             stateManager b = stateManager a /\
             circuitBreaker b = circuitBreaker a /\
             SqliteManager.only_rows (sqliteManager a) (sqliteManager b) /\
             grows (remote a) (remote b)).
  { intros a b (U1 & U2 & _ & U4 & U5). auto. }
  unfold RecoveryManager.triggerRecovery in H.
  destruct (RecoveryManager.isRecovering self);
    [injection H as _ <-; apply U, untouched_refl|].
  destruct (_ <? _);
    [injection H as _ <-; apply U, untouched_refl|].
  pose proof (isRedisAvailable_untouched (RecoveryManager.available env)
                (RecoveryManager.with_recovering false
                   (RecoveryManager.now env) self) w) as Ha.
  destruct (RecoveryManager.isRedisAvailable _ _ w) as [b w1].
  cbn [snd] in Ha.
  destruct b; cbn [negb] in H; [|injection H as _ <-; apply U, Ha].
  destruct (RecoveryManager.recoverPendingEntries _ _ _) as [[o w2]|] eqn:E;
    [|discriminate H].
  apply recoverPendingEntries_untouched in E.
  destruct Ha as (A1 & A2 & _ & A4 & A5).
  destruct E as (E1 & E2 & _ & E4 & E5). cbn in E1, E2, E4, E5.
  assert (R : stateManager w2 = stateManager w /\
              circuitBreaker w2 = circuitBreaker w /\
              SqliteManager.only_rows (sqliteManager w) (sqliteManager w2) /\
              grows (remote w) (remote w2)).
  { split; [congruence|]. split; [congruence|].
    split; [apply (only_rows_trans _ _ _ A4 E4)|].
    apply (grows_trans _ _ _ A5 E5). }
  destruct o; injection H as _ <-; exact R.
Qed.

End DrainFrame.

(** X12. A drain changes nothing but the rows' columns and the remote
    queue. Whatever the environment does (failed claims, failed updates,
    rejected jobs, an unavailable store), one batch, the whole of
    [recoverPendingEntries] and [triggerRecovery] leave the seeder state
    and the circuit breaker exactly as they were, add and remove no row,
    keep the write buffer, and only append to the calls and jobs of the
    remote queue; below [triggerRecovery] the metrics are untouched too.
    In particular a drain that delivers every pending car does not put the
    seeder back into REDIS_MODE and does not close the breaker. *)
Theorem X12_drain_frame :
  forall (self : RecoveryManager.t) (w : World),
    (forall env tot,
       untouched w (snd (RecoveryManager.drainBatch env self tot w))) /\
    (forall env o w',
       RecoveryManager.recoverPendingEntries env self w = Some (o, w') ->
       untouched w w') /\
    (forall env self' w',
       RecoveryManager.triggerRecovery env self w = Some (self', w') ->
       stateManager w' = stateManager w /\
       circuitBreaker w' = circuitBreaker w /\
       SqliteManager.only_rows (sqliteManager w) (sqliteManager w') /\
       grows (remote w) (remote w')).
Proof.
  intros self w.
  split; [intros; apply drainBatch_untouched|].
  split; [intros env o w'; apply recoverPendingEntries_untouched|].
  intros env self' w'. apply triggerRecovery_keeps.
Qed.

(** X12 at a drain that delivers the two pending cars of a store in
    SQLITE_MODE. *)
Lemma X12_witness :
  exists o w',
    RecoveryManager.recoverPendingEntries cleanDrain readyManager
      (with_sqliteManager storeAB probingWorld) = Some (o, w') /\
    stateManager w' = StateManager.mk SQLITE_MODE /\
    CircuitBreaker.state (circuitBreaker w') = HALF_OPEN.
Proof.
  destruct (RecoveryManager.recoverPendingEntries cleanDrain readyManager
              (with_sqliteManager storeAB probingWorld)) as [[o w']|] eqn:E;
    [|vm_compute in E; discriminate E].
  exists o, w'. split; [reflexivity|].
  destruct (X12_drain_frame readyManager
              (with_sqliteManager storeAB probingWorld)) as (_ & H & _).
  destruct (H cleanDrain o w' E) as (H1 & H2 & _).
  rewrite H1, H2. split; reflexivity.
Defined.

(** ** Durable store: counting the pending rows *)

Section PendingCount.
Import PendingCar SqliteManager.

Lemma filter_update_out (P cond : PendingCar.t -> bool) set (tbl : Table) :
  (forall r, cond r = true -> P r = true /\ P (set r) = false) ->
  (List.length (filter P (update_where cond set tbl)) +
   List.length (filter cond tbl) = List.length (filter P tbl))%nat.
Proof.
  intros H. unfold update_where.
  induction tbl as [|r tbl IH]; [reflexivity|]. cbn [map filter].
  destruct (cond r) eqn:C.
  - destruct (H r C) as [-> ->]. cbn [List.length]. lia.
  - destruct (P r); cbn [List.length]; lia.
Qed.

Lemma filter_update_in (P cond : PendingCar.t -> bool) set (tbl : Table) :
  (forall r, cond r = true -> P r = false /\ P (set r) = true) ->
  (List.length (filter P (update_where cond set tbl)) =
   List.length (filter P tbl) + List.length (filter cond tbl))%nat.
Proof.
  intros H. unfold update_where.
  induction tbl as [|r tbl IH]; [reflexivity|]. cbn [map filter].
  destruct (cond r) eqn:C.
  - destruct (H r C) as [-> ->]. cbn [List.length]. lia.
  - destruct (P r); cbn [List.length]; lia.
Qed.

Lemma getPendingCount_with_db (tbl : Table) (s : SqliteManager.t) :
  getPendingCount (with_db tbl s) =
  Z.of_nat (List.length (filter (hasStatus PENDING) tbl)).
Proof. reflexivity. Qed.

End PendingCount.

(** X13. The number of PENDING rows is accounted for by the results the
    store returns. A claim that commits lowers [getPendingCount] by the
    number of rows it returns, which is the smaller of the limit and the
    count (and the whole count for a negative limit, which SQLite reads as
    no limit); [markCarsAsRecovering] lowers it by the number of changes
    it returns; [cleanupStaleRecoveries] raises it by the number it
    returns. *)
Theorem X13_pending_count_accounting :
  forall (s : SqliteManager.t) (tbl : SqliteManager.Table),
    SqliteManager.db s = Some tbl ->
    SqliteManager.unique_ids tbl ->
    (forall limit instanceId now rows s',
       SqliteManager.getAndMarkPendingCars limit instanceId now None s =
         (Ok rows, s') ->
       SqliteManager.getPendingCount s' =
         SqliteManager.getPendingCount s - RecoveryManager.lengthZ rows /\
       (0 <= limit ->
        RecoveryManager.lengthZ rows =
          Z.min limit (SqliteManager.getPendingCount s)) /\
       (limit < 0 -> SqliteManager.getPendingCount s' = 0)) /\
    (forall carIds instanceId now n s',
       SqliteManager.markCarsAsRecovering carIds instanceId now None s =
         (Ok n, s') ->
       SqliteManager.getPendingCount s' = SqliteManager.getPendingCount s - n) /\
    (forall maxAgeMs now n s',
       SqliteManager.cleanupStaleRecoveries maxAgeMs now None s = (Ok n, s') ->
       SqliteManager.getPendingCount s' = SqliteManager.getPendingCount s + n).
Proof.
  intros s tbl Hdb Hu.
  assert (Hc : SqliteManager.getPendingCount s =
               Z.of_nat (List.length
                           (filter (SqliteManager.hasStatus PENDING) tbl))).
  { unfold SqliteManager.getPendingCount. rewrite Hdb. reflexivity. }
  split; [|split].
  - intros limit inst now rows s' H.
    unfold SqliteManager.getAndMarkPendingCars in H. rewrite Hdb in H.
    injection H as <- <-.
    rewrite getPendingCount_with_db, Hc.
    unfold RecoveryManager.lengthZ, SqliteManager.returning.
    rewrite length_map.
    pose proof (filter_update_out (SqliteManager.hasStatus PENDING)
                  (SqliteManager.claim_where limit tbl)
                  (SqliteManager.set_recovering inst now) tbl) as F.
    assert (G : forall r, SqliteManager.claim_where limit tbl r = true ->
                  SqliteManager.hasStatus PENDING r = true /\
                  SqliteManager.hasStatus PENDING
                    (SqliteManager.set_recovering inst now r) = false).
    { intros r C. unfold SqliteManager.claim_where in C.
      apply andb_true_iff in C. destruct C as [_ C]. split; [exact C|reflexivity]. }
    specialize (F G).
    pose proof (Permutation_length
                  (claimed_rows_perm limit tbl Hu)) as L.
    split; [lia|]. split.
    + intros Hl. rewrite L, (selected_length limit tbl Hl). lia.
    + intros Hl.
      assert (L2 : List.length (SqliteManager.selected_rows limit tbl) =
                   List.length (filter (SqliteManager.hasStatus PENDING) tbl)).
      { unfold SqliteManager.selected_rows, SqliteManager.sql_limit.
        destruct (Z.ltb_spec limit 0) as [_|Hge]; [|lia].
        apply Permutation_length, order_perm. }
      lia.
  - intros carIds inst now n s' H.
    unfold SqliteManager.markCarsAsRecovering in H. rewrite Hdb in H.
    destruct carIds as [|c carIds].
    + injection H as <- <-. lia.
    + injection H as <- <-.
      rewrite getPendingCount_with_db, Hc. unfold SqliteManager.changes.
      pose proof (filter_update_out (SqliteManager.hasStatus PENDING)
                    (SqliteManager.recovering_where (c :: carIds))
                    (SqliteManager.set_recovering inst now) tbl) as F.
      assert (G : forall r,
                    SqliteManager.recovering_where (c :: carIds) r = true ->
                    SqliteManager.hasStatus PENDING r = true /\
                    SqliteManager.hasStatus PENDING
                      (SqliteManager.set_recovering inst now r) = false).
      { intros r C. unfold SqliteManager.recovering_where in C.
        apply andb_true_iff in C. destruct C as [_ C].
        split; [exact C|reflexivity]. }
      specialize (F G). lia.
  - intros maxAgeMs now n s' H.
    unfold SqliteManager.cleanupStaleRecoveries in H. rewrite Hdb in H.
    injection H as <- <-.
    rewrite getPendingCount_with_db, Hc. unfold SqliteManager.changes.
    pose proof (filter_update_in (SqliteManager.hasStatus PENDING)
                  (SqliteManager.stale_where (now - maxAgeMs))
                  SqliteManager.set_pending_released tbl) as F.
    assert (G : forall r,
                  SqliteManager.stale_where (now - maxAgeMs) r = true ->
                  SqliteManager.hasStatus PENDING r = false /\
                  SqliteManager.hasStatus PENDING
                    (SqliteManager.set_pending_released r) = true).
    { intros r C. unfold SqliteManager.stale_where in C.
      apply andb_true_iff in C. destruct C as [C _].
      apply hasStatus_true in C. unfold SqliteManager.hasStatus.
      rewrite C. split; reflexivity. }
    specialize (F G). lia.
Qed.

(** X13 at a claim of one of two pending rows. *)
Lemma X13_witness :
  SqliteManager.getPendingCount storeAB = 2 /\
  SqliteManager.getPendingCount
    (snd (SqliteManager.getAndMarkPendingCars 1 "instance-1-0" 5000 None
            storeAB)) = 1.
Proof.
  split; [reflexivity|].
  assert (Hu : SqliteManager.unique_ids [rowA; rowB]).
  { unfold SqliteManager.unique_ids. cbn.
    constructor; [|constructor; [|constructor]].
    - cbn. intros [H|[]]. discriminate H.
    - intros []. }
  destruct (X13_pending_count_accounting storeAB [rowA; rowB] eq_refl Hu)
    as (H & _ & _).
  destruct (SqliteManager.getAndMarkPendingCars 1 "instance-1-0" 5000 None
              storeAB) as [[rows|e] s'] eqn:E;
    [|vm_compute in E; discriminate E].
  destruct (H 1 "instance-1-0" 5000 rows s' E) as (H1 & H2 & _).
  cbn [snd]. rewrite H1, (H2 ltac:(lia)). reflexivity.
Defined.

(** ** Durable store: the rows an instance holds *)

Section ByInstance.
Import PendingCar SqliteManager.

Lemma instance_where_iff (inst : string) (r : PendingCar.t) :
  instance_where inst r = true <->
  status r = RECOVERING /\ recovery_instance r = Some inst.
Proof.
  unfold instance_where. rewrite andb_true_iff, hasStatus_true.
  destruct (recovery_instance r) as [i|].
  - rewrite String.eqb_eq. split.
    + intros [-> H]. auto.
    + intros [H E]. injection E as ->. auto.
  - split; [intros [H _]; discriminate H|intros [_ H]; discriminate H].
Qed.

Lemma order_In (l : Table) (r : PendingCar.t) :
  In r (order_by_created_at l) <-> In r l.
Proof.
  split; intros H.
  - apply (Permutation_in r (order_perm l)), H.
  - apply (Permutation_in r (Permutation_sym (order_perm l))), H.
Qed.

Lemma filter_claimed (inst : string) (now : Z) cond (tbl : Table) :
  (forall r, In r tbl -> instance_where inst r = false) ->
  filter (instance_where inst) (update_where cond (set_recovering inst now) tbl)
  = map (set_recovering inst now) (filter cond tbl).
Proof.
  unfold update_where. induction tbl as [|r tbl IH]; intros H; [reflexivity|].
  cbn [map filter]. rewrite IH by (intros u Hu; apply H; right; exact Hu).
  destruct (cond r).
  - assert (E : instance_where inst (set_recovering inst now r) = true).
    { apply instance_where_iff. split; reflexivity. }
    rewrite E. reflexivity.
  - rewrite (H r (or_introl eq_refl)). reflexivity.
Qed.

End ByInstance.

(** X14. [getCarsByInstance] returns, oldest first, exactly the rows that
    are RECOVERING and claimed by the given instance. Right after a claim
    has committed, on a store where the instance held nothing, these are
    the rows the claim returned; once a row has been released by
    [markCarsAsPending] it is no longer among them although its
    [recovery_instance] still names the instance. *)
Theorem X14_cars_by_instance :
  forall (s : SqliteManager.t) (tbl : SqliteManager.Table)
         (instanceId : string),
    SqliteManager.db s = Some tbl ->
    (exists rows,
       SqliteManager.getCarsByInstance instanceId None s = Ok rows /\
       StronglySorted SqliteManager.created_le rows /\
       (forall r, In r rows <->
                  In r tbl /\ PendingCar.status r = RECOVERING /\
                  PendingCar.recovery_instance r = Some instanceId)) /\
    (forall limit now claimed s',
       SqliteManager.getCarsByInstance instanceId None s = Ok [] ->
       SqliteManager.getAndMarkPendingCars limit instanceId now None s =
         (Ok claimed, s') ->
       exists rows,
         SqliteManager.getCarsByInstance instanceId None s' = Ok rows /\
         Permutation rows claimed) /\
    (forall carIds rows r,
       SqliteManager.getCarsByInstance instanceId None
         (snd (SqliteManager.markCarsAsPending carIds None s)) = Ok rows ->
       In r rows -> ~ In (PendingCar.id r) carIds).
Proof.
  intros s tbl inst Hdb. split; [|split].
  - exists (SqliteManager.order_by_created_at
              (filter (SqliteManager.instance_where inst) tbl)).
    unfold SqliteManager.getCarsByInstance. rewrite Hdb.
    split; [reflexivity|]. split; [apply order_sorted|].
    intros r.
    rewrite order_In, filter_In, instance_where_iff.
    tauto.
  - intros limit now claimed s' H0 H.
    unfold SqliteManager.getCarsByInstance in H0. rewrite Hdb in H0.
    injection H0 as H0.
    assert (Hn : forall r, In r tbl ->
                   SqliteManager.instance_where inst r = false).
    { intros r Hr. destruct (SqliteManager.instance_where inst r) eqn:E;
        [|reflexivity].
      assert (Hin : In r (SqliteManager.order_by_created_at
                            (filter (SqliteManager.instance_where inst) tbl))).
      { apply order_In, filter_In. auto. }
      rewrite H0 in Hin. destruct Hin. }
    unfold SqliteManager.getAndMarkPendingCars in H. rewrite Hdb in H.
    injection H as <- <-.
    unfold SqliteManager.getCarsByInstance. cbn [SqliteManager.db SqliteManager.with_db].
    eexists. split; [reflexivity|].
    rewrite (filter_claimed inst now _ tbl Hn). apply order_perm.
  - intros carIds rows r H Hin Hid.
    rewrite (markCarsAsPending_ok s tbl carIds Hdb) in H. cbn [snd] in H.
    unfold SqliteManager.getCarsByInstance in H.
    cbn [SqliteManager.db SqliteManager.with_db] in H.
    injection H as <-.
    apply order_In, filter_In in Hin.
    destruct Hin as [Hm Hw]. apply instance_where_iff in Hw.
    apply in_map_iff in Hm. destruct Hm as (r0 & <- & _).
    destruct (release_row carIds r0) as (R1 & _ & R3 & _).
    cbn zeta in R1, R3. rewrite R1 in Hid. rewrite (R3 Hid) in Hw.
    destruct Hw as [Hw _]. discriminate Hw.
Qed.

(** X14 at the claim of the older of two pending rows. *)
Lemma X14_witness :
  exists rows,
    SqliteManager.getCarsByInstance "instance-1-0" None
      (snd (SqliteManager.getAndMarkPendingCars 1 "instance-1-0" 5000 None
              storeAB)) = Ok rows /\
    Permutation rows
      [SqliteManager.set_recovering "instance-1-0" 5000 rowA].
Proof.
  destruct (X14_cars_by_instance storeAB [rowA; rowB] "instance-1-0" eq_refl)
    as (_ & H & _).
  apply (H 1 5000); reflexivity.
Defined.

(** ** Durable store: marking rows as sent *)

Section MarkSent.
Import PendingCar SqliteManager.

Lemma nth_error_tl {A : Type} (l : list A) (i : nat) :
  nth_error (tl l) i = nth_error l (S i).
Proof. destruct l; [destruct i|]; reflexivity. Qed.

Lemma hd_error_nth {A : Type} (l : list A) : hd_error l = nth_error l 0.
Proof. destruct l; reflexivity. Qed.

Lemma deliver_nth (carIds : list string) :
  forall redisJobIds i r,
    NoDup carIds -> nth_error carIds i = Some (id r) ->
    deliver carIds redisJobIds r =
    set_sent (jobIdOrNull (nth_error redisJobIds i)) r.
Proof.
  induction carIds as [|c carIds IH]; intros jobs i r Hnd Hi.
  - destruct i; discriminate Hi.
  - inversion Hnd as [|? ? Hc Hnd']; subst. cbn [deliver].
    destruct i as [|i]; cbn [nth_error] in Hi.
    + injection Hi as ->.
      assert (E : hasId (id r) r = true) by (apply hasId_true; reflexivity).
      rewrite E, hd_error_nth.
      apply (deliver_row carIds (tl jobs)
               (set_sent (jobIdOrNull (nth_error jobs 0)) r)).
      exact Hc.
    + assert (E : hasId c r = false).
      { destruct (hasId c r) eqn:E; [|reflexivity].
        apply hasId_true in E. exfalso. apply Hc. rewrite <- E.
        eapply nth_error_In; exact Hi. }
      rewrite E, (IH (tl jobs) i r Hnd' Hi), nth_error_tl. reflexivity.
Qed.

Lemma sentStatements_length (carIds : list string) :
  forall redisJobIds,
    List.length (sentStatements carIds redisJobIds) = List.length carIds.
Proof.
  induction carIds as [|c carIds IH]; intros jobs; [reflexivity|].
  cbn [sentStatements List.length]. rewrite IH. reflexivity.
Qed.

Lemma deliver_twice (carIds redisJobIds : list string) (r : PendingCar.t) :
  NoDup carIds ->
  deliver carIds redisJobIds (deliver carIds redisJobIds r) =
  deliver carIds redisJobIds r.
Proof.
  intros Hnd. destruct (in_dec string_dec (id r) carIds) as [Hin|Hout].
  - destruct (In_nth_error _ _ Hin) as [i Hi].
    rewrite (deliver_nth carIds redisJobIds i r Hnd Hi).
    apply (deliver_nth carIds redisJobIds i
             (set_sent (jobIdOrNull (nth_error redisJobIds i)) r) Hnd Hi).
  - destruct (deliver_row carIds redisJobIds r) as (_ & _ & H).
    rewrite (H Hout). exact (H Hout).
Qed.

End MarkSent.

(** X15. [markCarsAsSent] on distinct ids sets, on the row of the id at
    position [i], the status to SENT and [redis_job_id] to the job id at
    position [i], or to NULL if that id is missing or empty; the other
    columns of the row, and the rows whose id is not listed, are
    unchanged, whatever the status of the row was. The call is not atomic:
    if the update of index [k] fails, the rows of the first [k] ids stay
    marked and the call rejects. Repeating a call that went through
    changes nothing. *)
Theorem X15_mark_sent :
  forall (s : SqliteManager.t) (tbl : SqliteManager.Table)
         (carIds redisJobIds : list string),
    SqliteManager.db s = Some tbl ->
    NoDup carIds ->
    let s' := snd (SqliteManager.markCarsAsSent carIds redisJobIds None s) in
    (exists tbl',
       SqliteManager.db s' = Some tbl' /\
       Forall2
         (fun r r' =>
            (forall i, nth_error carIds i = Some (PendingCar.id r) ->
               r' = SqliteManager.set_sent
                      (SqliteManager.jobIdOrNull (nth_error redisJobIds i)) r) /\
            (~ In (PendingCar.id r) carIds -> r' = r))
         tbl tbl') /\
    (forall k e,
       (k < List.length carIds)%nat ->
       fst (SqliteManager.markCarsAsSent carIds redisJobIds (Some (k, e)) s) =
         Throw e /\
       SqliteManager.db
         (snd (SqliteManager.markCarsAsSent carIds redisJobIds (Some (k, e)) s))
       = SqliteManager.db
           (snd (SqliteManager.markCarsAsSent (firstn k carIds) redisJobIds
                   None s))) /\
    SqliteManager.markCarsAsSent carIds redisJobIds None s' = (Ok tt, s').
Proof.
  intros s tbl carIds jobs Hdb Hnd s'. subst s'.
  rewrite (markCarsAsSent_ok s tbl carIds jobs Hdb). cbn [snd].
  split; [|split].
  - eexists. split; [reflexivity|].
    clear Hdb. induction tbl as [|r tbl IH]; [constructor|].
    cbn [map]. constructor; [|exact IH]. split.
    + intros i Hi. apply deliver_nth; assumption.
    + exact (proj2 (proj2 (deliver_row carIds jobs r))).
  - intros k e Hk.
    rewrite (markCarsAsSent_ok s tbl (firstn k carIds) jobs Hdb). cbn [snd].
    unfold SqliteManager.markCarsAsSent. rewrite Hdb.
    destruct carIds as [|c carIds]; [cbn in Hk; lia|].
    unfold SqliteManager.run_statements.
    rewrite sentStatements_length.
    destruct (Nat.ltb_spec k (List.length (c :: carIds))) as [_|Hge]; [|lia].
    cbn [fst snd]. split; [reflexivity|].
    rewrite firstn_sentStatements, sentStatements_rows. reflexivity.
  - rewrite (markCarsAsSent_ok _ (map (SqliteManager.deliver carIds jobs) tbl))
      by reflexivity.
    f_equal. unfold SqliteManager.with_db. cbn. f_equal. f_equal.
    rewrite map_map. apply map_ext. intros r. apply deliver_twice, Hnd.
Qed.

(** X15 at the delivery of the first of two rows. *)
Lemma X15_witness :
  let s' := snd (SqliteManager.markCarsAsSent [PendingCar.id rowA] ["job-1"]
                   None storeAB) in
  SqliteManager.db s' =
    Some [SqliteManager.set_sent (Some "job-1") rowA; rowB] /\
  SqliteManager.markCarsAsSent [PendingCar.id rowA] ["job-1"] None s' =
    (Ok tt, s').
Proof.
  split; [reflexivity|].
  assert (Hnd : NoDup [PendingCar.id rowA]).
  { constructor; [intros []|constructor]. }
  destruct (X15_mark_sent storeAB [rowA; rowB] [PendingCar.id rowA] ["job-1"]
              eq_refl Hnd) as (_ & _ & H).
  exact H.
Defined.

(** ** Recovery: guards and events *)

Section TriggerFacts.
Import Metrics.


End TriggerFacts.



(** ** From the first failure to the fallback *)

Section Outage.
Import WriteHandler.

(** A write whose enqueue fails with a transport error, on a closed
    breaker in REDIS_MODE. *)
Lemma failing_write (self : WriteHandler.t) (env : Env) (car : Car.t)
    (w : World) (e : JsError) (n thr cd : Z) :
  queue self = true ->
  circuitBreaker w = CircuitBreaker.mk CLOSED n thr cd None ->
  StateManager.currentState (stateManager w) = REDIS_MODE ->
  add env = Throw e ->
  isRedisConnectionError (Some e) = true ->
  writeCar self env car w =
  writeToSqlite env car
    (if thr <=? n + 1
     then mkWorld (StateManager.mk SQLITE_MODE)
            (CircuitBreaker.mk OPEN (n + 1) thr cd (Some cd))
            (sqliteManager w)
            (Metrics.incrementSqliteFallbackCount
               (Metrics.recordStateTransitionToSqlite REDIS_MODE
                  (tToSqlite env)
                  (Metrics.recordMasterFailure (message e)
                     (tMasterFailure env) (metrics w))))
            (Remote.add "car" (Remote.CarData car) (Throw e) (remote w))
     else mkWorld (stateManager w)
            (CircuitBreaker.mk CLOSED (n + 1) thr cd None)
            (sqliteManager w)
            (Metrics.incrementSqliteFallbackCount (metrics w))
            (Remote.add "car" (Remote.CarData car) (Throw e) (remote w))).
Proof.
  intros Hq Hcb Hst Hadd Hcls.
  rewrite writeCar_remote by (right; exact Hst).
  unfold writeToRedis. rewrite Hq, Hcb. cbn [negb CircuitBreaker.isOpen
    CircuitBreaker.state CircuitBreakerState_eqb].
  rewrite Hadd, Hcls.
  cbn [circuitBreaker with_remote with_circuitBreaker].
  rewrite Hcb, recordFailure_closed.
  destruct w as [[st] cb sq me re]. cbn in Hst. subst st.
  destruct (thr <=? n + 1); reflexivity.
Qed.

Lemma ticks_app (seeder : CarSeeder.t) (handler : WriteHandler.t)
    (l1 l2 : list (Env * Car.t)) (w : World) :
  CarSeeder.ticks seeder handler (l1 ++ l2) w =
  CarSeeder.ticks seeder handler l2 (CarSeeder.ticks seeder handler l1 w).
Proof. unfold CarSeeder.ticks. apply fold_left_app. Qed.

Lemma ticks_cons (seeder : CarSeeder.t) (handler : WriteHandler.t)
    (env : Env) (car : Car.t) (l : list (Env * Car.t)) (w : World) :
  CarSeeder.isShuttingDown seeder = false ->
  CarSeeder.ticks seeder handler ((env, car) :: l) w =
  CarSeeder.ticks seeder handler l (snd (writeCar handler env car w)).
Proof.
  intros H. unfold CarSeeder.ticks. cbn [fold_left fst snd].
  unfold CarSeeder.tick at 2. rewrite H. reflexivity.
Qed.

Lemma writeToSqlite_buffered (env : Env) (car : Car.t) (w : World) :
  SqliteManager.isShuttingDown (sqliteManager w) = false ->
  (List.length (SqliteManager.writeBuffer (sqliteManager w)) + 1 <
   SqliteManager.batchSize)%nat ->
  writeToSqlite env car w =
  (Ok tt,
   with_sqliteManager
     (SqliteManager.mkService (SqliteManager.db (sqliteManager w))
        (SqliteManager.writeBuffer (sqliteManager w) ++ [car]) true false
        (SqliteManager.instanceId (sqliteManager w))) w).
Proof.
  intros Hdown Hroom. unfold writeToSqlite, maxRetries.
  cbn [writeToSqliteFrom]. rewrite saveCar_buffers by assumption.
  reflexivity.
Qed.

(** Failures below the threshold: the breaker counts, the cars are
    buffered, nothing else moves. *)
Lemma failing_ticks (seeder : CarSeeder.t) (handler : WriteHandler.t)
    (thr cd : Z) (inputs : list (Env * Car.t)) :
  CarSeeder.isShuttingDown seeder = false ->
  queue handler = true ->
  Forall (fun i => exists e, add (fst i) = Throw e /\
                             isRedisConnectionError (Some e) = true) inputs ->
  forall (w : World) (n : Z),
    circuitBreaker w = CircuitBreaker.mk CLOSED n thr cd None ->
    StateManager.currentState (stateManager w) = REDIS_MODE ->
    SqliteManager.isShuttingDown (sqliteManager w) = false ->
    Metrics.currentSession (metrics w) = None ->
    (List.length (SqliteManager.writeBuffer (sqliteManager w)) +
     List.length inputs < SqliteManager.batchSize)%nat ->
    n + Z.of_nat (List.length inputs) < thr ->
    let w' := CarSeeder.ticks seeder handler inputs w in
    circuitBreaker w' =
      CircuitBreaker.mk CLOSED (n + Z.of_nat (List.length inputs)) thr cd None /\
    StateManager.currentState (stateManager w') = REDIS_MODE /\
    SqliteManager.isShuttingDown (sqliteManager w') = false /\
    SqliteManager.writeBuffer (sqliteManager w') =
      SqliteManager.writeBuffer (sqliteManager w) ++ map snd inputs /\
    SqliteManager.db (sqliteManager w') = SqliteManager.db (sqliteManager w) /\
    SqliteManager.instanceId (sqliteManager w') =
      SqliteManager.instanceId (sqliteManager w) /\
    Remote.jobs (remote w') = Remote.jobs (remote w) /\
    Metrics.currentSession (metrics w') = None /\
    Metrics.totalFailoverSessions (metrics w') =
      Metrics.totalFailoverSessions (metrics w).
Proof.
  intros Hsd Hq Hall. induction Hall as [|[env car] inputs [e [Hadd Hcls]] _ IH];
    intros w n Hcb Hst Hdown Hses Hroom Hbelow.
  - cbn. rewrite Z.add_0_r, app_nil_r. repeat split; auto.
  - cbn [List.length] in Hroom, Hbelow. cbn [fst snd] in Hadd.
    cbn zeta. rewrite (ticks_cons seeder handler env car inputs w Hsd).
    rewrite (failing_write handler env car w e n thr cd Hq Hcb Hst Hadd Hcls).
    destruct (Z.leb_spec thr (n + 1)) as [Hle|Hgt]; [lia|].
    rewrite writeToSqlite_buffered by (cbn; try exact Hdown; lia).
    cbn [snd sqliteManager].
    set (w1 := with_sqliteManager _ _).
    destruct (IH w1 (n + 1)) as (I1 & I2 & I3 & I4 & I5 & I6 & I7 & I8 & I9).
    + reflexivity.
    + exact Hst.
    + reflexivity.
    + cbn. rewrite Hses. reflexivity.
    + cbn. rewrite length_app. cbn. lia.
    + lia.
    + cbn zeta in I1, I2, I3, I4, I5, I6, I7, I8, I9.
      rewrite I1, I2, I3, I4, I5, I6, I7, I8, I9.
      cbn [w1 with_sqliteManager sqliteManager metrics remote Remote.add
           Remote.jobs Metrics.incrementSqliteFallbackCount
           Metrics.totalFailoverSessions SqliteManager.writeBuffer
           SqliteManager.db SqliteManager.instanceId map snd List.length].
      rewrite <- app_assoc. cbn [app].
      repeat split; try reflexivity. f_equal. lia.
Qed.

(** The world after [threshold] failures in a row. *)
Lemma outage_world (seeder : CarSeeder.t) (handler : WriteHandler.t)
    (inputs : list (Env * Car.t)) (w : World) (thr cd : Z) :
  CarSeeder.isShuttingDown seeder = false ->
  queue handler = true ->
  circuitBreaker w = CircuitBreaker.mk CLOSED 0 thr cd None ->
  StateManager.currentState (stateManager w) = REDIS_MODE ->
  Metrics.currentSession (metrics w) = None ->
  SqliteManager.isShuttingDown (sqliteManager w) = false ->
  (List.length (SqliteManager.writeBuffer (sqliteManager w)) +
   List.length inputs < SqliteManager.batchSize)%nat ->
  1 <= thr ->
  Z.of_nat (List.length inputs) = thr ->
  Forall (fun i => exists e, add (fst i) = Throw e /\
                             isRedisConnectionError (Some e) = true) inputs ->
  let w' := CarSeeder.ticks seeder handler inputs w in
  circuitBreaker w' = CircuitBreaker.mk OPEN thr thr cd (Some cd) /\
  stateManager w' = StateManager.mk SQLITE_MODE /\
  sqliteManager w' =
    SqliteManager.mkService (SqliteManager.db (sqliteManager w))
      (SqliteManager.writeBuffer (sqliteManager w) ++ map snd inputs) true
      false (SqliteManager.instanceId (sqliteManager w)) /\
  Remote.jobs (remote w') = Remote.jobs (remote w) /\
  Metrics.getSqliteFallbackCount (metrics w') = 1 /\
  Metrics.totalFailoverSessions (metrics w') =
    Metrics.totalFailoverSessions (metrics w) + 1 /\
  (exists s, Metrics.activeSession (metrics w') = Some s /\
             FailoverSession.sqliteFallbackCount s = 1).
Proof.
  intros Hsd Hq Hcb Hst Hses Hdown Hroom Hthr Hlen Hall.
  destruct (exists_last (l := inputs)) as (init & [env car] & ->).
  { intros ->. cbn in Hlen. lia. }
  rewrite length_app in Hroom, Hlen. cbn [List.length] in Hroom, Hlen.
  apply Forall_app in Hall. destruct Hall as [Hinit Hlast].
  apply Forall_inv in Hlast. destruct Hlast as [e [Hadd Hcls]].
  cbn [fst] in Hadd.
  cbn zeta. rewrite ticks_app.
  destruct (failing_ticks seeder handler thr cd init Hsd Hq Hinit w 0
              Hcb Hst Hdown Hses)
    as (I1 & I2 & I3 & I4 & I5 & I6 & I7 & I8 & I9); [lia|lia|].
  cbn zeta in I1, I2, I3, I4, I5, I6, I7, I8, I9.
  set (w0 := CarSeeder.ticks seeder handler init w) in *.
  rewrite (ticks_cons seeder handler env car [] w0 Hsd).
  unfold CarSeeder.ticks. cbn [fold_left].
  rewrite (failing_write handler env car w0 e _ thr cd Hq I1 I2 Hadd Hcls).
  destruct (Z.leb_spec thr (0 + Z.of_nat (List.length init) + 1)) as [_|Hgt];
    [|lia].
  rewrite writeToSqlite_buffered
    by (cbn [sqliteManager];
        first [exact I3|rewrite I4, length_app, length_map; lia]).
  cbn [snd sqliteManager with_sqliteManager stateManager circuitBreaker
       metrics remote Remote.add Remote.jobs].
  rewrite I4, I5, I6, I7, map_app, <- app_assoc. cbn [map snd].
  split; [f_equal; lia|]. split; [reflexivity|]. split; [reflexivity|].
  split; [reflexivity|].
  destruct (metrics w0) as [ls cs n tot con] eqn:Hm.
  cbn [Metrics.currentSession Metrics.totalFailoverSessions] in I8, I9.
  subst cs. rewrite <- I9.
  cbn. repeat split. eexists. split; reflexivity.
Qed.

End Outage.

(** X17. An outage seen from the seeder. Starting in REDIS_MODE with a
    closed breaker at count 0 and no failover session, [threshold]
    consecutive ticks whose enqueue fails with a transport error (each
    write settled before the next tick, the buffer not reaching a full
    batch) end with the breaker OPEN and its cooldown armed, the state
    SQLITE_MODE, and every one of the cars in the write buffer in order:
    no car is lost and no job was accepted. One failover session has been
    opened, and the fallback count reads 1, although [threshold] cars went
    to the buffer: the count is reset when the session opens. *)
Theorem X17_outage_opens_breaker :
  forall (seeder : CarSeeder.t) (handler : WriteHandler.t)
         (inputs : list (WriteHandler.Env * Car.t)) (w : World) (thr cd : Z),
    CarSeeder.isShuttingDown seeder = false ->
    WriteHandler.queue handler = true ->
    circuitBreaker w = CircuitBreaker.mk CLOSED 0 thr cd None ->
    StateManager.currentState (stateManager w) = REDIS_MODE ->
    Metrics.currentSession (metrics w) = None ->
    SqliteManager.isShuttingDown (sqliteManager w) = false ->
    (List.length (SqliteManager.writeBuffer (sqliteManager w)) +
     List.length inputs < SqliteManager.batchSize)%nat ->
    1 <= thr ->
    Z.of_nat (List.length inputs) = thr ->
    Forall (fun i => exists e,
              WriteHandler.add (fst i) = Throw e /\
              WriteHandler.isRedisConnectionError (Some e) = true) inputs ->
    let w' := CarSeeder.ticks seeder handler inputs w in
    circuitBreaker w' = CircuitBreaker.mk OPEN thr thr cd (Some cd) /\
    StateManager.currentState (stateManager w') = SQLITE_MODE /\
    SqliteManager.writeBuffer (sqliteManager w') =
      SqliteManager.writeBuffer (sqliteManager w) ++ map snd inputs /\
    SqliteManager.db (sqliteManager w') = SqliteManager.db (sqliteManager w) /\
    Remote.jobs (remote w') = Remote.jobs (remote w) /\
    Metrics.getSqliteFallbackCount (metrics w') = 1 /\
    Metrics.totalFailoverSessions (metrics w') =
      Metrics.totalFailoverSessions (metrics w) + 1 /\
    (exists s, Metrics.activeSession (metrics w') = Some s /\
               FailoverSession.sqliteFallbackCount s = 1).
Proof.
  intros seeder handler inputs w thr cd Hsd Hq Hcb Hst Hses Hdown Hroom Hthr
    Hlen Hall.
  destruct (outage_world seeder handler inputs w thr cd Hsd Hq Hcb Hst Hses
              Hdown Hroom Hthr Hlen Hall)
    as (O1 & O2 & O3 & O4 & O5 & O6 & O7).
  cbn zeta in *. rewrite O1, O2, O3, O4.
  repeat split; auto.
Qed.

(** X17 at the default threshold of five, with five refused writes. *)
Lemma X17_witness :
  let w' := CarSeeder.ticks (CarSeeder.mk false true) (WriteHandler.mk true)
              (repeat (refusedEnv, someCar) 5) freshWorld in
  circuitBreaker w' = CircuitBreaker.mk OPEN 5 5 2000 (Some 2000) /\
  SqliteManager.writeBuffer (sqliteManager w') = repeat someCar 5 /\
  Metrics.getSqliteFallbackCount (metrics w') = 1.
Proof.
  assert (Hall : Forall (fun i => exists e,
                           WriteHandler.add (fst i) = Throw e /\
                           WriteHandler.isRedisConnectionError (Some e) = true)
                   (repeat (refusedEnv, someCar) 5)).
  { repeat constructor; exists refused; split; reflexivity. }
  destruct (X17_outage_opens_breaker (CarSeeder.mk false true)
              (WriteHandler.mk true) (repeat (refusedEnv, someCar) 5)
              freshWorld 5 2000 eq_refl eq_refl eq_refl eq_refl eq_refl
              eq_refl ltac:(vm_compute; lia) ltac:(lia) eq_refl Hall)
    as (H1 & _ & H3 & _ & _ & H6 & _).
  cbn zeta. split; [exact H1|]. split; [exact H3|exact H6].
Defined.

(** ** A drain in which nothing fails *)

Section GoodDrain.
Import PendingCar SqliteManager RecoveryManager.

Lemma isRedisAvailable_ok (env : AvailEnv) (self : RecoveryManager.t)
    (w : World) (j : option string) :
  redisClient self = true -> queue self = true ->
  CircuitBreaker.isOpen (circuitBreaker w) = false ->
  probe env = Ok j ->
  isRedisAvailable env self w =
  (true,
   with_remote
     (Remote.add "health-check-test" Remote.HealthCheck (Ok j)
        (Remote.ping (remote w))) w).
Proof.
  intros Hc Hq Ho Hp. unfold isRedisAvailable, testRedisWrite.
  rewrite Hc, Ho, Hq, Hp. destruct w. reflexivity.
Qed.

Lemma carJobs_add (name : string) (data : Remote.JobData)
    (j : option string) (r : Remote.t) :
  carJobs (Remote.add name data (Ok j) r) =
  carJobs r ++ match data with
               | Remote.CarData car => [car]
               | Remote.HealthCheck => []
               end.
Proof.
  unfold carJobs, Remote.add. cbn [Remote.jobs].
  rewrite flat_map_app. cbn. rewrite app_nil_r. reflexivity.
Qed.

Lemma enqueueAll_all_ok (adds : nat -> Remote.AddOutcome)
    (cars : list PendingCar.t) :
  (forall i, exists j, adds i = Ok j) ->
  forall i r,
    exists ok r',
      enqueueAll i adds cars r = (ok, [], r') /\
      map fst ok = map id cars /\
      carJobs r' = carJobs r ++ map carData cars.
Proof.
  intros Hadds. induction cars as [|car cars IH]; intros i r.
  - exists [], r. cbn. rewrite app_nil_r. auto.
  - cbn [enqueueAll]. destruct (Hadds i) as [j Hj]. rewrite Hj.
    destruct (IH (S i)
                (Remote.add "car" (Remote.CarData (carData car)) (Ok j) r))
      as (ok & r' & E & E1 & E2).
    rewrite E. eexists. eexists. split; [reflexivity|].
    cbn [map fst]. rewrite E1, E2, carJobs_add, <- app_assoc.
    split; reflexivity.
Qed.

Lemma deliver_carData (carIds : list string) :
  forall redisJobIds r, carData (deliver carIds redisJobIds r) = carData r.
Proof.
  induction carIds as [|c carIds IH]; intros jobs r; [reflexivity|].
  cbn [deliver]. rewrite IH. destruct (hasId c r); reflexivity.
Qed.

(** What a good batch does to one row of the table it found. *)
Lemma batch_row (limit : Z) (inst : string) (now : Z) (tbl : Table)
    (jobs : list string) (r : PendingCar.t) :
  unique_ids tbl -> In r tbl ->
  let ids := map id (filter (claim_where limit tbl) tbl) in
  let r2 := deliver ids jobs
              (if claim_where limit tbl r then set_recovering inst now r
               else r) in
  id r2 = id r /\ carData r2 = carData r /\
  (claim_where limit tbl r = true -> status r = PENDING /\ status r2 = SENT) /\
  (claim_where limit tbl r = false -> r2 = r).
Proof.
  intros Hu Hin ids r2. subst r2.
  destruct (claim_where limit tbl r) eqn:C.
  - assert (Hid : In (id (set_recovering inst now r)) ids).
    { cbn [id set_recovering]. subst ids. apply in_map, filter_In. auto. }
    destruct (deliver_row ids jobs (set_recovering inst now r))
      as (D1 & D2 & _).
    split; [rewrite D1; reflexivity|].
    split.
    + rewrite deliver_carData. reflexivity.
    + split; [|discriminate]. intros _. split; [|apply D2, Hid].
      unfold claim_where in C. apply andb_true_iff in C.
      apply hasStatus_true, C.
  - assert (Hid : ~ In (id r) ids).
    { subst ids. intros H. apply in_map_iff in H.
      destruct H as (r0 & E & H0). apply filter_In in H0.
      destruct H0 as [H0 C0].
      rewrite (unique_ids_inj tbl r0 r Hu H0 Hin E) in C0. congruence. }
    destruct (deliver_row ids jobs r) as (_ & _ & D3).
    rewrite (D3 Hid). repeat split; auto; discriminate.
Qed.

(** The rows of a table after a good batch. *)
Lemma good_rows (limit : Z) (inst : string) (now : Z) (tbl : Table)
    (jobs : list string) :
  unique_ids tbl ->
  let g := fun r =>
             deliver (map id (filter (claim_where limit tbl) tbl)) jobs
               (if claim_where limit tbl r then set_recovering inst now r
                else r) in
  forall l, incl l tbl ->
    Forall2 drained l (map g l) /\
    Permutation (filter (hasStatus PENDING) l)
      (filter (claim_where limit tbl) l ++
       filter (hasStatus PENDING) (map g l)).
Proof.
  intros Hu g l. induction l as [|r l IH]; intros Hl.
  - split; constructor.
  - destruct IH as [IH1 IH2]; [intros x Hx; apply Hl; right; exact Hx|].
    assert (Hr : In r tbl) by (apply Hl; left; reflexivity).
    destruct (batch_row limit inst now tbl jobs r Hu Hr) as (B1 & B2 & B3 & B4).
    cbn zeta in B1, B2, B3, B4. fold (g r) in B1, B2, B3, B4.
    cbn [map filter]. destruct (claim_where limit tbl r) eqn:C.
    + destruct (B3 eq_refl) as [P1 P2].
      assert (E1 : hasStatus PENDING r = true) by (apply hasStatus_true, P1).
      assert (E2 : hasStatus PENDING (g r) = false).
      { unfold hasStatus. rewrite P2. reflexivity. }
      rewrite E1, E2. split.
      * constructor; [|exact IH1].
        unfold drained. rewrite P2. repeat split; auto. congruence.
      * cbn [app]. apply perm_skip, IH2.
    + rewrite (B4 eq_refl). split.
      * constructor; [|exact IH1]. unfold drained. repeat split; auto.
      * destruct (hasStatus PENDING r); [|exact IH2].
        apply Permutation_cons_app, IH2.
Qed.

Lemma good_batch (env : BatchEnv) (self : RecoveryManager.t) (tot : Totals)
    (w : World) (tbl : Table) :
  redisClient self = true -> queue self = true ->
  CircuitBreaker.isOpen (circuitBreaker w) = false ->
  db (sqliteManager w) = Some tbl -> unique_ids tbl -> accepting env ->
  let claimed := filter (claim_where (chunkSize self) tbl) tbl in
  exists next tot' w' tbl',
    drainBatch env self tot w = (Ok (next, tot'), w') /\
    recovered tot' = recovered tot + lengthZ claimed /\
    failed tot' = failed tot /\
    (next = Break <-> claimed = []) /\
    circuitBreaker w' = circuitBreaker w /\
    db (sqliteManager w') = Some tbl' /\
    Forall2 drained tbl tbl' /\
    Permutation (filter (hasStatus PENDING) tbl)
      (claimed ++ filter (hasStatus PENDING) tbl') /\
    carJobs (remote w') = carJobs (remote w) ++ map carData claimed.
Proof.
  intros Hc Hq Ho Hdb Hu ((Hcf & Hsf & Hpf & Hrf) & (j & Hprobe) & Hadds).
  cbn zeta.
  unfold drainBatch, getAndMarkPendingCars. rewrite Hdb, Hcf.
  unfold returning.
  destruct (filter (claim_where (chunkSize self) tbl) tbl)
    as [|r0 claimed'] eqn:Hcl.
  - cbn [map].
    pose proof (good_rows (chunkSize self) (instanceId self) (claimNow env)
                  tbl [] Hu tbl (incl_refl _)) as [G1 G2].
    rewrite Hcl in G1, G2. cbn [map deliver app] in G1, G2.
    exists Break, tot. eexists. eexists.
    split; [reflexivity|]. unfold lengthZ. cbn [List.length map].
    rewrite app_nil_r.
    split; [lia|]. split; [reflexivity|]. split; [tauto|].
    split; [reflexivity|]. split; [reflexivity|].
    split; [exact G1|]. split; [exact G2|reflexivity].
  - set (t1 := update_where _ _ tbl).
    set (w1 := with_sqliteManager (with_db t1 (sqliteManager w)) w).
    change (map (set_recovering (instanceId self) (claimNow env))
              (r0 :: claimed'))
      with (set_recovering (instanceId self) (claimNow env) r0 ::
            map (set_recovering (instanceId self) (claimNow env)) claimed').
    cbn zeta.
    rewrite (isRedisAvailable_ok (avail env) self w1 j Hc Hq Ho Hprobe).
    cbn [negb].
    change (set_recovering (instanceId self) (claimNow env) r0 ::
            map (set_recovering (instanceId self) (claimNow env)) claimed')
      with (map (set_recovering (instanceId self) (claimNow env))
              (r0 :: claimed')).
    set (rows := map _ (r0 :: claimed')).
    set (rq0 := Remote.add _ _ _ _).
    destruct (enqueueAll_all_ok (adds env) rows Hadds 0%nat
                (remote (with_remote rq0 w1))) as (ok & rq & E & E1 & E2).
    rewrite E. cbn [sqliteManager with_remote w1 with_sqliteManager].
    rewrite Hsf, (markCarsAsSent_ok _ t1) by reflexivity.
    rewrite Hpf. unfold markCarsAsPending. cbn [db with_db].
    assert (Hids : map fst ok =
                   map id (filter (claim_where (chunkSize self) tbl) tbl)).
    { rewrite E1, Hcl. unfold rows. rewrite map_map. reflexivity. }
    pose proof (good_rows (chunkSize self) (instanceId self) (claimNow env)
                  tbl (map snd ok) Hu tbl (incl_refl _)) as [G1 G2].
    rewrite <- Hids in G1, G2. rewrite Hcl in G2.
    assert (Ht : map (deliver (map fst ok) (map snd ok)) t1 =
                 map (fun r =>
                        deliver (map fst ok) (map snd ok)
                          (if claim_where (chunkSize self) tbl r
                           then set_recovering (instanceId self)
                                  (claimNow env) r
                           else r)) tbl).
    { unfold t1, update_where. rewrite map_map. reflexivity. }
    eexists. eexists. eexists. eexists.
    split; [reflexivity|]. cbn [recovered failed].
    split.
    { f_equal. unfold lengthZ. f_equal.
      rewrite <- (length_map fst ok), E1. unfold rows.
      rewrite !length_map. reflexivity. }
    split; [unfold lengthZ; cbn [List.length]; lia|].
    split; [split; intros H; discriminate H|].
    split; [reflexivity|].
    cbn [sqliteManager with_sqliteManager db with_db].
    split; [reflexivity|]. rewrite Ht.
    split; [exact G1|]. split; [exact G2|].
    cbn [remote with_sqliteManager with_remote]. rewrite E2.
    cbn [remote with_remote]. unfold rq0. rewrite carJobs_add, app_nil_r.
    unfold rows. rewrite map_map. reflexivity.
Qed.

Lemma drained_trans (a b c : PendingCar.t) :
  drained a b -> drained b c -> drained a c.
Proof.
  intros (A1 & A2 & A3 & A4) (B1 & B2 & B3 & B4). unfold drained.
  split; [congruence|]. split; [congruence|]. split.
  - intros Ha. destruct (A3 Ha) as [Hb|Hb]; [apply B3, Hb|].
    right. rewrite (B4 ltac:(congruence)). exact Hb.
  - intros Ha. assert (Hb : b = a) by (apply A4, Ha). subst b.
    apply B4, Ha.
Qed.

Lemma drained_all_trans (l1 l2 l3 : Table) :
  Forall2 drained l1 l2 -> Forall2 drained l2 l3 -> Forall2 drained l1 l3.
Proof.
  intros H. revert l3. induction H as [|a b l1 l2 Hab _ IH]; intros l3 H3.
  - inversion H3. constructor.
  - inversion H3 as [|? c ? l3' Hbc H3']; subst.
    constructor; [eapply drained_trans; eassumption|apply IH, H3'].
Qed.

Lemma drained_ids (l l' : Table) :
  Forall2 drained l l' -> map id l' = map id l.
Proof.
  induction 1 as [|a b l l' (H & _) _ IH]; [reflexivity|].
  cbn [map]. rewrite H, IH. reflexivity.
Qed.

Lemma drained_done (l l' : Table) :
  Forall2 drained l l' -> filter (hasStatus PENDING) l' = [] ->
  Forall2
    (fun r r' =>
       id r' = id r /\ carData r' = carData r /\
       (status r = PENDING -> status r' = SENT) /\
       (status r <> PENDING -> r' = r))
    l l'.
Proof.
  induction 1 as [|a b l l' (H1 & H2 & H3 & H4) _ IH]; intros Hf;
    [constructor|].
  cbn [filter] in Hf. destruct (hasStatus PENDING b) eqn:Hb;
    [discriminate Hf|].
  constructor; [|apply IH, Hf].
  repeat split; auto. intros Ha. destruct (H3 Ha) as [Hp|Hs]; [|exact Hs].
  apply hasStatus_true in Hp. congruence.
Qed.

Lemma claimed_count (limit : Z) (tbl : Table) :
  unique_ids tbl -> 1 <= limit ->
  filter (claim_where limit tbl) tbl = [] ->
  filter (hasStatus PENDING) tbl = [].
Proof.
  intros Hu Hl H.
  pose proof (Permutation_length (claimed_rows_perm limit tbl Hu)) as L.
  rewrite H, (selected_length limit tbl) in L by lia. cbn [List.length] in L.
  destruct (filter (hasStatus PENDING) tbl); [reflexivity|].
  cbn [List.length] in L. lia.
Qed.

(** The drain loop when nothing fails: it stops when no row is pending,
    having delivered each pending row it found once. *)
Lemma good_loop (self : RecoveryManager.t) (envs : list BatchEnv) :
  redisClient self = true -> queue self = true -> 1 <= chunkSize self ->
  Forall accepting envs ->
  forall (tot : Totals) (w : World) (tbl : Table),
    CircuitBreaker.isOpen (circuitBreaker w) = false ->
    db (sqliteManager w) = Some tbl -> unique_ids tbl ->
    (List.length (filter (hasStatus PENDING) tbl) < List.length envs)%nat ->
    exists result w' tbl' cars,
      drainLoop envs self tot w = Some (Ok result, w') /\
      recovered result =
        recovered tot + lengthZ (filter (hasStatus PENDING) tbl) /\
      failed result = failed tot /\
      db (sqliteManager w') = Some tbl' /\
      Forall2 drained tbl tbl' /\
      filter (hasStatus PENDING) tbl' = [] /\
      carJobs (remote w') = carJobs (remote w) ++ cars /\
      Permutation (map carData (filter (hasStatus PENDING) tbl)) cars.
Proof.
  intros Hc Hq Hchunk Hall.
  induction Hall as [|env envs Henv _ IH]; intros tot w tbl Ho Hdb Hu Hlen.
  - cbn in Hlen. lia.
  - destruct (good_batch env self tot w tbl Hc Hq Ho Hdb Hu Henv)
      as (next & tot' & w' & tbl' & E & R1 & R2 & Hn & Hcb & Hdb' & Hd & Hp
          & Hj).
    cbn zeta in R1, Hn, Hp, Hj. cbn [drainLoop]. rewrite E.
    destruct next.
    + assert (Hne : filter (claim_where (chunkSize self) tbl) tbl <> []).
      { intros H. apply Hn in H. discriminate H. }
      assert (Hu' : unique_ids tbl').
      { unfold unique_ids. rewrite (drained_ids _ _ Hd). exact Hu. }
      pose proof (Permutation_length Hp) as L. rewrite length_app in L.
      destruct (IH tot' w' tbl') as (result & w2 & tbl2 & cars & E2 & S1 & S2
                                     & S3 & S4 & S5 & S6 & S7).
      * rewrite Hcb. exact Ho.
      * exact Hdb'.
      * exact Hu'.
      * cbn [List.length] in Hlen.
        destruct (filter (claim_where (chunkSize self) tbl) tbl);
          [congruence|]. cbn [List.length] in L. lia.
      * exists result, w2, tbl2.
        exists (map carData (filter (claim_where (chunkSize self) tbl) tbl)
                ++ cars).
        split; [exact E2|].
        split; [rewrite S1, R1; unfold lengthZ; lia|].
        split; [congruence|]. split; [exact S3|].
        split; [eapply drained_all_trans; eassumption|].
        split; [exact S5|].
        split; [rewrite S6, Hj, app_assoc; reflexivity|].
        eapply Permutation_trans; [apply Permutation_map, Hp|].
        rewrite map_app. apply Permutation_app_head, S7.
    + assert (Hnil : filter (claim_where (chunkSize self) tbl) tbl = []).
      { apply Hn. reflexivity. }
      rewrite Hnil in *. cbn [app map] in Hp, Hj.
      pose proof (claimed_count _ tbl Hu Hchunk Hnil) as H0.
      rewrite H0 in *.
      apply Permutation_nil in Hp.
      exists tot', w', tbl', [].
      split; [reflexivity|].
      split; [rewrite R1; unfold lengthZ; cbn; lia|].
      split; [exact R2|]. split; [exact Hdb'|]. split; [exact Hd|].
      split; [exact Hp|]. split; [exact Hj|]. constructor.
Qed.

End GoodDrain.

(** The whole drain when nothing fails. *)
Lemma good_recover :
  forall (env : RecoveryManager.DrainEnv) (self : RecoveryManager.t)
         (w : World) (tbl : SqliteManager.Table),
    RecoveryManager.queue self = true ->
    RecoveryManager.redisClient self = true ->
    1 <= RecoveryManager.chunkSize self ->
    CircuitBreaker.isOpen (circuitBreaker w) = false ->
    SqliteManager.db (sqliteManager w) = Some tbl ->
    SqliteManager.unique_ids tbl ->
    RecoveryManager.cleanupFailure env = None ->
    Forall accepting (RecoveryManager.batches env) ->
    let cleaned :=
      SqliteManager.update_where
        (SqliteManager.stale_where
           (RecoveryManager.cleanupNow env - 5 * 60 * 1000))
        SqliteManager.set_pending_released tbl in
    let pending := filter (SqliteManager.hasStatus PENDING) cleaned in
    (List.length pending < List.length (RecoveryManager.batches env))%nat ->
    exists result w' tbl' cars,
      RecoveryManager.recoverPendingEntries env self w =
        Some (Ok result, w') /\
      RecoveryManager.recovered result = RecoveryManager.lengthZ pending /\
      RecoveryManager.failed result = 0 /\
      SqliteManager.db (sqliteManager w') = Some tbl' /\
      SqliteManager.getPendingCount (sqliteManager w') = 0 /\
      Forall2
        (fun r r' =>
           PendingCar.id r' = PendingCar.id r /\
           RecoveryManager.carData r' = RecoveryManager.carData r /\
           (PendingCar.status r = PENDING -> PendingCar.status r' = SENT) /\
           (PendingCar.status r <> PENDING -> r' = r))
        cleaned tbl' /\
      carJobs (remote w') = carJobs (remote w) ++ cars /\
      Permutation (map RecoveryManager.carData pending) cars.
Proof.
  intros env self w tbl Hq Hc Hchunk Ho Hdb Hu Hcf Hall cleaned pending Hlen.
  unfold RecoveryManager.recoverPendingEntries,
    SqliteManager.cleanupStaleRecoveries.
  rewrite Hq, Hdb, Hcf. cbn [negb]. fold cleaned.
  assert (Hu' : SqliteManager.unique_ids cleaned).
  { unfold SqliteManager.unique_ids, cleaned.
    rewrite update_where_ids by reflexivity. exact Hu. }
  destruct (good_loop self (RecoveryManager.batches env) Hc Hq Hchunk Hall
              (RecoveryManager.mkTotals 0 0)
              (with_sqliteManager
                 (SqliteManager.with_db cleaned (sqliteManager w)) w)
              cleaned Ho eq_refl Hu' Hlen)
    as (result & w' & tbl' & cars & E & R1 & R2 & R3 & R4 & R5 & R6 & R7).
  exists result, w', tbl', cars.
  split; [exact E|]. split; [rewrite R1; cbn; reflexivity|].
  split; [exact R2|]. split; [exact R3|].
  split; [unfold SqliteManager.getPendingCount; rewrite R3, R5; reflexivity|].
  split; [apply drained_done; assumption|].
  split; [exact R6|exact R7].
Qed.

(** X18. A drain in which nothing fails delivers every pending car once.
    With the queue and the client set, a chunk size of at least 1, the
    breaker not OPEN, the store reachable, every job accepted and no
    database statement failing, [recoverPendingEntries] returns (given
    more batches than pending rows) with [recovered] the number of rows
    that are PENDING after the stale claims were released and [failed] 0.
    Afterwards no row is PENDING: each of those rows is SENT with its car
    data unchanged, every other row is as the cleanup left it, and the
    cars of the jobs added to the queue are exactly the cars of those
    rows. *)
Theorem X18_drain_delivers_all :
  forall (env : RecoveryManager.DrainEnv) (self : RecoveryManager.t)
         (w : World) (tbl : SqliteManager.Table),
    RecoveryManager.queue self = true ->
    RecoveryManager.redisClient self = true ->
    1 <= RecoveryManager.chunkSize self ->
    CircuitBreaker.isOpen (circuitBreaker w) = false ->
    SqliteManager.db (sqliteManager w) = Some tbl ->
    SqliteManager.unique_ids tbl ->
    RecoveryManager.cleanupFailure env = None ->
    Forall accepting (RecoveryManager.batches env) ->
    let cleaned :=
      SqliteManager.update_where
        (SqliteManager.stale_where
           (RecoveryManager.cleanupNow env - 5 * 60 * 1000))
        SqliteManager.set_pending_released tbl in
    let pending := filter (SqliteManager.hasStatus PENDING) cleaned in
    (List.length pending < List.length (RecoveryManager.batches env))%nat ->
    exists result w' tbl' cars,
      RecoveryManager.recoverPendingEntries env self w =
        Some (Ok result, w') /\
      RecoveryManager.recovered result = RecoveryManager.lengthZ pending /\
      RecoveryManager.failed result = 0 /\
      SqliteManager.db (sqliteManager w') = Some tbl' /\
      SqliteManager.getPendingCount (sqliteManager w') = 0 /\
      Forall2
        (fun r r' =>
           PendingCar.id r' = PendingCar.id r /\
           RecoveryManager.carData r' = RecoveryManager.carData r /\
           (PendingCar.status r = PENDING -> PendingCar.status r' = SENT) /\
           (PendingCar.status r <> PENDING -> r' = r))
        cleaned tbl' /\
      carJobs (remote w') = carJobs (remote w) ++ cars /\
      Permutation (map RecoveryManager.carData pending) cars.
Proof.
  intros env self w tbl Hq Hc Hchunk Ho Hdb Hu Hcf Hall cleaned pending Hlen.
  apply good_recover; assumption.
Qed.

(** X18 at a drain of two pending rows. *)
Lemma X18_witness :
  exists result w',
    RecoveryManager.recoverPendingEntries longDrain readyManager
      (with_sqliteManager storeAB probingWorld) = Some (Ok result, w') /\
    RecoveryManager.recovered result = 2 /\
    SqliteManager.getPendingCount (sqliteManager w') = 0.
Proof.
  assert (Hu : SqliteManager.unique_ids [rowA; rowB]).
  { unfold SqliteManager.unique_ids. cbn.
    constructor; [|constructor; [|constructor]].
    - cbn. intros [H|[]]. discriminate H.
    - intros []. }
  assert (Hacc : accepting cleanBatch).
  { split; [repeat split|]. split; [eexists; reflexivity|].
    intros i. eexists. reflexivity. }
  assert (Hall : Forall accepting (RecoveryManager.batches longDrain)).
  { cbn. repeat (apply Forall_cons; [exact Hacc|]). apply Forall_nil. }
  destruct (X18_drain_delivers_all longDrain readyManager
              (with_sqliteManager storeAB probingWorld) [rowA; rowB]
              eq_refl eq_refl ltac:(vm_compute; discriminate) eq_refl eq_refl
              Hu eq_refl Hall ltac:(vm_compute; lia))
    as (result & w' & tbl' & cars & E & R1 & _ & _ & R5 & _).
  exists result, w'. split; [exact E|]. split; [exact R1|exact R5].
Defined.

(** ** A drain in which every job is rejected *)

Section BadDrain.
Import PendingCar SqliteManager RecoveryManager.

Lemma enqueueAll_all_fail (adds : nat -> Remote.AddOutcome)
    (cars : list PendingCar.t) :
  (forall i, exists e, adds i = Throw e) ->
  forall i r,
    exists r',
      enqueueAll i adds cars r = ([], map id cars, r') /\
      Remote.jobs r' = Remote.jobs r.
Proof.
  intros Hadds. induction cars as [|car cars IH]; intros i r.
  - exists r. split; reflexivity.
  - cbn [enqueueAll]. destruct (Hadds i) as [e He]. rewrite He.
    destruct (IH (S i)
                (Remote.add "car" (Remote.CarData (carData car)) (Throw e) r))
      as (r' & E & E1).
    rewrite E. exists r'. split; [reflexivity|]. rewrite E1. reflexivity.
Qed.

(** What a batch whose jobs are all rejected does to one row. *)
Lemma rejected_row (limit : Z) (inst : string) (now : Z) (tbl : Table)
    (r : PendingCar.t) :
  unique_ids tbl -> In r tbl ->
  let r3 := release (map id (filter (claim_where limit tbl) tbl))
              (if claim_where limit tbl r then set_recovering inst now r
               else r) in
  id r3 = id r /\ status r3 = status r.
Proof.
  intros Hu Hin r3. subst r3.
  destruct (claim_where limit tbl r) eqn:C.
  - destruct (release_row (map id (filter (claim_where limit tbl) tbl))
                (set_recovering inst now r)) as (R1 & _ & R3 & _).
    cbn zeta in R1, R3. split; [exact R1|].
    rewrite R3.
    + unfold claim_where in C. apply andb_true_iff in C.
      destruct C as [_ C]. apply hasStatus_true in C. congruence.
    + cbn [id set_recovering]. apply in_map, filter_In. auto.
  - assert (Hid : ~ In (id r) (map id (filter (claim_where limit tbl) tbl))).
    { intros H. apply in_map_iff in H.
      destruct H as (r0 & E & H0). apply filter_In in H0.
      destruct H0 as [H0 C0].
      rewrite (unique_ids_inj tbl r0 r Hu H0 Hin E) in C0. congruence. }
    destruct (release_row (map id (filter (claim_where limit tbl) tbl)) r)
      as (_ & _ & _ & R4 & _).
    cbn zeta in R4. rewrite (R4 Hid). split; reflexivity.
Qed.

Lemma rejected_rows (limit : Z) (inst : string) (now : Z) (tbl : Table) :
  unique_ids tbl ->
  let g := fun r =>
             release (map id (filter (claim_where limit tbl) tbl))
               (if claim_where limit tbl r then set_recovering inst now r
                else r) in
  forall l, incl l tbl ->
    map id (map g l) = map id l /\
    map status (map g l) = map status l.
Proof.
  intros Hu g l. induction l as [|r l IH]; intros Hl; [split; reflexivity|].
  destruct IH as [IH1 IH2]; [intros x Hx; apply Hl; right; exact Hx|].
  destruct (rejected_row limit inst now tbl r Hu (Hl r (or_introl eq_refl)))
    as [R1 R2]. cbn zeta in R1, R2. fold (g r) in R1, R2.
  cbn [map]. rewrite R1, R2, IH1, IH2. split; reflexivity.
Qed.

Lemma filter_status (l l' : Table) (s : RecoveryStatus) :
  map status l' = map status l ->
  List.length (filter (hasStatus s) l') = List.length (filter (hasStatus s) l).
Proof.
  revert l'. induction l as [|r l IH]; intros [|r' l'] H;
    try discriminate H; [reflexivity|].
  cbn [map] in H. injection H as H1 H2. cbn [filter].
  assert (E : hasStatus s r' = hasStatus s r).
  { unfold hasStatus. rewrite H1. reflexivity. }
  rewrite E. destruct (hasStatus s r); cbn [List.length];
    rewrite (IH l' H2); reflexivity.
Qed.

Lemma rejected_batch (env : BatchEnv) (self : RecoveryManager.t) (tot : Totals)
    (w : World) (tbl : Table) :
  redisClient self = true -> queue self = true -> 1 <= chunkSize self ->
  CircuitBreaker.isOpen (circuitBreaker w) = false ->
  db (sqliteManager w) = Some tbl -> unique_ids tbl -> rejecting env ->
  filter (hasStatus PENDING) tbl <> [] ->
  exists tot' w' tbl',
    drainBatch env self tot w = (Ok (Continue, tot'), w') /\
    0 < failed tot' - failed tot /\
    recovered tot' = recovered tot /\
    circuitBreaker w' = circuitBreaker w /\
    db (sqliteManager w') = Some tbl' /\
    map id tbl' = map id tbl /\
    map status tbl' = map status tbl /\
    Remote.jobs (remote w') =
      Remote.jobs (remote w) ++
      [Remote.mkJob "health-check-test" Remote.HealthCheck
         match probe (avail env) with Ok j => j | Throw _ => None end].
Proof.
  intros Hc Hq Hchunk Ho Hdb Hu ((Hcf & Hsf & Hpf & Hrf) & (j & Hprobe) & Hadds)
    Hpend.
  unfold drainBatch, getAndMarkPendingCars. rewrite Hdb, Hcf.
  unfold returning.
  destruct (filter (claim_where (chunkSize self) tbl) tbl)
    as [|r0 claimed'] eqn:Hcl.
  { exfalso. apply Hpend. eapply claimed_count; eassumption. }
  set (t1 := update_where _ _ tbl).
  set (w1 := with_sqliteManager (with_db t1 (sqliteManager w)) w).
  change (map (set_recovering (instanceId self) (claimNow env))
            (r0 :: claimed'))
    with (set_recovering (instanceId self) (claimNow env) r0 ::
          map (set_recovering (instanceId self) (claimNow env)) claimed').
  cbn zeta.
  rewrite (isRedisAvailable_ok (avail env) self w1 j Hc Hq Ho Hprobe).
  cbn [negb].
  change (set_recovering (instanceId self) (claimNow env) r0 ::
          map (set_recovering (instanceId self) (claimNow env)) claimed')
    with (map (set_recovering (instanceId self) (claimNow env))
            (r0 :: claimed')).
  set (rows := map _ (r0 :: claimed')).
  set (rq0 := Remote.add _ _ _ _).
  destruct (enqueueAll_all_fail (adds env) rows Hadds 0%nat
              (remote (with_remote rq0 w1))) as (rq & E & E1).
  rewrite E. cbn [sqliteManager with_remote w1 with_sqliteManager map].
  unfold markCarsAsSent. cbn [db with_db].
  cbn [sqliteManager with_remote w1 with_sqliteManager].
  rewrite Hpf, (markCarsAsPending_ok _ t1) by reflexivity.
  assert (Hids : map id rows =
                 map id (filter (claim_where (chunkSize self) tbl) tbl)).
  { rewrite Hcl. unfold rows. rewrite map_map. reflexivity. }
  pose proof (rejected_rows (chunkSize self) (instanceId self) (claimNow env)
                tbl Hu tbl (incl_refl _)) as [G1 G2].
  rewrite <- Hids in G1, G2.
  assert (Ht : map (release (map id rows)) t1 =
               map (fun r =>
                      release (map id rows)
                        (if claim_where (chunkSize self) tbl r
                         then set_recovering (instanceId self) (claimNow env) r
                         else r)) tbl).
  { unfold t1, update_where. rewrite map_map. reflexivity. }
  eexists. eexists. eexists.
  split; [reflexivity|]. cbn [recovered failed].
  split; [unfold lengthZ, rows; cbn [map List.length]; lia|].
  split; [unfold lengthZ; cbn [List.length]; lia|].
  split; [reflexivity|].
  cbn [sqliteManager with_sqliteManager db with_db].
  split; [reflexivity|]. rewrite Ht.
  split; [exact G1|]. split; [exact G2|].
  cbn [remote with_sqliteManager with_remote]. rewrite E1.
  cbn [remote with_remote]. unfold rq0. rewrite Hprobe. reflexivity.
Qed.

End BadDrain.

(** X19. The drain loop has no exit for rejected jobs. While the store is
    reachable and the health check is accepted but every job of a car is
    rejected, a batch releases the rows it claimed and asks for the next
    batch, which finds the same rows PENDING again: with at least one
    pending row and a chunk size of at least 1, the loop has not ended
    after any number of iterations. Each iteration leaves the ids and the
    statuses of the table as they were, counts at least one failure, and
    adds one health-check job and no car to the queue. *)
Theorem X19_rejected_jobs_never_end :
  forall (self : RecoveryManager.t) (w : World) (tbl : SqliteManager.Table),
    RecoveryManager.redisClient self = true ->
    RecoveryManager.queue self = true ->
    1 <= RecoveryManager.chunkSize self ->
    CircuitBreaker.isOpen (circuitBreaker w) = false ->
    SqliteManager.db (sqliteManager w) = Some tbl ->
    SqliteManager.unique_ids tbl ->
    filter (SqliteManager.hasStatus PENDING) tbl <> [] ->
    (forall env tot,
       rejecting env ->
       exists tot' w' tbl',
         RecoveryManager.drainBatch env self tot w =
           (Ok (RecoveryManager.Continue, tot'), w') /\
         RecoveryManager.failed tot < RecoveryManager.failed tot' /\
         RecoveryManager.recovered tot' = RecoveryManager.recovered tot /\
         SqliteManager.db (sqliteManager w') = Some tbl' /\
         map PendingCar.id tbl' = map PendingCar.id tbl /\
         map PendingCar.status tbl' = map PendingCar.status tbl /\
         carJobs (remote w') = carJobs (remote w)) /\
    (forall envs tot,
       Forall rejecting envs ->
       RecoveryManager.drainLoop envs self tot w = None).
Proof.
  intros self w tbl Hc Hq Hchunk Ho Hdb Hu Hpend. split.
  - intros env tot Henv.
    destruct (rejected_batch env self tot w tbl Hc Hq Hchunk Ho Hdb Hu Henv
                Hpend)
      as (tot' & w' & tbl' & E & R1 & R2 & _ & R4 & R5 & R6 & R7).
    exists tot', w', tbl'. split; [exact E|]. split; [lia|].
    split; [exact R2|]. split; [exact R4|]. split; [exact R5|].
    split; [exact R6|].
    unfold carJobs. rewrite R7, flat_map_app. cbn. rewrite app_nil_r.
    reflexivity.
  - intros envs tot Hall. revert tot w tbl Ho Hdb Hu Hpend.
    induction Hall as [|env envs Henv _ IH]; intros tot w tbl Ho Hdb Hu Hpend;
      [reflexivity|].
    destruct (rejected_batch env self tot w tbl Hc Hq Hchunk Ho Hdb Hu Henv
                Hpend)
      as (tot' & w' & tbl' & E & _ & _ & R3 & R4 & R5 & R6 & _).
    cbn [RecoveryManager.drainLoop]. rewrite E.
    apply (IH tot' w' tbl').
    + rewrite R3. exact Ho.
    + exact R4.
    + unfold SqliteManager.unique_ids. rewrite R5. exact Hu.
    + pose proof (filter_status tbl tbl' PENDING R6) as L.
      destruct (filter (SqliteManager.hasStatus PENDING) tbl);
        [congruence|].
      destruct (filter (SqliteManager.hasStatus PENDING) tbl');
        [discriminate L|discriminate].
Qed.

(** X19 at ten batches over two pending rows. *)
Lemma X19_witness :
  RecoveryManager.drainLoop (repeat rejectingBatch 10) readyManager
    (RecoveryManager.mkTotals 0 0)
    (with_sqliteManager storeAB probingWorld) = None.
Proof.
  assert (Hu : SqliteManager.unique_ids [rowA; rowB]).
  { unfold SqliteManager.unique_ids. cbn.
    constructor; [|constructor; [|constructor]].
    - cbn. intros [H|[]]. discriminate H.
    - intros []. }
  assert (Hrej : rejecting rejectingBatch).
  { split; [repeat split|]. split; [eexists; reflexivity|].
    intros i. eexists. reflexivity. }
  destruct (X19_rejected_jobs_never_end readyManager
              (with_sqliteManager storeAB probingWorld) [rowA; rowB]
              eq_refl eq_refl ltac:(vm_compute; discriminate) eq_refl eq_refl
              Hu ltac:(vm_compute; discriminate)) as [_ H].
  apply H. cbn. repeat (apply Forall_cons; [exact Hrej|]). apply Forall_nil.
Defined.

(** ** Reconnection *)

Section ReconnectionFacts.
Import RecoveryManager Reconnection.

Lemma split_on_nosep (sep : ascii) (p : string) :
  has_char sep p = false -> split_on sep p = [p].
Proof.
  induction p as [|c p IH]; intros H; [reflexivity|].
  cbn [has_char] in H. apply orb_false_iff in H. destruct H as [H1 H2].
  cbn [split_on]. rewrite H1, (IH H2). reflexivity.
Qed.

Lemma split_on_app (sep : ascii) (p rest : string) :
  has_char sep p = false ->
  split_on sep (p ++ String sep rest)%string = p :: split_on sep rest.
Proof.
  induction p as [|c p IH]; intros H.
  - cbn. rewrite Ascii.eqb_refl. reflexivity.
  - cbn [has_char] in H. apply orb_false_iff in H. destruct H as [H1 H2].
    cbn [String.append split_on]. rewrite H1, (IH H2). reflexivity.
Qed.

Lemma split_join (sep : ascii) (parts : list string) :
  parts <> [] ->
  Forall (fun p => has_char sep p = false) parts ->
  split_on sep (join_with sep parts) = parts.
Proof.
  intros Hne H. induction H as [|p ps Hp Hps IH]; [congruence|].
  destruct ps as [|q ps].
  - cbn [join_with]. apply split_on_nosep, Hp.
  - change (join_with sep (p :: q :: ps))
      with (p ++ String sep (join_with sep (q :: ps)))%string.
    rewrite (split_on_app sep p _ Hp), IH by discriminate. reflexivity.
Qed.

(** What a forced reconnection does, by whether the write test of a
    connected client is accepted in SQLITE_MODE. *)
Lemma forceReconnection_cases (env : ForceEnv) (self : RecoveryManager.t)
    (w : World) :
  stateManager (fst (forceReconnection env self w)) = stateManager w /\
  (redisClient self = true -> connects env = true -> queue self = true ->
   (exists j, writeTest env = Ok j) ->
   StateManager.currentState (stateManager w) = SQLITE_MODE ->
   circuitBreaker (fst (forceReconnection env self w)) =
     CircuitBreaker.transitionToHalfOpen (circuitBreaker w) /\
   snd (forceReconnection env self w) = true) /\
  (~ (redisClient self = true /\ connects env = true /\ queue self = true /\
      (exists j, writeTest env = Ok j) /\
      StateManager.currentState (stateManager w) = SQLITE_MODE) ->
   circuitBreaker (fst (forceReconnection env self w)) = circuitBreaker w /\
   metrics (fst (forceReconnection env self w)) = metrics w /\
   snd (forceReconnection env self w) = false).
Proof.
  unfold forceReconnection, testRedisWrite, promote,
    StateManager.isSqliteMode.
  destruct (redisClient self); cbn [negb];
    [|split; [reflexivity|split; [discriminate|auto]]].
  destruct (connects env); cbn [negb];
    [|split; [reflexivity|split; [discriminate|auto]]].
  destruct (queue self); cbn [negb];
    [|split; [reflexivity|split; [discriminate|auto]]].
  destruct (writeTest env) as [j|e];
    [|split; [reflexivity|
              split; [intros _ _ _ [j D]; discriminate D|auto]]].
  cbn [stateManager with_remote].
  destruct (StateManager.currentState (stateManager w)) eqn:Hs;
    cbn [SeederState_eqb fst snd].
  - split; [reflexivity|]. split; [discriminate|auto].
  - split; [reflexivity|]. split; [auto|].
    intros H. exfalso. apply H. repeat split; eauto.
Qed.

End ReconnectionFacts.

(** X20. A [+switch-master] message is ignored, with nothing changed and
    no recovery started, unless it has at least five space-separated
    parts the first of which is the master name, no reconnection is being
    handled and at least 2000 ms have passed since the last one.
    Otherwise it is handled: the time is stamped and the flag is down
    again when the handler returns, which it does without waiting for the
    recovery it may have started. Handling never changes the seeder
    state. It forces the breaker to HALF_OPEN, with a failure count of 0
    and whatever the breaker's state was, and starts a recovery exactly
    when the client is set, the reconnection goes through, the queue is
    set, the write test is accepted and the state is SQLITE_MODE; in
    every other case the breaker and the metrics are as before and no
    recovery is started. A message made of the master name and four or
    more parts without spaces passes the format check. *)
Theorem X20_switch_master_event :
  forall (message : string) (now : Z) (env : Reconnection.ForceEnv)
         (latch : Reconnection.t) (self : RecoveryManager.t) (w : World),
    let parts := split_on " " message in
    let outcome :=
      Reconnection.handleSentinelSwitchMasterEvent message now env latch self
        w in
    let latch' := fst (fst outcome) in
    let w' := snd (fst outcome) in
    let started := snd outcome in
    let ignored :=
      (List.length parts < 5)%nat \/
      hd EmptyString parts <> Reconnection.sentinelMasterName latch \/
      Reconnection.isHandlingReconnection latch = true \/
      now - Reconnection.lastReconnectionTime latch <
        Reconnection.RECONNECTION_COOLDOWN_MS in
    let accepted :=
      RecoveryManager.redisClient self = true /\
      Reconnection.connects env = true /\
      RecoveryManager.queue self = true /\
      (exists j, Reconnection.writeTest env = Ok j) /\
      StateManager.currentState (stateManager w) = SQLITE_MODE in
    (ignored -> outcome = (latch, w, false)) /\
    (~ ignored ->
     latch' = Reconnection.mk false now
                (Reconnection.sentinelMasterName latch)) /\
    stateManager w' = stateManager w /\
    (~ ignored -> accepted ->
     circuitBreaker w' =
       CircuitBreaker.transitionToHalfOpen (circuitBreaker w) /\
     CircuitBreaker.state (circuitBreaker w') = HALF_OPEN /\
     CircuitBreaker.failureCount (circuitBreaker w') = 0 /\
     started = true) /\
    (ignored \/ ~ accepted ->
     circuitBreaker w' = circuitBreaker w /\
     metrics w' = metrics w /\
     started = false) /\
    (forall a b c d rest,
       message =
         join_with " "
           (Reconnection.sentinelMasterName latch :: a :: b :: c :: d :: rest) ->
       Forall (fun p => has_char " " p = false)
         (Reconnection.sentinelMasterName latch :: a :: b :: c :: d :: rest) ->
       Reconnection.isHandlingReconnection latch = false ->
       Reconnection.RECONNECTION_COOLDOWN_MS <=
         now - Reconnection.lastReconnectionTime latch ->
       latch' = Reconnection.mk false now
                  (Reconnection.sentinelMasterName latch)).
Proof.
  intros message now env latch self w parts outcome latch' w' started
    ignored accepted.
  destruct (forceReconnection_cases env self w) as (F1 & F2 & F3).
  assert (Hcase :
            ignored /\ outcome = (latch, w, false) \/
            ~ ignored /\
            outcome =
              (Reconnection.mk false now (Reconnection.sentinelMasterName latch),
               fst (Reconnection.forceReconnection env self w),
               snd (Reconnection.forceReconnection env self w))).
  { subst outcome ignored.
    unfold Reconnection.handleSentinelSwitchMasterEvent. fold parts.
    destruct (Nat.ltb_spec (List.length parts) 5) as [L|L];
      [left; auto|].
    destruct (String.eqb_spec (hd EmptyString parts)
                (Reconnection.sentinelMasterName latch)) as [N|N];
      [|left; auto].
    cbn [orb negb].
    destruct (Reconnection.isHandlingReconnection latch) eqn:Hh;
      [left; auto|].
    destruct (Z.ltb_spec (now - Reconnection.lastReconnectionTime latch)
                Reconnection.RECONNECTION_COOLDOWN_MS) as [C|C];
      [left; auto|].
    right. split.
    - intros [H|[H|[H|H]]]; try lia; congruence.
    - destruct (Reconnection.forceReconnection env self w). reflexivity. }
  subst latch' w' started.
  split; [intros H; destruct Hcase as [[_ E]|[N _]]; [exact E|contradiction]|].
  split; [intros H; destruct Hcase as [[I _]|[_ E]];
            [contradiction|rewrite E; reflexivity]|].
  split; [destruct Hcase as [[_ E]|[_ E]]; rewrite E; cbn [fst snd];
            [reflexivity|exact F1]|].
  split.
  { intros Hn (A1 & A2 & A3 & A4 & A5).
    destruct Hcase as [[I _]|[_ E]]; [contradiction|].
    rewrite E. cbn [fst snd].
    destruct (F2 A1 A2 A3 A4 A5) as [G1 G2]. rewrite G1.
    split; [reflexivity|]. split; [reflexivity|].
    split; [reflexivity|exact G2]. }
  split.
  { intros H. destruct Hcase as [[_ E]|[N E]]; rewrite E; cbn [fst snd].
    - auto.
    - destruct H as [H|H]; [contradiction|]. apply F3. exact H. }
  intros a b c d rest Hm Hf Hh Hc.
  destruct Hcase as [[I _]|[_ E]]; [|rewrite E; reflexivity].
  exfalso.
  assert (Hp : parts =
               Reconnection.sentinelMasterName latch :: a :: b :: c :: d
               :: rest).
  { unfold parts. rewrite Hm. apply split_join; [discriminate|exact Hf]. }
  destruct I as [I|[I|[I|I]]].
  - rewrite Hp in I. cbn [List.length] in I. lia.
  - rewrite Hp in I. apply I. reflexivity.
  - congruence.
  - lia.
Qed.

(** X20 at the message of a failover of [mymaster], handled in
    SQLITE_MODE with an OPEN breaker and an accepted write test. *)
Lemma X20_witness :
  let outcome :=
    Reconnection.handleSentinelSwitchMasterEvent
      "mymaster 10.0.0.1 6379 10.0.0.2 6379" 30000 switchEnv idleLatch
      readyManager openWorld in
  fst (fst outcome) = Reconnection.mk false 30000 "mymaster" /\
  CircuitBreaker.state (circuitBreaker (snd (fst outcome))) = HALF_OPEN /\
  snd outcome = true.
Proof.
  destruct (X20_switch_master_event "mymaster 10.0.0.1 6379 10.0.0.2 6379"
              30000 switchEnv idleLatch readyManager openWorld)
    as (_ & H2 & _ & H4 & _).
  assert (N : ~ ((List.length
                    (split_on " " "mymaster 10.0.0.1 6379 10.0.0.2 6379")
                  < 5)%nat \/
                 hd EmptyString
                   (split_on " " "mymaster 10.0.0.1 6379 10.0.0.2 6379")
                 <> Reconnection.sentinelMasterName idleLatch \/
                 Reconnection.isHandlingReconnection idleLatch = true \/
                 30000 - Reconnection.lastReconnectionTime idleLatch <
                   Reconnection.RECONNECTION_COOLDOWN_MS)).
  { vm_compute. intros [H|[H|[H|H]]].
    - lia.
    - apply H. reflexivity.
    - discriminate H.
    - discriminate H. }
  cbn zeta. split; [apply (H2 N)|].
  destruct (H4 N) as (_ & G2 & _ & G4).
  - repeat split; try reflexivity. exists (Some "9"). reflexivity.
  - split; [exact G2|exact G4].
Defined.

Section BackupFacts.
Import RecoveryManager Reconnection.

Lemma isRedisAvailable_closed (env : AvailEnv) (self : RecoveryManager.t)
    (w : World) :
  fst (isRedisAvailable env self w) = true ->
  redisClient self = true /\
  CircuitBreaker.isOpen (circuitBreaker w) = false.
Proof.
  unfold isRedisAvailable. destruct (redisClient self); cbn [negb];
    [|discriminate].
  destruct (CircuitBreaker.isOpen (circuitBreaker w)); [discriminate|auto].
Qed.

End BackupFacts.

(** X21. The two backup paths. The [ready] listener never changes the
    seeder state and returns without waiting for the recovery it may
    start. It does nothing while a reconnection is being handled, while
    the client is not set, and while the breaker is OPEN (the
    availability check refuses an OPEN breaker). It forces the breaker to
    HALF_OPEN and starts a recovery exactly when no reconnection is being
    handled, the availability check passes and the state is SQLITE_MODE,
    which can only be from CLOSED or HALF_OPEN; otherwise the breaker and
    the metrics are as before and no recovery is started. The periodic
    health check first probes: it never changes the seeder state or the
    durable store, and forces the breaker to HALF_OPEN, with a failure
    count of 0 and no cooldown timer, exactly when the state is
    SQLITE_MODE, the breaker is OPEN, the queue is set and the write test
    is accepted; otherwise it leaves the breaker and the metrics as they
    were, and outside SQLITE_MODE or with a breaker that is not OPEN it
    changes nothing. Then, with no row pending it returns at once with
    the world the probe left, and with rows pending it is the recovery
    triggered on that world, which it awaits: it returns exactly when
    that recovery does, with the seeder state and the breaker the probe
    left. *)
Theorem X21_backup_paths :
  forall (self : RecoveryManager.t) (w : World),
    (forall availability env latch,
       let r := Reconnection.onReady availability env latch self w in
       let able :=
         Reconnection.isHandlingReconnection latch = false /\
         fst (RecoveryManager.isRedisAvailable availability self w) = true /\
         StateManager.currentState (stateManager w) = SQLITE_MODE in
       stateManager (fst r) = stateManager w /\
       (Reconnection.isHandlingReconnection latch = true \/
        RecoveryManager.redisClient self = false \/
        CircuitBreaker.state (circuitBreaker w) = OPEN ->
        r = (w, false)) /\
       (able ->
        CircuitBreaker.state (circuitBreaker w) <> OPEN /\
        circuitBreaker (fst r) =
          CircuitBreaker.transitionToHalfOpen (circuitBreaker w) /\
        snd r = true) /\
       (~ able ->
        circuitBreaker (fst r) = circuitBreaker w /\
        metrics (fst r) = metrics w /\
        snd r = false)) /\
    (forall env,
       let probed := Reconnection.healthProbe env self w in
       let forcing :=
         StateManager.currentState (stateManager w) = SQLITE_MODE /\
         CircuitBreaker.state (circuitBreaker w) = OPEN /\
         RecoveryManager.queue self = true /\
         (exists j, Reconnection.writable env = Ok j) in
       stateManager probed = stateManager w /\
       sqliteManager probed = sqliteManager w /\
       (forcing ->
        circuitBreaker probed =
          CircuitBreaker.transitionToHalfOpen (circuitBreaker w) /\
        CircuitBreaker.state (circuitBreaker probed) = HALF_OPEN /\
        CircuitBreaker.failureCount (circuitBreaker probed) = 0 /\
        CircuitBreaker.cooldownTimer (circuitBreaker probed) = None) /\
       (~ forcing ->
        circuitBreaker probed = circuitBreaker w /\
        metrics probed = metrics w) /\
       (StateManager.currentState (stateManager w) = REDIS_MODE \/
        CircuitBreaker.state (circuitBreaker w) <> OPEN ->
        probed = w) /\
       (SqliteManager.getPendingCount (sqliteManager w) <= 0 ->
        Reconnection.checkAndRecover env self w = Some (self, probed)) /\
       (0 < SqliteManager.getPendingCount (sqliteManager w) ->
        Reconnection.checkAndRecover env self w =
          RecoveryManager.triggerRecovery (Reconnection.recovery env) self
            probed) /\
       (forall self' w',
          Reconnection.checkAndRecover env self w = Some (self', w') ->
          stateManager w' = stateManager w /\
          circuitBreaker w' = circuitBreaker probed)).
Proof.
  intros self w. split.
  - intros availability env latch r able. subst r able.
    unfold Reconnection.onReady, Reconnection.promote,
      StateManager.isSqliteMode.
    destruct (Reconnection.isHandlingReconnection latch) eqn:Hh.
    { cbn [fst snd]. split; [reflexivity|]. split; [reflexivity|].
      split; [intros (D & _); discriminate D|auto]. }
    pose proof (isRedisAvailable_untouched availability self w) as U.
    pose proof (isRedisAvailable_closed availability self w) as C.
    assert (G : RecoveryManager.redisClient self = false \/
                CircuitBreaker.state (circuitBreaker w) = OPEN ->
                RecoveryManager.isRedisAvailable availability self w =
                  (false, w)).
    { intros H. unfold RecoveryManager.isRedisAvailable.
      destruct (RecoveryManager.redisClient self) eqn:Hc; cbn [negb];
        [|reflexivity].
      destruct H as [H|H]; [discriminate H|].
      apply isOpen_true in H. rewrite H. reflexivity. }
    destruct (RecoveryManager.isRedisAvailable availability self w) as [b w1].
    cbn [fst snd] in U, C. destruct U as (U1 & U2 & U3 & _).
    rewrite U1.
    destruct b; cbn [andb].
    + destruct (StateManager.currentState (stateManager w)) eqn:Hs;
        cbn [SeederState_eqb fst snd stateManager with_circuitBreaker
             with_metrics circuitBreaker metrics].
      * split; [exact U1|].
        split; [intros [D|H]; [discriminate D|];
                specialize (G H); discriminate G|].
        split; [intros (_ & _ & D); discriminate D|].
        intros _. auto.
      * split; [exact U1|].
        split; [intros [D|H]; [discriminate D|];
                specialize (G H); discriminate G|].
        split.
        -- intros _. destruct (C eq_refl) as [_ C2].
           split; [intros Ho; apply isOpen_true in Ho; congruence|].
           rewrite U2. auto.
        -- intros H. exfalso. apply H. auto.
    + cbn [fst snd]. split; [exact U1|].
      split; [intros [D|H]; [discriminate D|];
              specialize (G H); injection G as <-; reflexivity|].
      split; [intros (_ & D & _); discriminate D|auto].
  - intros env probed forcing.
    assert (P : stateManager probed = stateManager w /\
                sqliteManager probed = sqliteManager w /\
                (forcing ->
                 circuitBreaker probed =
                   CircuitBreaker.transitionToHalfOpen (circuitBreaker w)) /\
                (~ forcing ->
                 circuitBreaker probed = circuitBreaker w /\
                 metrics probed = metrics w) /\
                (StateManager.currentState (stateManager w) = REDIS_MODE \/
                 CircuitBreaker.state (circuitBreaker w) <> OPEN ->
                 probed = w)).
    { subst probed forcing.
      unfold Reconnection.healthProbe, StateManager.isSqliteMode,
        RecoveryManager.testRedisWrite.
      destruct (StateManager.currentState (stateManager w)) eqn:Hs;
        cbn [SeederState_eqb andb].
      { split; [reflexivity|]. split; [reflexivity|].
        split; [intros (D & _); discriminate D|auto]. }
      destruct (CircuitBreaker.isOpen (circuitBreaker w)) eqn:Ho.
      2:{ split; [reflexivity|]. split; [reflexivity|].
          split; [intros (_ & D & _); apply isOpen_true in D; congruence|].
          auto. }
      apply isOpen_true in Ho.
      destruct (RecoveryManager.queue self) eqn:Hq; cbn [negb].
      2:{ split; [reflexivity|]. split; [reflexivity|].
          split; [intros (_ & _ & D & _); discriminate D|].
          split; [auto|]. intros [D|D]; [discriminate D|congruence]. }
      destruct (Reconnection.writable env) as [j|e] eqn:Hw.
      - cbn. split; [reflexivity|]. split; [reflexivity|].
        split; [auto|]. split.
        + intros H. exfalso. apply H. repeat split; eauto.
        + intros [D|D]; [discriminate D|congruence].
      - cbn. split; [reflexivity|]. split; [reflexivity|].
        split; [intros (_ & _ & _ & (j & D)); discriminate D|].
        split; [auto|]. intros [D|D]; [discriminate D|congruence]. }
    destruct P as (P1 & P2 & P3 & P4 & P5).
    split; [exact P1|]. split; [exact P2|].
    split; [intros F; rewrite (P3 F); cbn; auto|].
    split; [exact P4|]. split; [exact P5|].
    unfold Reconnection.checkAndRecover. fold probed. rewrite P2.
    split; [|split].
    + intros Hp.
      destruct (Z.ltb_spec 0 (SqliteManager.getPendingCount (sqliteManager w)));
        [lia|reflexivity].
    + intros Hp.
      destruct (Z.ltb_spec 0 (SqliteManager.getPendingCount (sqliteManager w)));
        [reflexivity|lia].
    + intros self' w' H. destruct (0 <? _).
      * apply triggerRecovery_keeps in H. destruct H as (H1 & H2 & _).
        rewrite H1, H2. auto.
      * injection H as _ <-. auto.
Qed.

(** X21 at a health check in SQLITE_MODE with an OPEN breaker and an
    accepted write test: with no row pending it returns with the breaker
    forced to HALF_OPEN, and with two rows pending it returns when the
    recovery it awaits has drained them. *)
Lemma X21_witness :
  (exists w',
     Reconnection.checkAndRecover patientCheck readyManager openWorld =
       Some (readyManager, w') /\
     CircuitBreaker.state (circuitBreaker w') = HALF_OPEN) /\
  (exists self' w',
     Reconnection.checkAndRecover patientCheck readyManager
       (with_sqliteManager storeAB openWorld) = Some (self', w') /\
     CircuitBreaker.state (circuitBreaker w') = HALF_OPEN).
Proof.
  split.
  - destruct (X21_backup_paths readyManager openWorld) as (_ & H).
    destruct (H patientCheck) as (_ & _ & F & _ & _ & R & _).
    exists (Reconnection.healthProbe patientCheck readyManager openWorld).
    split; [apply R; vm_compute; discriminate|].
    apply F. repeat split; try reflexivity. exists (Some "8"). reflexivity.
  - destruct (X21_backup_paths readyManager
                (with_sqliteManager storeAB openWorld)) as (_ & H).
    destruct (H patientCheck) as (_ & _ & F & _ & _ & _ & T & K).
    destruct (Reconnection.checkAndRecover patientCheck readyManager
                (with_sqliteManager storeAB openWorld))
      as [[self' w']|] eqn:E; [|vm_compute in E; discriminate E].
    exists self', w'. split; [reflexivity|].
    destruct (K self' w' eq_refl) as [_ K2]. rewrite K2.
    apply F. repeat split; try reflexivity. exists (Some "8"). reflexivity.
Defined.

(** ** Connecting: the ping with retries *)

Section PingFacts.
Import Bullmq.

Lemma pingLoop_step (n attempt maxRetries : nat) (env : nat -> Attempt)
    (lastError : option JsError) (pings : nat) (waitedMs : Z) :
  goes_on maxRetries env attempt ->
  exists lastError' pings',
    pingLoop (S n) attempt maxRetries env lastError pings waitedMs =
    pingLoop n (S attempt) maxRetries env lastError' pings'
      (waitedMs + 200 * Z.of_nat attempt).
Proof.
  intros [H|(e & H & Hr & Hlt)]; cbn [pingLoop]; rewrite H.
  - eauto.
  - rewrite Hr. apply Nat.ltb_lt in Hlt. rewrite Hlt. cbn [andb]. eauto.
Qed.

Lemma pingLoop_decides (n : nat) :
  forall attempt maxRetries env lastError pings waitedMs k,
    (attempt <= k < attempt + n)%nat ->
    (forall i, (attempt <= i < k)%nat -> goes_on maxRetries env i) ->
    (forall result,
       env k = Answered result ->
       outcome (pingLoop n attempt maxRetries env lastError pings waitedMs) =
         Ok result) /\
    (forall e,
       env k = Rejected e ->
       retryable e = false \/ (maxRetries <= k)%nat ->
       outcome (pingLoop n attempt maxRetries env lastError pings waitedMs) =
         Throw e).
Proof.
  induction n as [|n IH]; intros attempt maxRetries env lastError pings
    waitedMs k Hk Hgo; [lia|].
  destruct (Nat.eq_dec attempt k) as [->|Hne].
  - split.
    + intros result H. cbn [pingLoop]. rewrite H. reflexivity.
    + intros e H Hor. cbn [pingLoop]. rewrite H.
      destruct Hor as [Hr|Hm].
      * rewrite Hr. reflexivity.
      * apply Nat.ltb_ge in Hm. rewrite Hm, andb_false_r. reflexivity.
  - destruct (pingLoop_step n attempt maxRetries env lastError pings waitedMs)
      as (le' & p' & ->); [apply Hgo; lia|].
    apply IH; [lia|]. intros i Hi. apply Hgo. lia.
Qed.

Lemma pingLoop_bounds (n : nat) :
  forall attempt maxRetries env lastError pings waitedMs,
    let r := pingLoop n attempt maxRetries env lastError pings waitedMs in
    (pings <= Bullmq.pings r <= pings + n)%nat /\
    waitedMs <= Bullmq.waitedMs r <=
      waitedMs + 100 * Z.of_nat n * (2 * Z.of_nat attempt + Z.of_nat n - 1) /\
    (forall result,
       outcome r = Ok result ->
       exists k, (attempt <= k < attempt + n)%nat /\ env k = Answered result).
Proof.
  induction n as [|n IH]; intros attempt maxRetries env lastError pings
    waitedMs.
  - cbn. repeat split; try lia. intros result H. discriminate H.
  - cbn zeta. cbn [pingLoop].
    destruct (env attempt) as [|result|e] eqn:He.
    + specialize (IH (S attempt) maxRetries env lastError pings
                    (waitedMs + 200 * Z.of_nat attempt)).
      cbn zeta in IH. destruct IH as (I1 & I2 & I3).
      split; [lia|]. split; [nia|].
      intros result H. destruct (I3 result H) as (k & Hk & Hk').
      exists k. split; [lia|exact Hk'].
    + cbn [Bullmq.pings Bullmq.waitedMs outcome].
      split; [lia|]. split; [nia|].
      intros result' H. injection H as <-. exists attempt. split; [lia|exact He].
    + destruct (retryable e && (attempt <? maxRetries)%nat)%bool.
      * specialize (IH (S attempt) maxRetries env (Some e) (S pings)
                      (waitedMs + 200 * Z.of_nat attempt)).
        cbn zeta in IH. destruct IH as (I1 & I2 & I3).
        split; [lia|]. split; [nia|].
        intros result H. destruct (I3 result H) as (k & Hk & Hk').
        exists k. split; [lia|exact Hk'].
      * cbn [Bullmq.pings Bullmq.waitedMs outcome].
        split; [lia|]. split; [nia|]. intros result H. discriminate H.
Qed.

Lemma pingLoop_never_ready (n : nat) :
  forall attempt maxRetries env lastError pings waitedMs,
    (forall i, (attempt <= i < attempt + n)%nat -> env i = NotReady) ->
    pingLoop n attempt maxRetries env lastError pings waitedMs =
    mkPingRun
      (Throw (match lastError with
              | Some e => e
              | None => Error "Ping failed after retries"
              end))
      pings
      (waitedMs + 100 * Z.of_nat n * (2 * Z.of_nat attempt + Z.of_nat n - 1)).
Proof.
  induction n as [|n IH]; intros attempt maxRetries env lastError pings
    waitedMs H.
  - cbn [pingLoop]. f_equal. cbn. lia.
  - cbn [pingLoop]. rewrite (H attempt) by lia.
    rewrite IH by (intros i Hi; apply H; lia). f_equal. nia.
Qed.

End PingFacts.

(** X22. [pingWithRetry] makes at most [maxRetries] pings and waits at
    most 200 ms times 1 + 2 + ... + [maxRetries] in all. The first
    attempt that is not skipped (client not ready) or retried (an error
    whose message contains [writeable] or [offline], before the last
    attempt) decides: an answer is returned, any other error is thrown at
    once, and a retryable error on the last attempt is thrown too. A
    result that is returned was the answer of one of the attempts. If the
    client is never ready no ping is sent, the whole waiting time is
    spent, and the call rejects with [Ping failed after retries]. *)
Theorem X22_ping_with_retry :
  forall (maxRetries : nat) (env : nat -> Bullmq.Attempt),
    let r := Bullmq.pingWithRetry maxRetries env in
    let m := Z.of_nat maxRetries in
    (Bullmq.pings r <= maxRetries)%nat /\
    0 <= Bullmq.waitedMs r <= 100 * m * (m + 1) /\
    (forall k,
       (1 <= k <= maxRetries)%nat ->
       (forall i, (1 <= i < k)%nat -> goes_on maxRetries env i) ->
       (forall result,
          env k = Bullmq.Answered result -> Bullmq.outcome r = Ok result) /\
       (forall e,
          env k = Bullmq.Rejected e ->
          Bullmq.retryable e = false \/ k = maxRetries ->
          Bullmq.outcome r = Throw e)) /\
    (forall result,
       Bullmq.outcome r = Ok result ->
       exists k, (1 <= k <= maxRetries)%nat /\ env k = Bullmq.Answered result) /\
    ((forall i, (1 <= i <= maxRetries)%nat -> env i = Bullmq.NotReady) ->
     r = Bullmq.mkPingRun (Throw (Error "Ping failed after retries")) 0
           (100 * m * (m + 1))).
Proof.
  intros maxRetries env r m. subst r m. unfold Bullmq.pingWithRetry.
  pose proof (pingLoop_bounds maxRetries 1 maxRetries env None 0 0) as B.
  cbn zeta in B. destruct B as (B1 & B2 & B3).
  split; [lia|]. split; [nia|]. split; [|split].
  - intros k Hk Hgo.
    destruct (pingLoop_decides maxRetries 1 maxRetries env None 0%nat 0 k)
      as [D1 D2]; [lia|exact Hgo|].
    split; [exact D1|]. intros e He Hor. apply D2; [exact He|].
    destruct Hor as [Hr | ->]; [left; exact Hr|right; lia].
  - intros result H. destruct (B3 result H) as (k & Hk & Hk').
    exists k. split; [lia|exact Hk'].
  - intros H. rewrite pingLoop_never_ready by (intros i Hi; apply H; lia).
    f_equal. nia.
Qed.

(** X22 at three attempts: not ready, a retryable error, an answer. *)
Lemma X22_witness :
  Bullmq.outcome
    (Bullmq.pingWithRetry 3
       (fun i =>
          match i with
          | 1%nat => Bullmq.NotReady
          | 2%nat => Bullmq.Rejected offlineError
          | _ => Bullmq.Answered "PONG"
          end)) = Ok "PONG".
Proof.
  destruct (X22_ping_with_retry 3
              (fun i =>
                 match i with
                 | 1%nat => Bullmq.NotReady
                 | 2%nat => Bullmq.Rejected offlineError
                 | _ => Bullmq.Answered "PONG"
                 end)) as (_ & _ & H & _).
  destruct (H 3%nat) as [H1 _]; [lia| |apply H1; reflexivity].
  intros i Hi. assert (Hc : i = 1%nat \/ i = 2%nat) by lia.
  destruct Hc as [-> | ->].
  - left. reflexivity.
  - right. exists offlineError. split; [reflexivity|].
    split; [reflexivity|lia].
Defined.

(** ** Durable store: no car is lost *)

Section HeldFacts.
Import PendingCar SqliteManager.

Lemma flushBuffer_timer (env : FlushEnv) (s : SqliteManager.t) (tbl : Table) :
  db s = Some tbl -> writeBuffer s <> [] ->
  flushTimer (snd (flushBuffer env s)) = false.
Proof.
  intros Hdb Hb. destruct (failure env) as [e|] eqn:Hf.
  - destruct (torn env) as [k|] eqn:Ht.
    + rewrite (flushBuffer_torn env s tbl e k Hdb Hb Hf Ht). reflexivity.
    + rewrite (flushBuffer_fails env s tbl e Hdb Hb Hf Ht). reflexivity.
  - rewrite (flushBuffer_inserts env s tbl Hdb Hb Hf).
    destruct (insert_all _ tbl); reflexivity.
Qed.

Lemma keeps_cars_refl (env : FlushEnv) (s : SqliteManager.t) (tbl : Table) :
  db s = Some tbl -> keeps_cars env tbl (writeBuffer s) s.
Proof.
  intros Hdb. exists []. unfold held. rewrite Hdb.
  split; [reflexivity|]. split; [exists 0%nat, 0%nat; reflexivity|auto].
Qed.

Lemma held_with_db (tbl tbl' : Table) (s : SqliteManager.t) :
  db s = Some tbl ->
  map RecoveryManager.carData tbl' = map RecoveryManager.carData tbl ->
  held (with_db tbl' s) = held s.
Proof.
  intros Hdb H. unfold held. cbn [db with_db writeBuffer].
  rewrite Hdb, H. reflexivity.
Qed.

Lemma update_where_carData cond set (tbl : Table) :
  (forall r, RecoveryManager.carData (set r) = RecoveryManager.carData r) ->
  map RecoveryManager.carData (update_where cond set tbl) =
  map RecoveryManager.carData tbl.
Proof.
  intros H. unfold update_where. rewrite map_map. apply map_ext.
  intros r. destruct (cond r); [apply H|reflexivity].
Qed.

End HeldFacts.

(** X23. While the database is open the durable store never loses a
    car, and holds a car twice only after a failing flush whose
    transaction was ended from outside. After a flush, the expiry of the
    flush timer, [flushPendingWrites] and a [saveCar] outside shutdown
    (which adds the saved car, also when it rejects), the cars of the rows
    followed by those of the buffer are the ones before, in order, with in
    between a run of the buffer that is empty when the flush commits or
    is rolled back. Such a run does occur: when the transaction is ended
    after [k] inserts and the ids are new, the cars from the [k]-th on
    are both in the table and back in the buffer. During shutdown
    [saveCar] fulfils and drops the car. A timed flush that fails and is
    rolled back keeps the buffer but leaves no timer pending. The updates
    of the rows leave the cars as they are. *)
Theorem X23_no_car_lost :
  forall (s : SqliteManager.t) (tbl : SqliteManager.Table),
    SqliteManager.db s = Some tbl ->
    (forall env,
       keeps_cars env tbl (SqliteManager.writeBuffer s)
         (snd (SqliteManager.flushBuffer env s))) /\
    (forall env,
       keeps_cars env tbl (SqliteManager.writeBuffer s)
         (SqliteManager.flushTimerExpired env s)) /\
    (forall env,
       keeps_cars env tbl (SqliteManager.writeBuffer s)
         (snd (SqliteManager.flushPendingWrites env s)) /\
       SqliteManager.flushTimer (snd (SqliteManager.flushPendingWrites env s))
       = false) /\
    (forall env car,
       SqliteManager.isShuttingDown s = false ->
       keeps_cars env tbl (SqliteManager.writeBuffer s ++ [car])
         (snd (SqliteManager.saveCar env car s))) /\
    (forall env e k,
       SqliteManager.writeBuffer s <> [] ->
       SqliteManager.failure env = Some e ->
       SqliteManager.torn env = Some k ->
       SqliteManager.unique_ids
         (tbl ++ skipn k (SqliteManager.newRows (SqliteManager.instanceId s)
                            env 0 (SqliteManager.writeBuffer s))) ->
       fst (SqliteManager.flushBuffer env s) = Throw e /\
       held (snd (SqliteManager.flushBuffer env s)) =
       map RecoveryManager.carData tbl ++
       skipn k (SqliteManager.writeBuffer s) ++ SqliteManager.writeBuffer s) /\
    (forall env car,
       SqliteManager.isShuttingDown s = true ->
       SqliteManager.saveCar env car s = (Ok tt, s)) /\
    (forall env e,
       SqliteManager.flushTimer s = true ->
       SqliteManager.writeBuffer s <> [] ->
       SqliteManager.failure env = Some e ->
       SqliteManager.torn env = None ->
       SqliteManager.flushTimerExpired env s =
         SqliteManager.mkService (Some tbl) (SqliteManager.writeBuffer s)
           false (SqliteManager.isShuttingDown s)
           (SqliteManager.instanceId s)) /\
    (forall limit instanceId now failure,
       held (snd (SqliteManager.getAndMarkPendingCars limit instanceId now
                    failure s)) = held s) /\
    (forall carIds instanceId now failure,
       held (snd (SqliteManager.markCarsAsRecovering carIds instanceId now
                    failure s)) = held s) /\
    (forall carIds redisJobIds fault,
       held (snd (SqliteManager.markCarsAsSent carIds redisJobIds fault s)) =
       held s) /\
    (forall carIds fault,
       held (snd (SqliteManager.markCarsAsPending carIds fault s)) = held s) /\
    (forall maxAgeMs now failure,
       held (snd (SqliteManager.cleanupStaleRecoveries maxAgeMs now failure s))
       = held s).
Proof.
  intros s tbl Hdb.
  split; [intros env; apply (flushBuffer_keeps env s tbl Hdb)|].
  split.
  { intros env. unfold SqliteManager.flushTimerExpired.
    destruct (SqliteManager.flushTimer s);
      [apply (flushBuffer_keeps env s tbl Hdb)
      |apply (keeps_cars_refl env s tbl Hdb)]. }
  split.
  { intros env. unfold SqliteManager.flushPendingWrites.
    cbn [SqliteManager.writeBuffer].
    destruct (SqliteManager.writeBuffer s) as [|c cs] eqn:Hb.
    - cbn [snd SqliteManager.flushTimer]. split; [|reflexivity].
      exists []. unfold held. cbn. rewrite Hdb.
      split; [reflexivity|]. split; [exists 0%nat, 0%nat; reflexivity|auto].
    - set (s0 := SqliteManager.mkService _ _ false _ _).
      assert (Hb0 : SqliteManager.writeBuffer s0 = c :: cs)
        by reflexivity.
      split.
      + rewrite <- Hb0. apply (flushBuffer_keeps env s0 tbl Hdb).
      + apply (flushBuffer_timer env s0 tbl Hdb). rewrite Hb0. discriminate. }
  split.
  { intros env car Hsd. apply (saveCar_keeps env car s tbl Hdb Hsd). }
  split.
  { intros env e k Hb Hf Ht Hu.
    rewrite (flushBuffer_torn env s tbl e k Hdb Hb Hf Ht).
    rewrite (insert_each_all _ tbl Hu). cbn [fst snd].
    split; [reflexivity|]. unfold held.
    cbn [SqliteManager.db SqliteManager.writeBuffer].
    rewrite map_app, <- skipn_map, newRows_carData, <- app_assoc.
    reflexivity. }
  split.
  { intros env car Hsd. unfold SqliteManager.saveCar. rewrite Hsd.
    reflexivity. }
  split.
  { intros env e Ht Hb Hf Hn. unfold SqliteManager.flushTimerExpired.
    rewrite Ht, (flushBuffer_fails env s tbl e Hdb Hb Hf Hn). reflexivity. }
  split.
  { intros limit inst now failure.
    unfold SqliteManager.getAndMarkPendingCars. rewrite Hdb.
    destruct failure; [reflexivity|]. cbn [snd].
    apply (held_with_db tbl); [exact Hdb|].
    apply update_where_carData. reflexivity. }
  split.
  { intros carIds inst now failure.
    unfold SqliteManager.markCarsAsRecovering. rewrite Hdb.
    destruct carIds; [reflexivity|]. destruct failure; [reflexivity|].
    cbn [snd]. apply (held_with_db tbl); [exact Hdb|].
    apply update_where_carData. reflexivity. }
  split.
  { intros carIds jobs fault.
    destruct (markCarsAsSent_db s tbl carIds jobs fault Hdb) as [k ->].
    apply (held_with_db tbl); [exact Hdb|].
    rewrite map_map. apply map_ext. intros r. apply deliver_carData. }
  split.
  { intros carIds fault.
    destruct (markCarsAsPending_db s tbl carIds fault Hdb) as [k ->].
    apply (held_with_db tbl); [exact Hdb|].
    rewrite map_map. apply map_ext. intros r.
    apply (release_row (firstn k carIds) r). }
  intros maxAgeMs now failure.
  unfold SqliteManager.cleanupStaleRecoveries. rewrite Hdb.
  destruct failure; [reflexivity|]. cbn [snd].
  apply (held_with_db tbl); [exact Hdb|].
  apply update_where_carData. reflexivity.
Qed.

(** X23 at a flush of one buffered car whose transaction is ended from
    outside before the insert: the flush rejects, and the car is in the
    table and in the buffer. *)
Lemma X23_witness :
  fst (SqliteManager.flushBuffer tornFlush storeOne) = Throw busy /\
  held (snd (SqliteManager.flushBuffer tornFlush storeOne)) =
  [someCar; someCar].
Proof.
  destruct (X23_no_car_lost storeOne [] eq_refl) as (_ & _ & _ & _ & H & _).
  apply (H tornFlush busy 0%nat).
  - discriminate.
  - reflexivity.
  - reflexivity.
  - unfold SqliteManager.unique_ids. vm_compute. repeat constructor. intros [].
Defined.

(** ** Metrics: sessions and the log *)

Section SessionFacts.
Import Metrics.

Lemma closed_snoc (con : list FailoverEvent) (ev : FailoverEvent) :
  Z.of_nat (List.length (filter closes (con ++ [ev]))) =
  Z.of_nat (List.length (filter closes con)) + (if closes ev then 1 else 0).
Proof.
  rewrite filter_app, length_app. cbn [filter].
  destruct (closes ev); cbn [List.length]; lia.
Qed.

Lemma step_accounted (m : Metrics.t) (c : call) :
  accounted m ->
  accounted (step m c) /\
  exists more,
    console (step m c) = console m ++ more /\
    (List.length more <= 1)%nat /\
    Forall (fun ev => d_sessionId (details ev) <> None) more.
Proof.
  destruct m as [ls cs n tot con]. unfold accounted, closedSessions.
  cbn [logStream console currentSession totalFailoverSessions].
  intros (H1 & H2 & H3). subst ls.
  assert (Hone : forall ev : FailoverEvent,
            d_sessionId (details ev) <> None ->
            exists more, con ++ [ev] = con ++ more /\
                         (List.length more <= 1)%nat /\
                         Forall (fun ev => d_sessionId (details ev) <> None)
                           more).
  { intros ev Hev. exists [ev]. repeat split; auto. }
  assert (Hnone : exists more : list FailoverEvent,
            con = con ++ more /\ (List.length more <= 1)%nat /\
            Forall (fun ev => d_sessionId (details ev) <> None) more).
  { exists []. rewrite app_nil_r. repeat split; auto. }
  destruct cs as [s|].
  - pose proof (H2 s eq_refl) as Ha.
    destruct c; cbn [step];
      unfold recordMasterFailure, recordSentinelPromotion,
        recordStateTransitionToSqlite, recordStateTransitionToRedis,
        incrementSqliteFallbackCount, recordRecoveryStarted,
        recordRecoveryCompleted, activeSession, logEvent;
      cbn [currentSession logStream console sqliteFallbackCount
           totalFailoverSessions option_map];
      rewrite ?Ha;
      cbn [currentSession logStream console sqliteFallbackCount
           totalFailoverSessions option_map];
      rewrite ?closed_snoc; cbn [closes eventType details d_sessionId];
      (split;
       [split; [reflexivity|];
        split; [try (intros s' E; injection E as <-; exact Ha);
                try (intros s' E; discriminate E)
               |lia]
       |try (apply Hone; cbn; discriminate); try exact Hnone]).
  - destruct c; cbn [step];
      unfold recordMasterFailure, recordSentinelPromotion,
        recordStateTransitionToSqlite, recordStateTransitionToRedis,
        incrementSqliteFallbackCount, recordRecoveryStarted,
        recordRecoveryCompleted, activeSession, logEvent;
      cbn [currentSession logStream console sqliteFallbackCount
           totalFailoverSessions option_map];
      rewrite ?closed_snoc; cbn [closes eventType details d_sessionId];
      (split;
       [split; [reflexivity|];
        split; [try (intros s' E; injection E as <-; reflexivity);
                try (intros s' E; discriminate E)
               |lia]
       |try (apply Hone; cbn; discriminate); try exact Hnone]).
Qed.

End SessionFacts.

(** X24. However the tracker is called after the service start, the log
    file holds the same events as the console, in the same order; every
    call adds at most one event, and each added event carries a session
    id; and the sessions are accounted for: [totalFailoverSessions] is the
    number of closing events (a return to REDIS_MODE with a session id)
    logged so far, plus one while a session is open. *)
Theorem X24_sessions_accounted :
  forall (cs : list Metrics.call),
    let m0 := Metrics.onModuleInit Metrics.new in
    let m := Metrics.run m0 cs in
    Metrics.logStream m = Some (Metrics.console m) /\
    Metrics.totalFailoverSessions m =
      closedSessions m +
      match Metrics.activeSession m with Some _ => 1 | None => 0 end /\
    exists more,
      Metrics.console m = Metrics.console m0 ++ more /\
      (List.length more <= List.length cs)%nat /\
      Forall (fun ev => Metrics.d_sessionId (Metrics.details ev) <> None) more.
Proof.
  intros cs m0 m.
  assert (H0 : accounted m0).
  { unfold accounted, m0. cbn. repeat split; auto. intros s E. discriminate E. }
  assert (G : forall cs m1,
            accounted m1 ->
            accounted (Metrics.run m1 cs) /\
            exists more,
              Metrics.console (Metrics.run m1 cs) =
                Metrics.console m1 ++ more /\
              (List.length more <= List.length cs)%nat /\
              Forall (fun ev =>
                        Metrics.d_sessionId (Metrics.details ev) <> None)
                more).
  { clear. induction cs as [|c cs IH]; intros m1 H1.
    - split; [exact H1|]. exists []. rewrite app_nil_r. cbn. auto.
    - destruct (step_accounted m1 c H1) as (H2 & more1 & E1 & L1 & F1).
      destruct (IH (Metrics.step m1 c) H2) as (H3 & more2 & E2 & L2 & F2).
      change (Metrics.run m1 (c :: cs))
        with (Metrics.run (Metrics.step m1 c) cs).
      split; [exact H3|]. exists (more1 ++ more2).
      rewrite E2, E1, app_assoc, length_app. cbn [List.length].
      split; [reflexivity|]. split; [lia|]. apply Forall_app. auto. }
  destruct (G cs m0 H0) as ((A1 & A2 & A3) & Hmore). fold m in A1, A2, A3, Hmore.
  split; [exact A1|]. split; [|exact Hmore].
  rewrite A3. unfold Metrics.activeSession.
  destruct (Metrics.currentSession m) as [s|]; [|reflexivity].
  rewrite (A2 s eq_refl). reflexivity.
Qed.

(** A triggered recovery in which nothing fails, outside a failover
    session. *)
Lemma good_trigger (env : RecoveryManager.TriggerEnv)
    (self : RecoveryManager.t) (w : World) (tbl : SqliteManager.Table) :
  SqliteManager.db (sqliteManager w) = Some tbl ->
  SqliteManager.unique_ids tbl ->
  CircuitBreaker.isOpen (circuitBreaker w) = false ->
  Metrics.activeSession (metrics w) = None ->
  RecoveryManager.queue self = true ->
  RecoveryManager.redisClient self = true ->
  RecoveryManager.isRecovering self = false ->
  RecoveryManager.cooldownMs self <=
    RecoveryManager.now env - RecoveryManager.lastRecoveryAttempt self ->
  1 <= RecoveryManager.chunkSize self ->
  (exists j, RecoveryManager.probe (RecoveryManager.available env) = Ok j) ->
  RecoveryManager.cleanupFailure (RecoveryManager.drain env) = None ->
  Forall accepting (RecoveryManager.batches (RecoveryManager.drain env)) ->
  let cleaned :=
    SqliteManager.update_where
      (SqliteManager.stale_where
         (RecoveryManager.cleanupNow (RecoveryManager.drain env)
          - 5 * 60 * 1000))
      SqliteManager.set_pending_released tbl in
  let pending := filter (SqliteManager.hasStatus PENDING) cleaned in
  (List.length pending <
   List.length (RecoveryManager.batches (RecoveryManager.drain env)))%nat ->
  exists w' tbl' cars,
    RecoveryManager.triggerRecovery env self w =
      Some (RecoveryManager.with_recovering false (RecoveryManager.now env)
              self, w') /\
    stateManager w' = stateManager w /\
    circuitBreaker w' = circuitBreaker w /\
    metrics w' = metrics w /\
    SqliteManager.db (sqliteManager w') = Some tbl' /\
    SqliteManager.writeBuffer (sqliteManager w') =
      SqliteManager.writeBuffer (sqliteManager w) /\
    SqliteManager.getPendingCount (sqliteManager w') = 0 /\
    Forall2
      (fun r r' =>
         PendingCar.id r' = PendingCar.id r /\
         RecoveryManager.carData r' = RecoveryManager.carData r /\
         (PendingCar.status r = PENDING -> PendingCar.status r' = SENT) /\
         (PendingCar.status r <> PENDING -> r' = r))
      cleaned tbl' /\
    carJobs (remote w') = carJobs (remote w) ++ cars /\
    Permutation (map RecoveryManager.carData pending) cars.
Proof.
  intros Hdb Hu Ho Hses Hq Hc Hrec Hcool Hchunk (j & Hprobe) Hcf Hall cleaned
    pending Hlen.
  unfold RecoveryManager.triggerRecovery. rewrite Hrec.
  destruct (Z.ltb_spec (RecoveryManager.now env
                        - RecoveryManager.lastRecoveryAttempt self)
              (RecoveryManager.cooldownMs self)) as [Hlt|_]; [lia|].
  set (self0 := RecoveryManager.with_recovering false _ _).
  rewrite (isRedisAvailable_ok (RecoveryManager.available env) self0 w j
             Hc Hq Ho Hprobe).
  cbn [negb].
  set (w1 := with_metrics _ _).
  destruct (good_recover (RecoveryManager.drain env)
              (RecoveryManager.with_recovering true (RecoveryManager.now env)
                 self0) w1 tbl Hq Hc Hchunk Ho Hdb Hu Hcf Hall Hlen)
    as (result & w' & tbl' & cars & E & R1 & R2 & R3 & R4 & R5 & R6 & R7).
  rewrite E.
  pose proof (recoverPendingEntries_untouched _ _ _ _ _ E)
    as (U1 & U2 & U3 & (_ & U4 & _) & _).
  assert (Hm1 : metrics w1 = metrics w).
  { unfold w1. cbn [metrics with_metrics with_remote].
    unfold Metrics.recordRecoveryStarted. rewrite Hses. reflexivity. }
  eexists. exists tbl', cars.
  split; [reflexivity|].
  cbn [stateManager circuitBreaker metrics sqliteManager remote
       with_metrics].
  rewrite U1, U2, U3, U4, Hm1.
  split; [reflexivity|]. split; [reflexivity|].
  split.
  { unfold Metrics.recordRecoveryCompleted. rewrite Hses. reflexivity. }
  split; [exact R3|]. split; [reflexivity|]. split; [exact R4|].
  split; [exact R5|].
  split; [|exact R7]. rewrite R6. unfold w1.
  cbn [remote with_metrics with_remote]. rewrite carJobs_add, app_nil_r.
  reflexivity.
Qed.



(** ** An outage from end to end *)

Section RoundTrip.
Import SqliteManager.

(** The probe write that ends an outage. *)
Lemma probe_write (handler : WriteHandler.t) (env : WriteHandler.Env)
    (car : Car.t) (w : World) (j : option string) (n thr cd : Z) :
  WriteHandler.queue handler = true ->
  circuitBreaker w = CircuitBreaker.mk HALF_OPEN n thr cd None ->
  stateManager w = StateManager.mk SQLITE_MODE ->
  WriteHandler.add env = Ok j ->
  WriteHandler.writeCar handler env car w =
  (Ok tt,
   mkWorld (StateManager.mk REDIS_MODE)
     (CircuitBreaker.mk CLOSED 0 thr cd None) (sqliteManager w)
     (Metrics.recordStateTransitionToRedis SQLITE_MODE
        (WriteHandler.tToRedis0 env) (WriteHandler.tToRedis env) (metrics w))
     (Remote.add "car" (Remote.CarData car) (Ok j) (remote w))).
Proof.
  intros Hq Hcb Hst Hadd. destruct w as [sm cb sq me re].
  cbn [circuitBreaker stateManager] in Hcb, Hst. subst sm cb.
  unfold WriteHandler.writeCar. cbn [circuitBreaker CircuitBreaker.getState
    CircuitBreaker.state CircuitBreakerState_eqb].
  unfold WriteHandler.writeToRedis. rewrite Hq, Hadd. reflexivity.
Qed.

Lemma cleanup_new_rows (cutoff : Z) (inst : string) (env : FlushEnv)
    (cars : list Car.t) :
  forall i,
    update_where (stale_where cutoff) set_pending_released
      (newRows inst env i cars) = newRows inst env i cars /\
    filter (hasStatus PENDING) (newRows inst env i cars) =
      newRows inst env i cars.
Proof.
  induction cars as [|car cars IH]; intros i; [split; reflexivity|].
  destruct (IH (S i)) as [IH1 IH2]. cbn [newRows].
  unfold update_where in *. cbn [map filter]. rewrite IH1, IH2.
  split; reflexivity.
Qed.

End RoundTrip.

(** X26. No car is lost over a whole outage. From REDIS_MODE with a
    closed breaker, an empty write buffer and no failover session, let
    [threshold] consecutive ticks fail with transport errors, the
    cooldown expire, the next tick be accepted by the queue, the flush
    timer fire with fresh ids, and the health check then find the store
    reachable and every job accepted. At the end the seeder is in
    REDIS_MODE with the breaker CLOSED at count 0 and the session closed,
    the buffer is empty, no row is PENDING, and the queue has received
    the car of the accepted tick and then, once each, the cars of the
    failed ticks together with those of the rows that were pending
    before. *)
Theorem X26_outage_round_trip :
  forall (seeder : CarSeeder.t) (handler : WriteHandler.t)
         (self : RecoveryManager.t)
         (inputs : list (WriteHandler.Env * Car.t)) (w : World) (thr cd : Z)
         (probeEnv : WriteHandler.Env) (probeCar : Car.t) (j : option string)
         (fenv : SqliteManager.FlushEnv) (cenv : Reconnection.CheckEnv)
         (tbl : SqliteManager.Table),
    let env := Reconnection.recovery cenv in
    let rows :=
      SqliteManager.newRows (SqliteManager.instanceId (sqliteManager w)) fenv 0
        (map snd inputs) in
    let cleaned :=
      SqliteManager.update_where
        (SqliteManager.stale_where
           (RecoveryManager.cleanupNow (RecoveryManager.drain env)
            - 5 * 60 * 1000))
        SqliteManager.set_pending_released tbl in
    let pending := filter (SqliteManager.hasStatus PENDING) cleaned in
    CarSeeder.isShuttingDown seeder = false ->
    WriteHandler.queue handler = true ->
    circuitBreaker w = CircuitBreaker.mk CLOSED 0 thr cd None ->
    StateManager.currentState (stateManager w) = REDIS_MODE ->
    Metrics.currentSession (metrics w) = None ->
    SqliteManager.db (sqliteManager w) = Some tbl ->
    SqliteManager.writeBuffer (sqliteManager w) = [] ->
    SqliteManager.isShuttingDown (sqliteManager w) = false ->
    (List.length inputs < SqliteManager.batchSize)%nat ->
    1 <= thr ->
    Z.of_nat (List.length inputs) = thr ->
    Forall (fun i => exists e,
              WriteHandler.add (fst i) = Throw e /\
              WriteHandler.isRedisConnectionError (Some e) = true) inputs ->
    WriteHandler.add probeEnv = Ok j ->
    SqliteManager.failure fenv = None ->
    SqliteManager.unique_ids (tbl ++ rows) ->
    RecoveryManager.queue self = true ->
    RecoveryManager.redisClient self = true ->
    RecoveryManager.isRecovering self = false ->
    RecoveryManager.cooldownMs self <=
      RecoveryManager.now env - RecoveryManager.lastRecoveryAttempt self ->
    1 <= RecoveryManager.chunkSize self ->
    (exists j', RecoveryManager.probe (RecoveryManager.available env) = Ok j') ->
    RecoveryManager.cleanupFailure (RecoveryManager.drain env) = None ->
    Forall accepting (RecoveryManager.batches (RecoveryManager.drain env)) ->
    (List.length pending + List.length inputs <
     List.length (RecoveryManager.batches (RecoveryManager.drain env)))%nat ->
    let w1 := CarSeeder.ticks seeder handler inputs w in
    let w2 := with_circuitBreaker
                (CircuitBreaker.cooldownExpired (circuitBreaker w1)) w1 in
    let w3 := CarSeeder.tick seeder handler probeEnv probeCar w2 in
    let w4 := with_sqliteManager
                (SqliteManager.flushTimerExpired fenv (sqliteManager w3)) w3 in
    exists self' w5 tbl5 cars,
      Reconnection.checkAndRecover cenv self w4 = Some (self', w5) /\
      StateManager.currentState (stateManager w5) = REDIS_MODE /\
      circuitBreaker w5 = CircuitBreaker.mk CLOSED 0 thr cd None /\
      Metrics.activeSession (metrics w5) = None /\
      SqliteManager.db (sqliteManager w5) = Some tbl5 /\
      SqliteManager.writeBuffer (sqliteManager w5) = [] /\
      SqliteManager.getPendingCount (sqliteManager w5) = 0 /\
      carJobs (remote w5) = carJobs (remote w) ++ probeCar :: cars /\
      Permutation (map RecoveryManager.carData pending ++ map snd inputs) cars.
Proof.
  intros seeder handler self inputs w thr cd probeEnv probeCar j fenv cenv tbl
    env rows cleaned pending Hsd Hq Hcb Hst Hses Hdb Hbuf Hdown Hroom Hthr Hlen
    Hall Hprobe Hf Hu Hrq Hrc Hrec Hcool Hchunk Havail Hcf Hacc Hbatches
    w1 w2 w3 w4.
  destruct (outage_world seeder handler inputs w thr cd Hsd Hq Hcb Hst Hses
              Hdown ltac:(rewrite Hbuf; cbn; lia) Hthr Hlen Hall)
    as (O1 & O2 & O3 & O4 & _).
  fold w1 in O1, O2, O3, O4. rewrite Hdb, Hbuf in O3. cbn [app] in O3.
  assert (Hne : map snd inputs <> []).
  { destruct inputs; [cbn in Hlen; lia|discriminate]. }
  (* the probe *)
  assert (E3 : w3 =
               mkWorld (StateManager.mk REDIS_MODE)
                 (CircuitBreaker.mk CLOSED 0 thr cd None) (sqliteManager w1)
                 (Metrics.recordStateTransitionToRedis SQLITE_MODE
                    (WriteHandler.tToRedis0 probeEnv)
                    (WriteHandler.tToRedis probeEnv) (metrics w1))
                 (Remote.add "car" (Remote.CarData probeCar) (Ok j)
                    (remote w1))).
  { unfold w3, CarSeeder.tick. rewrite Hsd.
    rewrite (probe_write handler probeEnv probeCar w2 j thr thr cd Hq);
      [reflexivity| |exact O2|exact Hprobe].
    unfold w2. cbn [circuitBreaker with_circuitBreaker]. rewrite O1.
    reflexivity. }
  (* the timed flush *)
  assert (E4 : sqliteManager w4 =
               SqliteManager.mkService (Some (tbl ++ rows)) [] false false
                 (SqliteManager.instanceId (sqliteManager w))).
  { unfold w4. cbn [sqliteManager with_sqliteManager]. rewrite E3.
    cbn [sqliteManager]. rewrite O3.
    unfold SqliteManager.flushTimerExpired. cbn [SqliteManager.flushTimer].
    rewrite (flushBuffer_inserts fenv
               (SqliteManager.mkService (Some tbl) (map snd inputs) true false
                  (SqliteManager.instanceId (sqliteManager w)))
               tbl eq_refl Hne Hf).
    cbn [SqliteManager.instanceId SqliteManager.writeBuffer
         SqliteManager.isShuttingDown].
    fold rows. rewrite (insert_all_some rows tbl Hu). reflexivity. }
  assert (S4 : stateManager w4 = StateManager.mk REDIS_MODE).
  { unfold w4. rewrite E3. reflexivity. }
  assert (C4 : circuitBreaker w4 = CircuitBreaker.mk CLOSED 0 thr cd None).
  { unfold w4. rewrite E3. reflexivity. }
  assert (M4 : Metrics.activeSession (metrics w4) = None).
  { unfold w4. rewrite E3. cbn [metrics with_sqliteManager].
    unfold Metrics.activeSession.
    destruct (toRedis_closes SQLITE_MODE (WriteHandler.tToRedis0 probeEnv)
                (WriteHandler.tToRedis probeEnv) (metrics w1)) as [-> _].
    reflexivity. }
  assert (R4 : carJobs (remote w4) = carJobs (remote w) ++ [probeCar]).
  { unfold w4. rewrite E3. cbn [remote with_sqliteManager].
    rewrite carJobs_add. unfold carJobs. rewrite O4. reflexivity. }
  (* the rows the health check finds *)
  destruct (cleanup_new_rows
              (RecoveryManager.cleanupNow (RecoveryManager.drain env)
               - 5 * 60 * 1000)
              (SqliteManager.instanceId (sqliteManager w)) fenv (map snd inputs)
              0%nat) as [N1 N2]. fold rows in N1, N2.
  assert (Hp4 : filter (SqliteManager.hasStatus PENDING)
                  (SqliteManager.update_where
                     (SqliteManager.stale_where
                        (RecoveryManager.cleanupNow (RecoveryManager.drain env)
                         - 5 * 60 * 1000))
                     SqliteManager.set_pending_released (tbl ++ rows)) =
                pending ++ rows).
  { unfold SqliteManager.update_where in *. rewrite map_app, filter_app, N1, N2.
    reflexivity. }
  assert (Hrows : List.length rows = List.length inputs).
  { rewrite <- (length_map RecoveryManager.carData). unfold rows.
    rewrite newRows_carData, length_map. reflexivity. }
  assert (Hpos : 0 < SqliteManager.getPendingCount (sqliteManager w4)).
  { rewrite E4. unfold SqliteManager.getPendingCount. cbn [SqliteManager.db].
    rewrite filter_app, N2, length_app, Hrows. lia. }
  unfold Reconnection.checkAndRecover, Reconnection.healthProbe.
  unfold StateManager.isSqliteMode. rewrite S4. cbn [SeederState_eqb andb
    StateManager.currentState].
  destruct (Z.ltb_spec 0 (SqliteManager.getPendingCount (sqliteManager w4)))
    as [_|Hle]; [|lia].
  destruct (good_trigger env self w4 (tbl ++ rows)) as
    (w5 & tbl5 & cars & E & G1 & G2 & G3 & G4 & G5 & G6 & _ & G8 & G9);
    try assumption.
  - rewrite E4. reflexivity.
  - rewrite C4. reflexivity.
  - cbn zeta. rewrite Hp4, length_app, Hrows. exact Hbatches.
  - exists (RecoveryManager.with_recovering false (RecoveryManager.now env) self),
      w5, tbl5, cars.
    split; [exact E|]. rewrite G1, G2, G3, G5, S4, C4, E4.
    split; [reflexivity|]. split; [reflexivity|]. split; [exact M4|].
    split; [exact G4|]. split; [reflexivity|]. split; [exact G6|].
    split.
    + rewrite G8, R4, <- app_assoc. reflexivity.
    + cbn zeta in G9. rewrite Hp4, map_app in G9. unfold rows in G9.
      rewrite newRows_carData in G9. exact G9.
Qed.

(** X26 at an outage of five refused writes at the default threshold. *)
Lemma X26_witness :
  let seeder := CarSeeder.mk false true in
  let handler := WriteHandler.mk true in
  let w1 := CarSeeder.ticks seeder handler (repeat (refusedEnv, someCar) 5)
              freshWorld in
  let w2 := with_circuitBreaker
              (CircuitBreaker.cooldownExpired (circuitBreaker w1)) w1 in
  let w3 := CarSeeder.tick seeder handler acceptedEnv someCar w2 in
  let w4 := with_sqliteManager
              (SqliteManager.flushTimerExpired countingFlush (sqliteManager w3))
              w3 in
  exists self' w5,
    Reconnection.checkAndRecover patientCheck readyManager w4 =
      Some (self', w5) /\
    SqliteManager.getPendingCount (sqliteManager w5) = 0 /\
    List.length (carJobs (remote w5)) = 6%nat.
Proof.
  intros seeder handler w1 w2 w3 w4.
  assert (Hall : Forall (fun i => exists e,
                           WriteHandler.add (fst i) = Throw e /\
                           WriteHandler.isRedisConnectionError (Some e) = true)
                   (repeat (refusedEnv, someCar) 5)).
  { repeat constructor; exists refused; split; reflexivity. }
  assert (Hu : SqliteManager.unique_ids
                 ([] ++ SqliteManager.newRows "instance-1-0" countingFlush 0
                          (map snd (repeat (refusedEnv, someCar) 5)))).
  { unfold SqliteManager.unique_ids.
    set (l := map PendingCar.id _).
    assert (E : nodup string_dec l = l) by (vm_compute; reflexivity).
    rewrite <- E. apply NoDup_nodup. }
  assert (Hacc : accepting cleanBatch).
  { split; [repeat split|]. split; [eexists; reflexivity|].
    intros i. eexists. reflexivity. }
  assert (Hbatches : Forall accepting
                       (RecoveryManager.batches
                          (RecoveryManager.drain
                             (Reconnection.recovery patientCheck)))).
  { cbn. repeat (apply Forall_cons; [exact Hacc|]). apply Forall_nil. }
  destruct (X26_outage_round_trip seeder handler readyManager
              (repeat (refusedEnv, someCar) 5) freshWorld 5 2000 acceptedEnv
              someCar (Some "1") countingFlush patientCheck []
              eq_refl eq_refl eq_refl eq_refl eq_refl eq_refl eq_refl eq_refl
              ltac:(vm_compute; lia) ltac:(lia) eq_refl Hall eq_refl eq_refl
              Hu eq_refl eq_refl eq_refl ltac:(vm_compute; discriminate)
              ltac:(vm_compute; discriminate)
              ltac:(eexists; reflexivity) eq_refl Hbatches
              ltac:(vm_compute; lia))
    as (self' & w5 & tbl5 & cars & E & _ & _ & _ & _ & _ & G & J & P).
  exists self', w5. split; [exact E|]. split; [exact G|].
  rewrite J, length_app. cbn [List.length carJobs freshWorld remote
    Remote.jobs flat_map].
  apply Permutation_length in P. rewrite <- P. reflexivity.
Defined.
